(** * SMPP ESME client core (vumi/transports/smpp/clientserver/client.py)

    A shallow embedding of the protocol engine: the sequence-number
    allocator over the shared key-value store, the framer, the deliver
    pipeline and the submit pipeline with its multipart splitters.

    Python 2 [str] values are byte strings and are modelled by [string]
    (one [ascii] per byte).  Coroutines ([inlineCallbacks]) are modelled by
    programs of a free monad [Prog] whose nodes are the calls the code makes
    to its collaborators (the store, the transport, the processors, the
    logger, the random generator); a handler gives the replies. *)

From Stdlib Require Import ZArith String Ascii List Lia Bool.
From stdpp Require Import base option list gmap strings.

Local Open Scope string_scope.
Local Open Scope list_scope.
Local Open Scope Z_scope.

(** ** Python values and builtins *)

Module Py.

(** Exceptions the modelled code can raise. *)
Inductive Exc := KeyError | TypeError | ValueError.

(** Outcome of a pure, fallible Python expression. *)
Inductive Result (A : Type) : Type :=
| Ok (a : A)
| Err (e : Exc).
Arguments Ok {A} a.
Arguments Err {A} e.

Definition rbind {A B} (r : Result A) (f : A → Result B) : Result B :=
  match r with Ok a => f a | Err e => Err e end.

(** The dynamically typed values that travel in keyword dictionaries. *)
#[warnings="-register-all"]
Inductive PyVal :=
| VNone
| VBool (b : bool)
| VInt (z : Z)
| VStr (s : string)
| VDict (d : list (string * PyVal)).

(** Truth value testing ([if x:], [not x]). *)
Definition truthy (v : PyVal) : bool :=
  match v with
  | VNone => false
  | VBool b => b
  | VInt z => negb (z =? 0)
  | VStr s => negb (String.eqb s "")
  | VDict d => match d with [] => false | _ => true end
  end.

(** [v == 'literal'] for a string literal. *)
Definition eq_str (v : PyVal) (lit : string) : bool :=
  match v with VStr s => String.eqb s lit | _ => false end.

(** [len(v)]. *)
Definition len (v : PyVal) : Result Z :=
  match v with
  | VStr s => Ok (Z.of_nat (String.length s))
  | VDict d => Ok (Z.of_nat (length d))
  | _ => Err TypeError
  end.

(** [d[key]] on a nested dictionary value. *)
Fixpoint assoc (key : string) (d : list (string * PyVal)) : option PyVal :=
  match d with
  | [] => None
  | (k, v) :: d' => if String.eqb k key then Some v else assoc key d'
  end.

Definition getitem (v : PyVal) (key : string) : Result PyVal :=
  match v with
  | VDict d => match assoc key d with Some x => Ok x | None => Err KeyError end
  | _ => Err TypeError
  end.

(** Slices [s[:n]] and [s[n:]] of a byte string. *)
Fixpoint take (n : nat) (s : string) : string :=
  match n, s with
  | S n', String c s' => String c (take n' s')
  | _, _ => ""
  end.

Fixpoint drop (n : nat) (s : string) : string :=
  match n, s with
  | S n', String _ s' => drop n' s'
  | _, _ => s
  end.

(** [s[:n]] and [s[n:]] for an integer bound; a negative bound counts from
    the end. *)
Definition slice_to (s : string) (n : Z) : string :=
  if n <? 0 then take (Z.to_nat (Z.of_nat (String.length s) + n)) s
  else take (Z.to_nat n) s.

Definition slice_from (s : string) (n : Z) : string :=
  if n <? 0 then drop (Z.to_nat (Z.of_nat (String.length s) + n)) s
  else drop (Z.to_nat n) s.

(** [d.pop(key, fallback)]: the value and the dictionary without the key. *)
Definition dict_pop (key : string) (fallback : PyVal) (d : gmap string PyVal)
  : PyVal * gmap string PyVal :=
  (default fallback (d !! key), delete key d).

(** [d[key]] on a keyword dictionary. *)
Definition dict_get (d : gmap string PyVal) (key : string) : Result PyVal :=
  match d !! key with Some v => Ok v | None => Err KeyError end.

(** [x < n] where [x] is an integer or [None]; in Python 2 [None] sorts
    before every number. *)
Definition lt_opt (x : option Z) (n : Z) : bool :=
  match x with Some v => v <? n | None => true end.

(** [chr(i)]: defined on [0, 255], [ValueError] elsewhere. *)
Definition chr (i : Z) : Result ascii :=
  if (0 <=? i) && (i <? 256) then Ok (ascii_of_N (Z.to_N i)) else Err ValueError.

Definition ord (c : ascii) : Z := Z.of_N (N_of_ascii c).

(** *** Hexadecimal text *)

(** The lowercase digit of a value below 16. *)
Definition hexdigit (n : Z) : ascii :=
  if n <? 10 then ascii_of_N (Z.to_N (48 + n)) else ascii_of_N (Z.to_N (87 + n)).

(** The value of a hexadecimal digit, either case. *)
Definition digit_value (c : ascii) : option Z :=
  let n := ord c in
  if (48 <=? n) && (n <=? 57) then Some (n - 48)
  else if (97 <=? n) && (n <=? 102) then Some (n - 87)
  else if (65 <=? n) && (n <=? 70) then Some (n - 55)
  else None.

Definition is_lower_hexdigit (c : ascii) : bool :=
  let n := ord c in
  ((48 <=? n) && (n <=? 57)) || ((97 <=? n) && (n <=? 102)).

Fixpoint all_chars (p : ascii → bool) (s : string) : bool :=
  match s with
  | "" => true
  | String c s' => p c && all_chars p s'
  end.

(** ['%02x' % ord(c)]: two digits for one byte. *)
Definition hex2 (c : ascii) : string :=
  String (hexdigit (ord c / 16)) (String (hexdigit (ord c mod 16)) "").

(** [binascii.b2a_hex(s)], also [''.join('%02x' % ord(c) for c in s)]. *)
Fixpoint b2a_hex (s : string) : string :=
  match s with
  | "" => ""
  | String c s' => hex2 c +:+ b2a_hex s'
  end.

(** Digits of a non-negative number, most significant first. *)
Fixpoint hex_digits (fuel : nat) (v : Z) (acc : string) : string :=
  let acc' := String (hexdigit (v mod 16)) acc in
  match fuel with
  | O => acc'
  | S fuel' => if v / 16 =? 0 then acc' else hex_digits fuel' (v / 16) acc'
  end.

Definition hex (v : Z) : string := hex_digits (Z.to_nat (Z.log2 v)) v "".

(** Left padding with zeros up to a width. *)
Fixpoint zeros (n : nat) (s : string) : string :=
  match n with O => s | S n' => String "0" (zeros n' s) end.

Definition zfill (width : nat) (s : string) : string :=
  zeros (width - String.length s) s.

(** ["%04x" % v]: zero padded to a width of at least four characters, the
    sign of a negative number counting in the width. *)
Definition fmt_04x (v : Z) : string :=
  if v <? 0 then String "-" (zfill 3 (hex (- v))) else zfill 4 (hex v).

(** *** [int(s, 16)] *)

Definition is_space (c : ascii) : bool :=
  let n := ord c in (n =? 32) || ((9 <=? n) && (n <=? 13)).

Fixpoint lstrip (s : string) : string :=
  match s with
  | String c s' => if is_space c then lstrip s' else s
  | "" => ""
  end.

(** Reads a maximal run of digits; returns the value, the number of digits
    read and the text left over. *)
Fixpoint read_digits (s : string) (acc : Z) (count : nat) : Z * nat * string :=
  match s with
  | String c s' =>
      match digit_value c with
      | Some d => read_digits s' (16 * acc + d) (S count)
      | None => (acc, count, s)
      end
  | "" => (acc, count, "")
  end.

(** An optional [0x] or [0X] prefix is skipped when a digit follows it. *)
Definition skip_prefix (s : string) : string :=
  match s with
  | String "0" (String x (String d rest as tl)) =>
      if ((ord x =? 120) || (ord x =? 88)) && bool_decide (is_Some (digit_value d))
      then tl else s
  | _ => s
  end.

Definition parse_unsigned (s : string) : Result Z :=
  let '(v, count, rest) := read_digits (skip_prefix s) 0 O in
  match count, lstrip rest with
  | S _, "" => Ok v
  | _, _ => Err ValueError
  end.

(** [int(s, 16)] for a string [s]: surrounding white space, an optional
    sign, an optional [0x] prefix, then at least one digit. *)
Definition int16 (s : string) : Result Z :=
  match lstrip s with
  | String "-" s' => rbind (parse_unsigned s') (λ v, Ok (- v))
  | String "+" s' => parse_unsigned s'
  | s' => parse_unsigned s'
  end.

End Py.


(** ** PDUs *)

(** Modelled from the spec: the PDU codec and builder library
    ([smpp.pdu], [smpp.pdu_builder]) is an external collaborator that is
    not among the sources; it "exposes pack/unpack by command name and
    parameter dictionary".  A PDU is kept in its unpacked form: the header
    fields, the keyword parameters it was built from and the optional
    parameters added to it afterwards, in the order they were added. *)
Record PDU := mkPDU {
  command_id : string;
  command_status : string;
  sequence_number : Z;
  mandatory_parameters : gmap string Py.PyVal;
  optional_parameters : list (string * Py.PyVal)
}.

Module Builder.

Definition SubmitSM (seq : Z) (kwargs : gmap string Py.PyVal) : PDU :=
  mkPDU "submit_sm" "ESME_ROK" seq kwargs [].

Definition DeliverSMResp (seq : Z) (kwargs : gmap string Py.PyVal) : PDU :=
  mkPDU "deliver_sm_resp" "ESME_ROK" seq kwargs [].

Definition EnquireLink (seq : Z) (kwargs : gmap string Py.PyVal) : PDU :=
  mkPDU "enquire_link" "ESME_ROK" seq kwargs [].

Definition QuerySM (seq : Z) (kwargs : gmap string Py.PyVal) : PDU :=
  mkPDU "query_sm" "ESME_ROK" seq kwargs [].

(** [pdu._PDU__add_optional_parameter(tag, value)] *)
Definition add_optional_parameter (tag : string) (value : Py.PyVal) (pdu : PDU) : PDU :=
  mkPDU (command_id pdu) (command_status pdu) (sequence_number pdu)
        (mandatory_parameters pdu) (optional_parameters pdu ++ [(tag, value)]).

(** [pdu.add_message_payload(value)]: the message moves from the mandatory
    [short_message] into the optional [message_payload]. *)
Definition add_message_payload (value : string) (pdu : PDU) : PDU :=
  mkPDU (command_id pdu) (command_status pdu) (sequence_number pdu)
        (<["short_message" := Py.VNone]> (mandatory_parameters pdu))
        (optional_parameters pdu ++ [("message_payload", Py.VStr value)]).

Definition set_sar_msg_ref_num := add_optional_parameter "sar_msg_ref_num".
Definition set_sar_total_segments := add_optional_parameter "sar_total_segments".
Definition set_sar_segment_seqnum := add_optional_parameter "sar_segment_seqnum".

End Builder.

(** ** Calls to collaborators and the coroutine monad *)

(** Every call the protocol makes to something outside itself.  The store
    calls carry the key and the arguments; the processor calls carry the PDU
    they are offered; the logger calls carry the format text. *)
Inductive Call :=
| redis_incr (key : string)
| redis_setnx (key : string) (value : Z)
| redis_ttl (key : string)
| redis_expire (key : string) (seconds : Z)
| redis_get (key : string)
| redis_delete (key : string)
| redis_llen (key : string)
| redis_lpush (key : string) (value : Z)
| redis_lpop (key : string)
| transport_write (pdu : PDU)
| transport_loseConnection
| randint (a b : Z)
| log_msg (text : string)
| log_err (text : string)
| log_debug (text : string)
| handle_delivery_report_pdu (pdu : PDU)
| handle_multipart_pdu (pdu : PDU)
| handle_ussd_pdu (pdu : PDU)
| decode_pdus (pdus : list PDU)
| handle_delivery_report_content (content : string)
| handle_short_message_pdu (pdu : PDU).

(** The type of the reply to each call.  [redis_get] answers [None] for a
    missing key; [decode_pdus] answers one entry per part, [None] for a part
    that is not a unicode string. *)
Definition resp (c : Call) : Type :=
  match c with
  | redis_incr _ => Z
  | redis_setnx _ _ => bool
  | redis_ttl _ => Z
  | redis_expire _ _ => unit
  | redis_get _ => option Z
  | redis_delete _ => unit
  | redis_llen _ => Z
  | redis_lpush _ _ => unit
  | redis_lpop _ => option Z
  | transport_write _ => unit
  | transport_loseConnection => unit
  | randint _ _ => Z
  | log_msg _ | log_err _ | log_debug _ => unit
  | handle_delivery_report_pdu _ => bool
  | handle_multipart_pdu _ => bool
  | handle_ussd_pdu _ => bool
  | decode_pdus _ => list (option string)
  | handle_delivery_report_content _ => bool
  | handle_short_message_pdu _ => unit
  end.

(** A coroutine: it returns, raises, or makes a call and goes on with the
    reply. *)
Inductive Prog (A : Type) : Type :=
| Ret (a : A)
| Raise (e : Py.Exc)
| Vis (c : Call) (k : resp c → Prog A).
Arguments Ret {A} a.
Arguments Raise {A} e.
Arguments Vis {A} c k.

Fixpoint bind {A B} (p : Prog A) (f : A → Prog B) : Prog B :=
  match p with
  | Ret a => f a
  | Raise e => Raise e
  | Vis c k => Vis c (λ r, bind (k r) f)
  end.

#[global] Instance Prog_ret : MRet Prog := @Ret.
#[global] Instance Prog_bind : MBind Prog := λ A B f p, bind p f.

(** [yield c] *)
Definition call (c : Call) : Prog (resp c) := Vis c Ret.

(** A pure expression that may raise. *)
Definition lift {A} (r : Py.Result A) : Prog A :=
  match r with Py.Ok a => Ret a | Py.Err e => Raise e end.

(** Replies, brought to one type so that a trace is a plain list. *)
Inductive Reply :=
| RUnit
| RBool (b : bool)
| RInt (z : Z)
| ROpt (o : option Z)
| RParts (parts : list (option string)).

Definition reify (c : Call) : resp c → Reply :=
  match c as c0 return resp c0 → Reply with
  | redis_incr _ | redis_ttl _ | redis_llen _ | randint _ _ => RInt
  | redis_setnx _ _ | handle_delivery_report_pdu _ | handle_multipart_pdu _
  | handle_ussd_pdu _ | handle_delivery_report_content _ => RBool
  | redis_get _ | redis_lpop _ => ROpt
  | decode_pdus _ => RParts
  | _ => λ _, RUnit
  end.

(** One call together with the reply it got. *)
Definition Event : Type := Call * Reply.

Definition ev_call (e : Event) : Call := e.1.

(** How a run ended. *)
Inductive Outcome (A : Type) : Type :=
| Returned (a : A)
| Raised (e : Py.Exc).
Arguments Returned {A} a.
Arguments Raised {A} e.

Section Run.
Context {W : Type}.
(** The handler: the reply of the outside world to a call, and the world
    after it. *)
Variable h : ∀ c : Call, W → resp c * W.

Fixpoint run {A} (p : Prog A) (w : W) : Outcome A * W * list Event :=
  match p with
  | Ret a => (Returned a, w, [])
  | Raise e => (Raised e, w, [])
  | Vis c k =>
      let '(r, w1) := h c w in
      let '(o, w2, tr) := run (k r) w1 in
      (o, w2, (c, reify c r) :: tr)
  end.

Definition outcome {A} (p : Prog A) (w : W) : Outcome A := (run p w).1.1.
Definition final {A} (p : Prog A) (w : W) : W := (run p w).1.2.
Definition trace {A} (p : Prog A) (w : W) : list Event := (run p w).2.
End Run.

(** The PDUs written to the transport during a run, in order. *)
Definition sent_pdus (tr : list Event) : list PDU :=
  omap (λ e, match ev_call e with transport_write pdu => Some pdu | _ => None end) tr.

(** Whether the transport was told to close. *)
Definition closed (tr : list Event) : bool :=
  existsb (λ e, match ev_call e with transport_loseConnection => true | _ => false end) tr.

(** The store calls made during a run, in order. *)
Definition is_redis (c : Call) : bool :=
  match c with
  | redis_incr _ | redis_setnx _ _ | redis_ttl _ | redis_expire _ _ | redis_get _
  | redis_delete _ | redis_llen _ | redis_lpush _ _ | redis_lpop _ => true
  | _ => false
  end.

Definition redis_calls (tr : list Event) : list Call :=
  List.filter is_redis (map ev_call tr).

(** The processor calls made during a run, in order. *)
Definition is_processor (c : Call) : bool :=
  match c with
  | handle_delivery_report_pdu _ | handle_multipart_pdu _ | handle_ussd_pdu _
  | decode_pdus _ | handle_delivery_report_content _ | handle_short_message_pdu _ => true
  | _ => false
  end.

Definition processor_calls (tr : list Event) : list Call :=
  List.filter is_processor (map ev_call tr).

(** ** The ESME session *)

Definition GSM_MAX_SMS_BYTES : Z := 140.

(** [update_ussd_pdu(sm_pdu, continue_session, session_info=None)] *)
Definition update_ussd_pdu (sm_pdu : PDU) (continue_session session_info : Py.PyVal)
  : Py.Result PDU :=
  let session_info :=
    match session_info with Py.VNone => Py.VStr "0000" | v => v end in
  Py.rbind
    (match session_info with Py.VStr s => Py.int16 s | _ => Py.Err Py.TypeError end)
    (λ n,
      let session_info :=
        Py.fmt_04x (n + (if negb (Py.truthy continue_session) then 1 else 0)) in
      let sm_pdu := Builder.add_optional_parameter "ussd_service_op" (Py.VStr "02") sm_pdu in
      let sm_pdu :=
        Builder.add_optional_parameter "its_session_info" (Py.VStr session_info) sm_pdu in
      Py.Ok sm_pdu).

Inductive State := CLOSED | OPEN | BOUND_TX | BOUND_RX | BOUND_TRX.

#[global] Instance State_eq_dec : EqDecision State.
Proof. solve_decision. Defined.

Record Config := mkConfig {
  send_multipart_sar : bool;
  send_multipart_udh : bool;
  send_long_messages : bool
}.

Record EsmeTransceiver := mkEsme {
  config : Config;
  bind_params : gmap string Py.PyVal;
  state : State;
  datastream : string
}.

(** What [submit_sm] hands back: the integer of the unbound branch or the
    list of sequence numbers of the other branches. *)
Inductive SubmitResult :=
| ret_int (n : Z)
| ret_list (sequence_numbers : list Z).

Module Esme.

(** [_reset_seq_counter] *)
Definition _reset_seq_counter : Prog unit :=
  locked ← call (redis_setnx "smpp_last_sequence_number_wrap" 1);
  ttl ← call (redis_ttl "smpp_last_sequence_number_wrap");
  _ ← (if ttl <? 0
       then call (redis_expire "smpp_last_sequence_number_wrap" 10)
       else mret tt);
  if negb locked then mret tt
  else
    v ← call (redis_get "smpp_last_sequence_number");
    if Py.lt_opt v 0xFFFF0000 then mret tt
    else call (redis_delete "smpp_last_sequence_number").

(** [get_next_seq] *)
Definition get_next_seq : Prog Z :=
  seq ← call (redis_incr "smpp_last_sequence_number");
  _ ← (if 0xFFFF0000 <=? seq then _reset_seq_counter else mret tt);
  mret seq.

(** [pop_data]: the frame, if any, and the session with its buffer after
    the call. *)
Definition pop_data (self : EsmeTransceiver)
  : Py.Result (option string * EsmeTransceiver) :=
  let ds := datastream self in
  if 16 <=? Z.of_nat (String.length ds) then
    Py.rbind (Py.int16 (Py.b2a_hex (Py.slice_to ds 4))) (λ command_length,
      if command_length <=? Z.of_nat (String.length ds) then
        Py.Ok (Some (Py.slice_to ds command_length),
               mkEsme (config self) (bind_params self) (state self)
                      (Py.slice_from ds command_length))
      else Py.Ok (None, self))
  else Py.Ok (None, self).

(** [send_pdu] *)
Definition send_pdu (pdu : PDU) : Prog unit :=
  _ ← (if bool_decide (command_id pdu ∈ ["enquire_link"; "enquire_link_resp"])
       then mret tt
       else call (log_debug "OUTGOING >>>> %s"));
  call (transport_write pdu).

(** [handle_deliver_sm] *)
Definition handle_deliver_sm (self : EsmeTransceiver) (pdu : PDU) : Prog unit :=
  if negb (bool_decide (state self ∈ [BOUND_RX; BOUND_TRX])) then
    call (log_err "WARNING: Received deliver_sm in wrong state: %s")
  else if negb (String.eqb (command_status pdu) "ESME_ROK") then mret tt
  else
    let pdu_resp := Builder.DeliverSMResp (sequence_number pdu) (bind_params self) in
    _ ← send_pdu pdu_resp;
    was_dr ← call (handle_delivery_report_pdu pdu);
    if was_dr : bool then mret tt else
    was_multipart ← call (handle_multipart_pdu pdu);
    if was_multipart : bool then mret tt else
    was_ussd ← call (handle_ussd_pdu pdu);
    if was_ussd : bool then mret tt else
    content_parts ← call (decode_pdus [pdu]);
    if negb (forallb (λ part : option string, bool_decide (is_Some part)) content_parts)
    then call (log_msg "Not all parts of the PDU were able to be decoded.")
    else
      let content := String.concat "" (omap id content_parts) in
      was_cdr ← call (handle_delivery_report_content content);
      if was_cdr : bool then mret tt else
      call (handle_short_message_pdu pdu).

(** [get_unacked_count] *)
Definition get_unacked_count : Prog Z := call (redis_llen "unacked").

(** [push_unacked] *)
Definition push_unacked (sequence_number : Z) : Prog unit :=
  _ ← call (redis_lpush "unacked" sequence_number);
  _ ← get_unacked_count;
  call (log_msg "unacked pushed to: %s").

(** [pop_unacked] *)
Definition pop_unacked : Prog unit :=
  _ ← call (redis_lpop "unacked");
  _ ← get_unacked_count;
  call (log_msg "unacked popped to: %s").

(** [''.join('%02x' % ord(c) for c in message)]: iterating a dictionary
    yields its keys. *)
Definition hex_payload (message : Py.PyVal) : Py.Result string :=
  match message with
  | Py.VStr s => Py.Ok (Py.b2a_hex s)
  | Py.VDict d =>
      foldr (λ kv acc,
               match kv.1 with
               | String c "" => Py.rbind acc (λ t, Py.Ok (Py.hex2 c +:+ t))
               | _ => Py.Err Py.TypeError
               end) (Py.Ok "") d
  | _ => Py.Err Py.TypeError
  end.

(** [_submit_sm] *)
Definition _submit_sm (self : EsmeTransceiver) (pdu_params : gmap string Py.PyVal)
  : Prog Z :=
  sequence_number ← get_next_seq;
  message ← lift (Py.dict_get pdu_params "short_message");
  let '(sar_params, pdu_params) := Py.dict_pop "sar_params" Py.VNone pdu_params in
  let '(message_type, pdu_params) := Py.dict_pop "message_type" (Py.VStr "sms") pdu_params in
  let '(continue_session, pdu_params) :=
    Py.dict_pop "continue_session" (Py.VBool true) pdu_params in
  let '(session_info, pdu_params) := Py.dict_pop "session_info" Py.VNone pdu_params in
  let pdu := Builder.SubmitSM sequence_number pdu_params in
  pdu ← (if Py.eq_str message_type "ussd"
         then lift (update_ussd_pdu pdu continue_session session_info)
         else mret pdu);
  pdu ← (if send_long_messages (config self)
         then n ← lift (Py.len message);
              if 254 <? n
              then payload ← lift (hex_payload message);
                   mret (Builder.add_message_payload payload pdu)
              else mret pdu
         else mret pdu);
  pdu ← (if Py.truthy sar_params
         then r ← lift (Py.getitem sar_params "msg_ref_num");
              let pdu := Builder.set_sar_msg_ref_num r pdu in
              t ← lift (Py.getitem sar_params "total_segments");
              let pdu := Builder.set_sar_total_segments t pdu in
              i ← lift (Py.getitem sar_params "segment_seqnum");
              mret (Builder.set_sar_segment_seqnum i pdu)
         else mret pdu);
  _ ← send_pdu pdu;
  _ ← push_unacked sequence_number;
  mret sequence_number.

(** The splitting loop of both multipart senders:
    [while message: split_msg.append(message[:n]); message = message[n:]]. *)
Fixpoint split_loop (fuel : nat) (payload_length : Z) (message : string)
  : list string :=
  match fuel with
  | O => []
  | S fuel' =>
      if Py.truthy (Py.VStr message)
      then Py.slice_to message payload_length
             :: split_loop fuel' payload_length (Py.slice_from message payload_length)
      else []
  end.

(** The loop on a keyword value: only a byte string can be sliced; a false
    value of another type leaves the loop at once. *)
Definition split_msg_of (payload_length : Z) (message : Py.PyVal)
  : Py.Result (list string) :=
  match message with
  | Py.VStr s => Py.Ok (split_loop (String.length s) payload_length s)
  | v => if Py.truthy v then Py.Err Py.TypeError else Py.Ok []
  end.

(** The [for i, msg in enumerate(split_msg)] loop of [_submit_multipart_sar];
    [i] is the index of the head of [msgs]. *)
Fixpoint sar_loop (self : EsmeTransceiver) (pdu_params : gmap string Py.PyVal)
    (ref_num total : Z) (i : Z) (msgs : list string) (sequence_numbers : list Z)
  : Prog (list Z) :=
  match msgs with
  | [] => mret sequence_numbers
  | msg :: msgs' =>
      let params := <["short_message" := Py.VStr msg]> pdu_params in
      let params :=
        <["sar_params" := Py.VDict [("msg_ref_num", Py.VInt ref_num);
                                    ("total_segments", Py.VInt total);
                                    ("segment_seqnum", Py.VInt (i + 1))]]> params in
      sequence_number ← _submit_sm self params;
      sar_loop self pdu_params ref_num total (i + 1) msgs'
               (sequence_numbers ++ [sequence_number])
  end.

(** [_submit_multipart_sar] *)
Definition _submit_multipart_sar (self : EsmeTransceiver)
    (pdu_params : gmap string Py.PyVal) : Prog (list Z) :=
  message ← lift (Py.dict_get pdu_params "short_message");
  let payload_length := GSM_MAX_SMS_BYTES - 10 in
  split_msg ← lift (split_msg_of payload_length message);
  ref_num ← call (randint 1 255);
  sar_loop self pdu_params ref_num (Z.of_nat (length split_msg)) 0 split_msg [].

(** ['\05\00\03%s%s%s' % (chr(ref_num), chr(len(split_msg)), chr(i + 1))] *)
Definition udh_header (ref_num total i : Z) : Py.Result string :=
  Py.rbind (Py.chr ref_num) (λ r,
  Py.rbind (Py.chr total) (λ n,
  Py.rbind (Py.chr (i + 1)) (λ k,
  Py.Ok (String "005" (String "000" (String "003"
           (String r (String n (String k "")))))))))%char.

(** The [for i, msg in enumerate(split_msg)] loop of [_submit_multipart_udh]. *)
Fixpoint udh_loop (self : EsmeTransceiver) (pdu_params : gmap string Py.PyVal)
    (ref_num total : Z) (i : Z) (msgs : list string) (sequence_numbers : list Z)
  : Prog (list Z) :=
  match msgs with
  | [] => mret sequence_numbers
  | msg :: msgs' =>
      let params := <["esm_class" := Py.VInt 0x40]> pdu_params in
      udh ← lift (udh_header ref_num total i);
      let params := <["short_message" := Py.VStr (udh +:+ msg)]> params in
      sequence_number ← _submit_sm self params;
      udh_loop self pdu_params ref_num total (i + 1) msgs'
               (sequence_numbers ++ [sequence_number])
  end.

(** [_submit_multipart_udh] *)
Definition _submit_multipart_udh (self : EsmeTransceiver)
    (pdu_params : gmap string Py.PyVal) : Prog (list Z) :=
  message ← lift (Py.dict_get pdu_params "short_message");
  let payload_length := GSM_MAX_SMS_BYTES - 10 in
  split_msg ← lift (split_msg_of payload_length message);
  ref_num ← call (randint 1 255);
  udh_loop self pdu_params ref_num (Z.of_nat (length split_msg)) 0 split_msg [].

(** [submit_sm]; [pdu_params] is [bind_params] updated with the keyword
    arguments. *)
Definition submit_sm (self : EsmeTransceiver) (kwargs : gmap string Py.PyVal)
  : Prog SubmitResult :=
  if negb (bool_decide (state self ∈ [BOUND_TX; BOUND_TRX])) then
    _ ← call (log_err "WARNING: submit_sm in wrong state: %s, dropping message: %s");
    mret (ret_int 0)
  else
    let pdu_params := kwargs ∪ bind_params self in
    message ← lift (Py.dict_get pdu_params "short_message");
    n ← lift (Py.len message);
    if (GSM_MAX_SMS_BYTES <? n) && send_multipart_sar (config self) then
      sequence_numbers ← _submit_multipart_sar self pdu_params;
      mret (ret_list sequence_numbers)
    else if (GSM_MAX_SMS_BYTES <? n) && send_multipart_udh (config self) then
      sequence_numbers ← _submit_multipart_udh self pdu_params;
      mret (ret_list sequence_numbers)
    else
      sequence_number ← _submit_sm self pdu_params;
      mret (ret_list [sequence_number]).

(** [enquire_link] *)
Definition enquire_link (self : EsmeTransceiver) (kwargs : gmap string Py.PyVal)
  : Prog Z :=
  if bool_decide (state self ∈ [BOUND_TX; BOUND_RX; BOUND_TRX]) then
    sequence_number ← get_next_seq;
    let pdu := Builder.EnquireLink sequence_number (kwargs ∪ bind_params self) in
    _ ← send_pdu pdu;
    mret sequence_number
  else mret 0.

(** [query_sm]; a keyword given both by name and through the dictionary is
    a [TypeError] of the call. *)
Definition query_sm (self : EsmeTransceiver) (message_id source_addr : Py.PyVal)
    (kwargs : gmap string Py.PyVal) : Prog Z :=
  if bool_decide (state self ∈ [BOUND_TX; BOUND_TRX]) then
    sequence_number ← get_next_seq;
    let extra := kwargs ∪ bind_params self in
    if bool_decide (is_Some (extra !! "message_id"))
       || bool_decide (is_Some (extra !! "source_addr"))
    then Raise Py.TypeError
    else
      let pdu := Builder.QuerySM sequence_number
                   (<["message_id" := message_id]>
                      (<["source_addr" := source_addr]> extra)) in
      _ ← send_pdu pdu;
      mret sequence_number
  else mret 0.

End Esme.

(** ** The shared store and a concrete outside world *)

(** Modelled from the spec: the key-value store is an external
    collaborator reached through [self.redis]; its operations are atomic
    ([incr], [setnx], [ttl], [expire], [get], [delete], [lpush], [lpop],
    [llen]).  Integer keys carry an optional time to live; list keys hold
    the pushed values, head first.  The code keeps its three keys apart, so
    integers and lists live in two maps. *)
Record Store := mkStore {
  ints : gmap string (Z * option Z);
  lists : gmap string (list Z)
}.

Module Redis.

(** [INCR]: a missing key counts as 0. *)
Definition incr (key : string) (s : Store) : Z * Store :=
  match ints s !! key with
  | Some (v, t) => (v + 1, mkStore (<[key := (v + 1, t)]> (ints s)) (lists s))
  | None => (1, mkStore (<[key := (1, None)]> (ints s)) (lists s))
  end.

(** [SETNX]: sets the key only when it is absent and tells whether it did. *)
Definition setnx (key : string) (value : Z) (s : Store) : bool * Store :=
  match ints s !! key with
  | Some _ => (false, s)
  | None => (true, mkStore (<[key := (value, None)]> (ints s)) (lists s))
  end.

(** [TTL]: negative for a missing key and for a key without expiry. *)
Definition ttl (key : string) (s : Store) : Z :=
  match ints s !! key with
  | Some (_, Some t) => t
  | Some (_, None) => -1
  | None => -2
  end.

(** [EXPIRE]: gives an existing key a time to live. *)
Definition expire (key : string) (seconds : Z) (s : Store) : Store :=
  match ints s !! key with
  | Some (v, _) => mkStore (<[key := (v, Some seconds)]> (ints s)) (lists s)
  | None => s
  end.

Definition get (key : string) (s : Store) : option Z :=
  fst <$> ints s !! key.

Definition delete (key : string) (s : Store) : Store :=
  mkStore (base.delete key (ints s)) (base.delete key (lists s)).

Definition llen (key : string) (s : Store) : Z :=
  Z.of_nat (length (default [] (lists s !! key))).

(** [LPUSH] prepends. *)
Definition lpush (key : string) (value : Z) (s : Store) : Store :=
  mkStore (ints s) (<[key := value :: default [] (lists s !! key)]> (lists s)).

(** [LPOP] removes and answers the head. *)
Definition lpop (key : string) (s : Store) : option Z * Store :=
  match default [] (lists s !! key) with
  | [] => (None, s)
  | x :: l => (Some x, mkStore (ints s) (<[key := l]> (lists s)))
  end.

(** The time to live of a key runs out: the key disappears. *)
Definition lapse (key : string) (s : Store) : Store :=
  match ints s !! key with
  | Some (_, Some _) => delete key s
  | _ => s
  end.

End Redis.

(** A concrete outside world: the store, stub processors that decide from
    the PDU alone, a source of random draws, and what the transport has
    been given so far. *)
Record World := mkWorld {
  store : Store;
  dr_pdu_stub : PDU → bool;
  multipart_stub : PDU → bool;
  ussd_stub : PDU → bool;
  decode_stub : list PDU → list (option string);
  dr_content_stub : string → bool;
  entropy : nat → Z;
  draws : nat;
  written : list PDU;
  connection_lost : bool
}.

Definition with_store (w : World) (s : Store) : World :=
  mkWorld s (dr_pdu_stub w) (multipart_stub w) (ussd_stub w) (decode_stub w)
          (dr_content_stub w) (entropy w) (draws w) (written w) (connection_lost w).

(** The replies of the concrete world.  [randint(a, b)] maps the next draw
    into [[a, b]]. *)
Definition world_h (c : Call) : World → resp c * World :=
  match c as c0 return World → resp c0 * World with
  | redis_incr key => λ w,
      let '(v, s) := Redis.incr key (store w) in (v, with_store w s)
  | redis_setnx key value => λ w,
      let '(b, s) := Redis.setnx key value (store w) in (b, with_store w s)
  | redis_ttl key => λ w, (Redis.ttl key (store w), w)
  | redis_expire key seconds => λ w,
      (tt, with_store w (Redis.expire key seconds (store w)))
  | redis_get key => λ w, (Redis.get key (store w), w)
  | redis_delete key => λ w, (tt, with_store w (Redis.delete key (store w)))
  | redis_llen key => λ w, (Redis.llen key (store w), w)
  | redis_lpush key value => λ w, (tt, with_store w (Redis.lpush key value (store w)))
  | redis_lpop key => λ w,
      let '(x, s) := Redis.lpop key (store w) in (x, with_store w s)
  | transport_write pdu => λ w,
      (tt, mkWorld (store w) (dr_pdu_stub w) (multipart_stub w) (ussd_stub w)
                   (decode_stub w) (dr_content_stub w) (entropy w) (draws w)
                   (written w ++ [pdu]) (connection_lost w))
  | transport_loseConnection => λ w,
      (tt, mkWorld (store w) (dr_pdu_stub w) (multipart_stub w) (ussd_stub w)
                   (decode_stub w) (dr_content_stub w) (entropy w) (draws w)
                   (written w) true)
  | randint a b => λ w,
      (a + entropy w (draws w) mod (b - a + 1),
       mkWorld (store w) (dr_pdu_stub w) (multipart_stub w) (ussd_stub w)
               (decode_stub w) (dr_content_stub w) (entropy w) (S (draws w))
               (written w) (connection_lost w))
  | log_msg _ | log_err _ | log_debug _ => λ w, (tt, w)
  | handle_delivery_report_pdu pdu => λ w, (dr_pdu_stub w pdu, w)
  | handle_multipart_pdu pdu => λ w, (multipart_stub w pdu, w)
  | handle_ussd_pdu pdu => λ w, (ussd_stub w pdu, w)
  | decode_pdus pdus => λ w, (decode_stub w pdus, w)
  | handle_delivery_report_content content => λ w, (dr_content_stub w content, w)
  | handle_short_message_pdu _ => λ w, (tt, w)
  end.

(** A world with the given store, processors that handle nothing, and a
    constant random source. *)
Definition plain_world (s : Store) : World :=
  mkWorld s (λ _, false) (λ _, false) (λ _, false) (λ _, []) (λ _, false)
          (λ _, 41) O [] false.

Definition empty_store : Store := mkStore ∅ ∅.

(** The store with the counter seeded and, possibly, the reset lock held
    with the given time to live. *)
Definition seeded_store (counter : Z) (lock : option (option Z)) : Store :=
  mkStore
    (match lock with
     | Some t => <["smpp_last_sequence_number_wrap" := (1, t)]>
                   {["smpp_last_sequence_number" := (counter, None)]}
     | None => {["smpp_last_sequence_number" := (counter, None)]}
     end) ∅.

(** What happens to the store between and during allocations, one after
    another: an allocator calls [get_next_seq], or the lock's time to live
    runs out. *)
Inductive Action := Allocate | LockLapses.

(** The values handed out by a sequence of actions, and the world after. *)
Fixpoint allocations (acts : list Action) (w : World) : list Z * World :=
  match acts with
  | [] => ([], w)
  | Allocate :: acts' =>
      match run world_h Esme.get_next_seq w with
      | (Returned v, w', _) =>
          let '(vs, w'') := allocations acts' w' in (v :: vs, w'')
      | (Raised _, w', _) => allocations acts' w'
      end
  | LockLapses :: acts' =>
      allocations acts'
        (with_store w (Redis.lapse "smpp_last_sequence_number_wrap" (store w)))
  end.

(** The stored counter, 0 when the key is missing. *)
Definition counter (w : World) : Z :=
  default 0 (Redis.get "smpp_last_sequence_number" (store w)).

(** ** The receiving side *)

(** The loop of [dataReceived]: [data = self.pop_data()], then
    [while data is not None: self._pdu_queue.put(data); data = self.pop_data()].
    [queue] holds what has been put on the PDU queue so far, oldest first.
    The loop is given [fuel] calls of [pop_data]; [None] says that it has
    not come to its end within them. *)
Fixpoint pop_loop (fuel : nat) (self : EsmeTransceiver) (queue : list string)
  : option (Py.Result (list string * EsmeTransceiver)) :=
  match fuel with
  | O => None
  | S fuel' =>
      match Esme.pop_data self with
      | Py.Err e => Some (Py.Err e)
      | Py.Ok (None, self) => Some (Py.Ok (queue, self))
      | Py.Ok (Some data, self) => pop_loop fuel' self (queue ++ [data])
      end
  end.

(** [dataReceived]: the frames put on the PDU queue, in order, and the
    session with its buffer after the call. *)
Definition dataReceived (fuel : nat) (self : EsmeTransceiver) (data : string)
  : option (Py.Result (list string * EsmeTransceiver)) :=
  let self := mkEsme (config self) (bind_params self) (state self)
                     (datastream self +:+ data) in
  pop_loop fuel self [].


(** ** The session: lifecycle, handlers and dispatch *)

(** Modelled from the spec: the bind requests and the replies built by the
    PDU library ([smpp.pdu_builder]), which is not among the sources; as
    for the other builders a PDU is kept unpacked, with the command name,
    the sequence number and the keyword parameters it was built from. *)
Module Replies.

Definition BindTransceiver (seq : Z) (kwargs : gmap string Py.PyVal) : PDU :=
  mkPDU "bind_transceiver" "ESME_ROK" seq kwargs [].

Definition BindTransmitter (seq : Z) (kwargs : gmap string Py.PyVal) : PDU :=
  mkPDU "bind_transmitter" "ESME_ROK" seq kwargs [].

Definition BindReceiver (seq : Z) (kwargs : gmap string Py.PyVal) : PDU :=
  mkPDU "bind_receiver" "ESME_ROK" seq kwargs [].

Definition EnquireLinkResp (seq : Z) : PDU :=
  mkPDU "enquire_link_resp" "ESME_ROK" seq ∅ [].

Definition UnbindResp (seq : Z) : PDU :=
  mkPDU "unbind_resp" "ESME_ROK" seq ∅ [].

End Replies.

(** The three protocol classes: [EsmeTransceiver] and its subclasses
    [EsmeTransmitter] and [EsmeReceiver]. *)
Inductive Role := Transceiver | Transmitter | Receiver.

#[global] Instance Role_eq_dec : EqDecision Role.
Proof. solve_decision. Defined.

(** The class attribute [CONNECTED_STATE]. *)
Definition CONNECTED_STATE (role : Role) : State :=
  match role with
  | Transceiver => BOUND_TRX
  | Transmitter => BOUND_TX
  | Receiver => BOUND_RX
  end.

(** The class attribute [BIND_PDU]. *)
Definition BIND_PDU (role : Role) : Z → gmap string Py.PyVal → PDU :=
  match role with
  | Transceiver => Replies.BindTransceiver
  | Transmitter => Replies.BindTransmitter
  | Receiver => Replies.BindReceiver
  end.

(** The protocol object with the fields the lifecycle uses: the pending
    delayed call of the bind timeout ([_lose_conn]) and the looping call of
    the link check ([lc_enquire], absent until [start_enquire_link] has
    run); delayed calls and looping calls are known by a number. *)
Record Protocol := mkProtocol {
  esme : EsmeTransceiver;
  role : Role;
  smpp_bind_timeout : Z;
  smpp_enquire_link_interval : Z;
  _lose_conn : option nat;
  lc_enquire : option nat
}.

Definition set_state (self : Protocol) (st : State) : Protocol :=
  mkProtocol (mkEsme (config (esme self)) (bind_params (esme self)) st
                     (datastream (esme self)))
             (role self) (smpp_bind_timeout self) (smpp_enquire_link_interval self)
             (_lose_conn self) (lc_enquire self).

Definition set_lose_conn (self : Protocol) (d : option nat) : Protocol :=
  mkProtocol (esme self) (role self) (smpp_bind_timeout self)
             (smpp_enquire_link_interval self) d (lc_enquire self).

Definition set_lc_enquire (self : Protocol) (lc : option nat) : Protocol :=
  mkProtocol (esme self) (role self) (smpp_bind_timeout self)
             (smpp_enquire_link_interval self) (_lose_conn self) lc.

(** Everything the session calls outside itself: the calls of the
    protocol engine, the codec, the reactor's delayed calls, the looping
    call, the callbacks of the application and the PDU queue. *)
Inductive Hook :=
| core (c : Call)
| unpack_pdu (data : string + PDU)
| callLater (seconds : Z) (required_state : State)
| delayed_cancel (delayed : nat)
| LoopingCall
| lc_start (lc : nat) (interval : Z)
| lc_running (lc : nat)
| lc_stop (lc : nat)
| lc_deferred (lc : nat)
| callbacks_connect
| callbacks_disconnect
| callbacks_submit_sm_resp (sequence_number : Z) (command_status command_id : string)
                           (message_id : Py.PyVal)
| queue_get.

(** The type of the answer to each: the codec gives a PDU or raises;
    [callLater] and the creation of a looping call give the new object;
    the queue gives the next frame, or [None] to end the loop. *)
Definition answer (c : Hook) : Type :=
  match c with
  | core c => resp c
  | unpack_pdu _ => Py.Result PDU
  | callLater _ _ => nat
  | LoopingCall => nat
  | lc_running _ => bool
  | queue_get => option string
  | _ => unit
  end.

(** A coroutine of the session. *)
Inductive Task (A : Type) : Type :=
| Done (a : A)
| Failed (e : Py.Exc)
| Ask (c : Hook) (k : answer c → Task A).
Arguments Done {A} a.
Arguments Failed {A} e.
Arguments Ask {A} c k.

Fixpoint task_bind {A B} (p : Task A) (f : A → Task B) : Task B :=
  match p with
  | Done a => f a
  | Failed e => Failed e
  | Ask c k => Ask c (λ r, task_bind (k r) f)
  end.

#[global] Instance Task_ret : MRet Task := @Done.
#[global] Instance Task_bind : MBind Task := λ A B f p, task_bind p f.

Definition ask (c : Hook) : Task (answer c) := Ask c Done.

(** A coroutine of the protocol engine, run inside the session. *)
Fixpoint embed {A} (p : Prog A) : Task A :=
  match p with
  | Ret a => Done a
  | Raise e => Failed e
  | Vis c k => Ask (core c) (λ r, embed (k r))
  end.

Definition lift_task {A} (r : Py.Result A) : Task A :=
  match r with Py.Ok a => Done a | Py.Err e => Failed e end.

(** Answers, brought to one type. *)
Inductive Answer :=
| ACore (r : Reply)
| APdu (r : Py.Result PDU)
| AObject (n : nat)
| AData (data : option string).

Definition reify_answer (c : Hook) : answer c → Answer :=
  match c as c0 return answer c0 → Answer with
  | core c => λ r, ACore (reify c r)
  | unpack_pdu _ => APdu
  | callLater _ _ | LoopingCall => AObject
  | lc_running _ => λ b, ACore (RBool b)
  | queue_get => AData
  | _ => λ _, ACore RUnit
  end.

Definition Step : Type := Hook * Answer.

Section RunTask.
Context {W : Type}.
Variable h : ∀ c : Hook, W → answer c * W.

Fixpoint run_task {A} (p : Task A) (w : W) : Outcome A * W * list Step :=
  match p with
  | Done a => (Returned a, w, [])
  | Failed e => (Raised e, w, [])
  | Ask c k =>
      let '(r, w1) := h c w in
      let '(o, w2, tr) := run_task (k r) w1 in
      (o, w2, (c, reify_answer c r) :: tr)
  end.
End RunTask.

Module Session.

(** [__init__]: the fields as the constructor leaves them. *)
Definition init (config : Config) (bind_params : gmap string Py.PyVal) (role : Role)
    (smpp_bind_timeout smpp_enquire_link_interval : Z) : Protocol :=
  mkProtocol (mkEsme config bind_params CLOSED "") role
             smpp_bind_timeout smpp_enquire_link_interval None None.

(** [schedule_lose_connection] *)
Definition schedule_lose_connection (self : Protocol) (expected_status : State)
  : Task Protocol :=
  delayed ← ask (callLater (smpp_bind_timeout self) expected_status);
  mret (set_lose_conn self (Some delayed)).

(** [connectionMade] *)
Definition connectionMade (self : Protocol) : Task Protocol :=
  let self := set_state self OPEN in
  _ ← ask (core (log_msg "STATE: %s"));
  seq ← embed Esme.get_next_seq;
  let pdu := BIND_PDU (role self) seq (bind_params (esme self)) in
  _ ← ask (core (log_msg "%s"));
  _ ← embed (Esme.send_pdu pdu);
  schedule_lose_connection self (CONNECTED_STATE (role self)).

(** [lose_unbound_connection] *)
Definition lose_unbound_connection (self : Protocol) (required_state : State)
  : Task Protocol :=
  if negb (bool_decide (state (esme self) = required_state)) then
    _ ← ask (core (log_msg "Breaking connection due to binding delay, %s != %s\n"));
    let self := set_lose_conn self None in
    _ ← ask (core transport_loseConnection);
    mret self
  else
    _ ← ask (core (log_msg "Successful bind: %s, cancelling bind timeout"));
    mret self.

(** [cancel_drop_connection_call] *)
Definition cancel_drop_connection_call (self : Protocol) : Task Protocol :=
  match _lose_conn self with
  | Some delayed =>
      _ ← ask (delayed_cancel delayed);
      mret (set_lose_conn self None)
  | None => mret self
  end.

(** [start_enquire_link] *)
Definition start_enquire_link (self : Protocol) : Task Protocol :=
  lc ← ask LoopingCall;
  let self := set_lc_enquire self (Some lc) in
  _ ← ask (lc_start lc (smpp_enquire_link_interval self));
  self ← cancel_drop_connection_call self;
  _ ← ask callbacks_connect;
  mret self.

(** [stop_enquire_link] *)
Definition stop_enquire_link (self : Protocol) : Task unit :=
  match lc_enquire self with
  | Some lc =>
      running ← ask (lc_running lc);
      if running : bool then
        _ ← ask (lc_stop lc);
        _ ← ask (core (log_msg "Stopped enquire link looping call"));
        ask (lc_deferred lc)
      else mret tt
  | None => mret tt
  end.

(** [connectionLost] *)
Definition connectionLost (self : Protocol) : Task Protocol :=
  let self := set_state self CLOSED in
  _ ← stop_enquire_link self;
  self ← cancel_drop_connection_call self;
  _ ← ask (core (log_msg "STATE: %s"));
  _ ← ask callbacks_disconnect;
  mret self.

(** [handle_unbind] *)
Definition handle_unbind (self : Protocol) (pdu : PDU) : Task Protocol :=
  _ ← embed (Esme.send_pdu (Replies.UnbindResp (sequence_number pdu)));
  _ ← ask (core transport_loseConnection);
  mret self.

(** The three bind responses: [handle_bind_transceiver_resp],
    [handle_bind_transmitter_resp], [handle_bind_receiver_resp]; they
    differ in the state they set. *)
Definition handle_bind_resp (bound : State) (self : Protocol) (pdu : PDU)
  : Task Protocol :=
  self ← (if String.eqb (command_status pdu) "ESME_ROK"
          then start_enquire_link (set_state self bound)
          else mret self);
  _ ← ask (core (log_msg "STATE: %s"));
  mret self.

Definition handle_bind_transceiver_resp := handle_bind_resp BOUND_TRX.
Definition handle_bind_transmitter_resp := handle_bind_resp BOUND_TX.
Definition handle_bind_receiver_resp := handle_bind_resp BOUND_RX.

(** [handle_submit_sm_resp]; [message_id] is [None] when the body or the
    parameter is missing. *)
Definition handle_submit_sm_resp (self : Protocol) (pdu : PDU) : Task Protocol :=
  _ ← embed Esme.pop_unacked;
  let message_id := default Py.VNone (mandatory_parameters pdu !! "message_id") in
  _ ← ask (callbacks_submit_sm_resp (sequence_number pdu) (command_status pdu)
             (command_id pdu) message_id);
  mret self.

(** [handle_deliver_sm], in the session. *)
Definition handle_deliver_sm (self : Protocol) (pdu : PDU) : Task Protocol :=
  _ ← embed (Esme.handle_deliver_sm (esme self) pdu);
  mret self.

(** [handle_enquire_link] *)
Definition handle_enquire_link (self : Protocol) (pdu : PDU) : Task Protocol :=
  if String.eqb (command_status pdu) "ESME_ROK" then
    _ ← ask (core (log_msg "enquire_link OK"));
    let pdu_resp := Replies.EnquireLinkResp (sequence_number pdu) in
    _ ← embed (Esme.send_pdu pdu_resp);
    mret self
  else
    _ ← ask (core (log_msg "enquire_link NOT OK: %r"));
    mret self.

(** [handle_enquire_link_resp] *)
Definition handle_enquire_link_resp (self : Protocol) (pdu : PDU) : Task Protocol :=
  if String.eqb (command_status pdu) "ESME_ROK" then
    _ ← ask (core (log_msg "enquire_link_resp OK"));
    mret self
  else
    _ ← ask (core (log_msg "enquire_link_resp NOT OK: %r"));
    mret self.

(** [_command_handler_not_found] *)
Definition _command_handler_not_found (self : Protocol) (pdu : PDU) : Task Protocol :=
  _ ← ask (core (log_err "No command handler available for %s"));
  mret self.

(** [getattr(self, 'handle_%s' % (command_id,), self._command_handler_not_found)]
    followed by the call: the attributes of the class whose name starts
    with [handle_].  The bind responses of the subclasses exist only
    there; [handle_data] itself is among the attributes and is given as
    [on_data]. *)
Definition dispatch (on_data : Protocol → PDU → Task Protocol)
    (self : Protocol) (pdu : PDU) : Task Protocol :=
  let command_id := command_id pdu in
  if String.eqb command_id "data" then on_data self pdu
  else if String.eqb command_id "unbind" then handle_unbind self pdu
  else if String.eqb command_id "bind_transceiver_resp"
  then handle_bind_transceiver_resp self pdu
  else if String.eqb command_id "bind_transmitter_resp"
          && bool_decide (role self = Transmitter)
  then handle_bind_transmitter_resp self pdu
  else if String.eqb command_id "bind_receiver_resp"
          && bool_decide (role self = Receiver)
  then handle_bind_receiver_resp self pdu
  else if String.eqb command_id "submit_sm_resp" then handle_submit_sm_resp self pdu
  else if String.eqb command_id "deliver_sm" then handle_deliver_sm self pdu
  else if String.eqb command_id "enquire_link" then handle_enquire_link self pdu
  else if String.eqb command_id "enquire_link_resp" then handle_enquire_link_resp self pdu
  else _command_handler_not_found self pdu.

(** [handle_data] reached through its own name, that is with the
    dictionary of a PDU whose command is called "data": the codec is given
    the dictionary; should it answer with a PDU, [binascii.b2a_hex] of a
    dictionary is a [TypeError], unless the command is one of the two that
    are not logged. *)
Definition handle_data_of_pdu (self : Protocol) (data : PDU) : Task Protocol :=
  r ← ask (unpack_pdu (inr data));
  pdu ← lift_task r;
  if bool_decide (command_id pdu ∈ ["enquire_link"; "enquire_link_resp"])
  then dispatch (λ _ _, Failed Py.TypeError) self pdu
  else Failed Py.TypeError.

(** [handle_data] *)
Definition handle_data (self : Protocol) (data : string) : Task Protocol :=
  r ← ask (unpack_pdu (inl data));
  pdu ← lift_task r;
  _ ← (if bool_decide (command_id pdu ∈ ["enquire_link"; "enquire_link_resp"])
       then mret tt
       else _ ← ask (core (log_debug "INCOMING <<<< %s"));
            ask (core (log_debug "INCOMING <<<< %s")));
  dispatch handle_data_of_pdu self pdu.

(** The loop of [_process_pdu_queue], [while data is not None], given
    [fuel] rounds; [None] says that it has not come to its end within
    them. *)
Fixpoint process_loop (fuel : nat) (self : Protocol) (data : option string)
  : Task (option Protocol) :=
  match fuel with
  | O => mret None
  | S fuel' =>
      match data with
      | None => mret (Some self)
      | Some frame =>
          self ← handle_data self frame;
          data ← ask queue_get;
          process_loop fuel' self data
      end
  end.

(** [_process_pdu_queue] *)
Definition _process_pdu_queue (fuel : nat) (self : Protocol) : Task (option Protocol) :=
  data ← ask queue_get;
  process_loop fuel self data.

End Session.

(** ** Vocabulary of the statements *)

(** The number a run of hexadecimal digits denotes, continuing from [acc]. *)
Fixpoint hex_value (s : string) (acc : Z) : Z :=
  match s with
  | "" => acc
  | String c s' => hex_value s' (16 * acc + default 0 (Py.digit_value c))
  end.

Definition is_hexdigit (c : ascii) : bool := bool_decide (is_Some (Py.digit_value c)).

(** A non-empty string of hexadecimal digits, of either case. *)
Definition hex_string (s : string) : Prop :=
  s ≠ "" ∧ Py.all_chars is_hexdigit s = true.

(** The unsigned big-endian number held in a byte string. *)
Fixpoint big_endian (s : string) (acc : Z) : Z :=
  match s with
  | "" => acc
  | String c s' => big_endian s' (256 * acc + Py.ord c)
  end.

(** A stretch of a run that only talks to the store. *)
Definition store_only (tr : list Event) : Prop :=
  Forall (λ e, is_redis (ev_call e) = true) tr.

(** The unacked ledger held in the store. *)
Definition unacked (w : World) : list Z := default [] (lists (store w) !! "unacked").

Definition stub_world (s : Store) (dr multipart ussd : bool) : World :=
  mkWorld s (λ _, dr) (λ _, multipart) (λ _, ussd) (λ _, [Some "text"]) (λ _, false)
          (λ _, 41) O [] false.

(** Whether the reset lock is free in a world. *)
Definition lock_free (w : World) : bool :=
  bool_decide (ints (store w) !! "smpp_last_sequence_number_wrap" = None).



(** The reset lock is held, with some time to live left. *)
Definition lock_held (w : World) : Prop :=
  ∃ v t, ints (store w) !! "smpp_last_sequence_number_wrap" = Some (v, Some t) ∧ 0 ≤ t.

(** The optional parameters the USSD annotation adds for given keyword
    parameters: none unless [message_type] is 'ussd'. *)
Definition ussd_options (pdu_params : gmap string Py.PyVal)
  : Py.Result (list (string * Py.PyVal)) :=
  if Py.eq_str (default (Py.VStr "sms") (pdu_params !! "message_type")) "ussd" then
    Py.rbind
      (match default Py.VNone (pdu_params !! "session_info") with
       | Py.VNone => Py.int16 "0000"
       | Py.VStr s => Py.int16 s
       | _ => Py.Err Py.TypeError
       end)
      (λ n,
        let ends :=
          negb (Py.truthy (default (Py.VBool true) (pdu_params !! "continue_session"))) in
        Py.Ok [("ussd_service_op", Py.VStr "02");
               ("its_session_info", Py.VStr (Py.fmt_04x (n + (if ends then 1 else 0))))])
  else Py.Ok [].

(** The optional parameters [_submit_sm] sets from [sar_params], when that
    keyword holds a true value. *)
Definition sar_options (pdu_params : gmap string Py.PyVal)
  : Py.Result (list (string * Py.PyVal)) :=
  let sar_params := default Py.VNone (pdu_params !! "sar_params") in
  if Py.truthy sar_params then
    Py.rbind (Py.getitem sar_params "msg_ref_num") (λ r,
    Py.rbind (Py.getitem sar_params "total_segments") (λ t,
    Py.rbind (Py.getitem sar_params "segment_seqnum") (λ i,
    Py.Ok [("sar_msg_ref_num", r); ("sar_total_segments", t);
           ("sar_segment_seqnum", i)])))
  else Py.Ok [].

(** The keywords [_submit_sm] takes out before it builds the PDU. *)
Definition popped_keys : list string :=
  ["sar_params"; "message_type"; "continue_session"; "session_info"].

(** [''.join(parts)] *)
Definition join (parts : list string) : string := foldr String.append "" parts.

(** The [short_message] a PDU carries, when it is a byte string. *)
Definition short_message (pdu : PDU) : string :=
  match mandatory_parameters pdu !! "short_message" with
  | Some (Py.VStr s) => s
  | _ => ""
  end.

(** The [i]-th chunk of 130 bytes of a message, counting from 0. *)
Definition chunk (msg : string) (i : nat) : string :=
  Py.take 130 (Py.drop (130 * i) msg).

(** A message of [n] copies of one byte. *)
Fixpoint bytes (n : nat) (c : ascii) : string :=
  match n with O => "" | S n' => String c (bytes n' c) end.

(** What [submit_sm] makes of the outcome of a splitter: the list is
    handed back as it is. *)
Definition listed (o : Outcome (list Z)) : Outcome SubmitResult :=
  match o with
  | Returned sequence_numbers => Returned (ret_list sequence_numbers)
  | Raised e => Raised e
  end.

(** The six-byte concatenation header for reference [ref_num], [total]
    segments and segment number [seqnum]. *)
Definition udh (ref_num total seqnum : Z) : string :=
  String "005" (String "000" (String "003"
    (String (ascii_of_N (Z.to_N ref_num))
       (String (ascii_of_N (Z.to_N total))
          (String (ascii_of_N (Z.to_N seqnum)) "")))))%char.

(** The bytes of a string as numbers. *)
Fixpoint bytes_of (s : string) : list Z :=
  match s with
  | "" => []
  | String c s' => Py.ord c :: bytes_of s'
  end.

(** The session with another receive buffer. *)
Definition with_buffer (self : EsmeTransceiver) (ds : string) : EsmeTransceiver :=
  mkEsme (config self) (bind_params self) (state self) ds.

(** The length a buffer announces in its first four bytes. *)
Definition command_length (ds : string) : Z := big_endian (Py.take 4 ds) 0.

(** A buffer from which [pop_data] has a frame to take. *)
Definition has_frame (ds : string) : bool :=
  (16 <=? Z.of_nat (String.length ds))
  && (command_length ds <=? Z.of_nat (String.length ds)).

(** A PDU as it travels: at least the sixteen bytes of a header, the first
    four of which give its own length. *)
Definition whole_frame (f : string) : bool :=
  (16 <=? Z.of_nat (String.length f))
  && (command_length f =? Z.of_nat (String.length f)).

(** A session just connected, with nothing received yet. *)
Definition fresh_session : EsmeTransceiver :=
  mkEsme (mkConfig false false false) ∅ OPEN "".

(** A frame of sixteen bytes: the header says 16, twelve bytes follow. *)
Definition sixteen_bytes : string :=
  String "000" (String "000" (String "000" (String "016" "abcdefghijkl"))).

(** [all([isinstance(part, unicode) for part in content_parts])] *)
Definition all_decoded (parts : list (option string)) : bool :=
  forallb (λ part : option string, bool_decide (is_Some part)) parts.

(** The numbers put on the unacked ledger during a run, in order. *)
Definition pushed (tr : list Event) : list Z :=
  omap (λ e, match ev_call e with
             | redis_lpush key value =>
                 if String.eqb key "unacked" then Some value else None
             | _ => None
             end) tr.

(** The lines written to the debug log during a run. *)
Definition debug_lines (tr : list Event) : list string :=
  omap (λ e, match ev_call e with log_debug text => Some text | _ => None end) tr.

(** The calls of one segment after its sequence number has been drawn:
    the PDU is logged and written, then its number is put on the ledger,
    the ledger is measured and the length is logged. *)
Definition segment_events (pdu : PDU) (count : Z) : list Event :=
  [(log_debug "OUTGOING >>>> %s", RUnit);
   (transport_write pdu, RUnit);
   (redis_lpush "unacked" (sequence_number pdu), RUnit);
   (redis_llen "unacked", RInt count);
   (log_msg "unacked pushed to: %s", RUnit)].

(** What holds of the trace of a stretch of the submit pipeline, however
    it ends: the numbers put on the ledger are the sequence numbers of
    the PDUs written, in order; only [submit_sm] PDUs are written; the
    transport is not closed. *)
Definition recorded (tr : list Event) : Prop :=
  pushed tr = map sequence_number (sent_pdus tr)
  ∧ Forall (λ pdu, command_id pdu = "submit_sm") (sent_pdus tr)
  ∧ closed tr = false.

(** The keyword parameters left for the builder when [_submit_sm] has
    taken out its own. *)
Definition builder_params (params : gmap string Py.PyVal) : gmap string Py.PyVal :=
  base.delete "session_info"
    (base.delete "continue_session"
       (base.delete "message_type" (base.delete "sar_params" params))).

(** Whether [_submit_sm] moves a byte string to [message_payload]. *)
Definition moved_to_payload (self : EsmeTransceiver) (msg : string) : bool :=
  send_long_messages (config self) && (254 <? Z.of_nat (String.length msg)).

(** The PDU that [_submit_sm] writes for byte string [msg] under sequence
    number [seq], given the optional parameters of the USSD annotation and
    of the SAR keywords. *)
Definition segment_pdu (self : EsmeTransceiver) (params : gmap string Py.PyVal)
    (msg : string) (seq : Z) (uo so : list (string * Py.PyVal)) : PDU :=
  if moved_to_payload self msg
  then mkPDU "submit_sm" "ESME_ROK" seq
         (<["short_message" := Py.VNone]> (builder_params params))
         (uo ++ [("message_payload", Py.VStr (Py.b2a_hex msg))] ++ so)
  else mkPDU "submit_sm" "ESME_ROK" seq (builder_params params) (uo ++ so).

(** How one run of [_submit_sm] on a byte string ends: with the exception
    of the USSD annotation, else with that of the SAR keywords, else well. *)
Definition segment_error (params : gmap string Py.PyVal) : option Py.Exc :=
  match ussd_options params, sar_options params with
  | Py.Err e, _ => Some e
  | Py.Ok _, Py.Err e => Some e
  | Py.Ok _, Py.Ok _ => None
  end.

(** A stretch of the pipeline that has written and recorded nothing. *)
Definition nothing_sent (tr : list Event) : Prop :=
  sent_pdus tr = [] ∧ pushed tr = [] ∧ closed tr = false.

(** The byte string that a run of pairs of hexadecimal digits stands for
    (the inverse of [b2a_hex]). *)
Fixpoint a2b_hex (s : string) : string :=
  match s with
  | String hi (String lo rest) =>
      String (ascii_of_N (Z.to_N (16 * default 0 (Py.digit_value hi)
                                  + default 0 (Py.digit_value lo))))
             (a2b_hex rest)
  | _ => ""
  end.

(** The hooks called during a run of the session, in order. *)
Definition hooks (tr : list Step) : list Hook := map fst tr.

(** A step of the protocol engine seen from the session. *)
Definition core_step (e : Event) : Step := (core e.1, ACore e.2).

(** The handler of the protocol engine inside a handler of the session. *)
Definition core_h {W : Type} (h : ∀ c : Hook, W → answer c * W)
  : ∀ c : Call, W → resp c * W := λ c, h (core c).

(** The names under which [getattr] finds a handler, for each class. *)
Definition handler_names (role : Role) : list string :=
  ["data"; "unbind"; "bind_transceiver_resp"; "submit_sm_resp"; "deliver_sm";
   "enquire_link"; "enquire_link_resp"]
  ++ match role with
     | Transceiver => []
     | Transmitter => ["bind_transmitter_resp"]
     | Receiver => ["bind_receiver_resp"]
     end.

(** A concrete outside of the session: the world of the protocol engine, a
    codec, the frames the PDU queue will hand out, the number of delayed
    and looping calls created so far, the looping calls that are running,
    the delayed calls cancelled and the callbacks that were called. *)
Record Outside := mkOutside {
  engine : World;
  codec : string + PDU → Py.Result PDU;
  incoming : list (option string);
  objects : nat;
  running : list nat;
  cancelled : list nat;
  called_back : list Hook
}.

Definition with_engine (o : Outside) (w : World) : Outside :=
  mkOutside w (codec o) (incoming o) (objects o) (running o) (cancelled o) (called_back o).

Definition outside_h (c : Hook) : Outside → answer c * Outside :=
  match c as c0 return Outside → answer c0 * Outside with
  | core c => λ o, let '(r, w) := world_h c (engine o) in (r, with_engine o w)
  | unpack_pdu data => λ o, (codec o data, o)
  | callLater _ _ | LoopingCall => λ o,
      (objects o, mkOutside (engine o) (codec o) (incoming o) (S (objects o)) (running o)
                            (cancelled o) (called_back o))
  | delayed_cancel d => λ o,
      (tt, mkOutside (engine o) (codec o) (incoming o) (objects o) (running o)
                     (d :: cancelled o) (called_back o))
  | lc_start lc _ => λ o,
      (tt, mkOutside (engine o) (codec o) (incoming o) (objects o) (lc :: running o)
                     (cancelled o) (called_back o))
  | lc_running lc => λ o, (bool_decide (lc ∈ running o), o)
  | lc_stop lc => λ o,
      (tt, mkOutside (engine o) (codec o) (incoming o) (objects o)
                     (List.filter (λ x, negb (Nat.eqb x lc)) (running o))
                     (cancelled o) (called_back o))
  | lc_deferred _ => λ o, (tt, o)
  | queue_get => λ o,
      (match incoming o with [] => None | data :: _ => data end,
       mkOutside (engine o) (codec o) (tl (incoming o)) (objects o) (running o)
                 (cancelled o) (called_back o))
  | callbacks_connect => λ o,
      (tt, mkOutside (engine o) (codec o) (incoming o) (objects o) (running o)
                     (cancelled o) (called_back o ++ [callbacks_connect]))
  | callbacks_disconnect => λ o,
      (tt, mkOutside (engine o) (codec o) (incoming o) (objects o) (running o)
                     (cancelled o) (called_back o ++ [callbacks_disconnect]))
  | callbacks_submit_sm_resp s st cid mid => λ o,
      (tt, mkOutside (engine o) (codec o) (incoming o) (objects o) (running o)
                     (cancelled o) (called_back o ++ [callbacks_submit_sm_resp s st cid mid]))
  end.

(** An outside with an empty store, nothing queued and a codec that gives
    the same PDU for every frame. *)
Definition quiet_outside (pdu : PDU) : Outside :=
  mkOutside (plain_world empty_store) (λ _, Py.Ok pdu) [] O [] [] [].

(** A transceiver as its constructor leaves it, with a bind timeout of 30
    seconds and a link check every 55 seconds. *)
Definition new_transceiver : Protocol :=
  Session.init (mkConfig false false false) ∅ Transceiver 30 55.

(** The command of the bind response that belongs to each class. *)
Definition bind_response (role : Role) : string :=
  match role with
  | Transceiver => "bind_transceiver_resp"
  | Transmitter => "bind_transmitter_resp"
  | Receiver => "bind_receiver_resp"
  end.

(** The session as [connectionMade] leaves it, with the delayed call of
    the bind timeout pending. *)
Definition opened (self : Protocol) (delayed : nat) : Protocol :=
  set_lose_conn (set_state self OPEN) (Some delayed).

(** The [disconnect] callback among the hooks. *)
Definition is_disconnect (c : Hook) : bool :=
  match c with callbacks_disconnect => true | _ => false end.

(** Every call a coroutine can make, whatever the replies, satisfies [P]. *)
Fixpoint all_calls {A} (P : Call → Prop) (p : Prog A) : Prop :=
  match p with
  | Vis c k => P c ∧ ∀ r, all_calls P (k r)
  | _ => True
  end.

(** A call that takes nothing off the unacked ledger. *)
Definition keeps_ledger (c : Call) : Prop :=
  match c with
  | redis_lpop key | redis_delete key => key ≠ "unacked"
  | _ => True
  end.

(** The responses to [submit_sm], handled one after another. *)
Fixpoint acknowledge (self : Protocol) (responses : list PDU) : Task Protocol :=
  match responses with
  | [] => mret self
  | pdu :: responses =>
      self ← Session.handle_submit_sm_resp self pdu;
      acknowledge self responses
  end.

(** The call of the [submit_sm_resp] callback for a response. *)
Definition callback_of (pdu : PDU) : Hook :=
  callbacks_submit_sm_resp (sequence_number pdu) (command_status pdu) (command_id pdu)
                           (default Py.VNone (mandatory_parameters pdu !! "message_id")).

(** The number [update_ussd_pdu] reads from its [session_info] argument. *)
Definition session_number (session_info : Py.PyVal) : Py.Result Z :=
  match session_info with
  | Py.VNone => Py.Ok 0
  | Py.VStr s => Py.int16 s
  | _ => Py.Err Py.TypeError
  end.

(** The annotated PDU, for the text of [its_session_info]. *)
Definition annotated (sm_pdu : PDU) (text : string) : PDU :=
  mkPDU (command_id sm_pdu) (command_status sm_pdu) (sequence_number sm_pdu)
        (mandatory_parameters sm_pdu)
        (optional_parameters sm_pdu
           ++ [("ussd_service_op", Py.VStr "02"); ("its_session_info", Py.VStr text)]).

(** ** Proof automation *)

#[local] Set Warnings "-clear-no-such-hyp".

Ltac inv_elem :=
  repeat match goal with
         | H : _ ∈ [] |- _ => by apply elem_of_nil in H
         | H : _ ∈ _ :: _ |- _ => apply elem_of_cons in H as [H | H]
         | H : (_, _) = (_, _) |- _ => injection H as ?
         end.

Ltac elem_solver :=
  cbn; intros; rewrite ?elem_of_cons, ?elem_of_nil in *; naive_solver.

Tactic Notation "hstep" constr(h) constr(w) "as" simple_intropattern(pat) :=
  match goal with
  | |- context [h ?c w] => destruct (h c w) as pat
  end.

Ltac deliver_leaf :=
  cbn; split; [done|];
  split; [eexists; repeat split; done|];
  split; [done|];
  split; [first [exists ""; by eexists | eexists; by eexists]|];
  split; [intros; inv_elem; simplify_eq; done|];
  split; [intros; inv_elem; simplify_eq; done|];
  split; [intros; inv_elem; simplify_eq; done|];
  repeat (first [ done
                | match goal with H : forallb _ _ = _ |- _ => rewrite H end
                | by exists true
                | by exists false
                | eexists
                | split ]; cbn).

Ltac calls_step lift_lemma bind_lemma :=
  first
    [ apply lift_lemma
    | apply bind_lemma; [|intros]
    | match goal with
      | |- all_calls _ (if ?b then _ else _) => destruct b
      | |- all_calls _ (let '(_, _) := ?x in _) => destruct x
      | |- all_calls _ (mret _) => exact I
      | |- all_calls _ (Ret _) => exact I
      | |- all_calls _ (Raise _) => exact I
      | |- all_calls _ (call _) => split; [done | intros; exact I]
      | |- all_calls _ (Vis _ _) => split; [done | intros]
      end ].

(** * Properties *)

(** ** The model on small inputs *)

Example int16_digits : Py.int16 "ffff" = Py.Ok 65535.
Proof. reflexivity. Qed.

Example int16_prefix : Py.int16 " 0x1F " = Py.Ok 31.
Proof. reflexivity. Qed.

Example int16_empty : Py.int16 EmptyString = Py.Err Py.ValueError.
Proof. reflexivity. Qed.

Example fmt_04x_pads : Py.fmt_04x 0xabc = "0abc".
Proof. reflexivity. Qed.

Example fmt_04x_negative : Py.fmt_04x (-1) = "-001".
Proof. reflexivity. Qed.

Example b2a_hex_bytes : Py.b2a_hex "AZ" = "415a".
Proof. reflexivity. Qed.

(** The sequence wrap of the specification: seeded just below the threshold
    with the lock free, the first call returns [0xFFFF0000] and resets, the
    second returns 1. *)
Example allocations_wrap :
  (allocations [Allocate; Allocate]
     (plain_world (seeded_store (0xFFFF0000 - 1) None))).1
  = [0xFFFF0000; 1].
Proof. reflexivity. Qed.

(** The same with the lock held elsewhere: no reset, the counter goes on. *)
Example allocations_wrap_locked :
  (allocations [Allocate; Allocate]
     (plain_world (seeded_store (0xFFFF0000 - 1) (Some (Some 10))))).1
  = [0xFFFF0000; 0xFFFF0001].
Proof. reflexivity. Qed.

(** A frame of 16 bytes followed by two bytes of the next one. *)
Example pop_data_one_frame :
  let frame := String "000" (String "000" (String "000" (String "016" "abcdefghijkl")))%char in
  Esme.pop_data (mkEsme (mkConfig false false false) ∅ CLOSED (frame +:+ "xy"))
  = Py.Ok (Some frame, mkEsme (mkConfig false false false) ∅ CLOSED "xy").
Proof. reflexivity. Qed.

Section StringFacts.

Lemma app_cons c s t : String c s +:+ t = String c (s +:+ t).
Proof. reflexivity. Qed.

Lemma app_nil s : "" +:+ s = s.
Proof. reflexivity. Qed.

Lemma take_drop n s : Py.take n s +:+ Py.drop n s = s.
Proof.
revert s; induction n as [|n IH]; intros [|c s]; try done.
cbn [Py.take Py.drop]. by rewrite app_cons, IH.
Qed.

Lemma length_take n s : String.length (Py.take n s) = (n `min` String.length s)%nat.
Proof.
revert s; induction n as [|n IH]; intros [|c s]; simpl; try done.
by rewrite IH.
Qed.

Lemma length_drop n s : String.length (Py.drop n s) = (String.length s - n)%nat.
Proof.
revert s; induction n as [|n IH]; intros [|c s]; simpl; try done.
Qed.

Lemma ord_range c : 0 ≤ Py.ord c < 256.
Proof.
unfold Py.ord. pose proof (N_ascii_bounded c). lia.
Qed.

Lemma digit_value_hexdigit n : 0 ≤ n < 16 → Py.digit_value (Py.hexdigit n) = Some n.
Proof.
intros H.
assert (n = 0 ∨ n = 1 ∨ n = 2 ∨ n = 3 ∨ n = 4 ∨ n = 5 ∨ n = 6 ∨ n = 7 ∨ n = 8
        ∨ n = 9 ∨ n = 10 ∨ n = 11 ∨ n = 12 ∨ n = 13 ∨ n = 14 ∨ n = 15) as Hn by lia.
repeat (destruct Hn as [-> | Hn]; [reflexivity|]). by subst.
Qed.

Lemma hexdigit_lower n : 0 ≤ n < 16 → Py.is_lower_hexdigit (Py.hexdigit n) = true.
Proof.
intros H.
assert (n = 0 ∨ n = 1 ∨ n = 2 ∨ n = 3 ∨ n = 4 ∨ n = 5 ∨ n = 6 ∨ n = 7 ∨ n = 8
        ∨ n = 9 ∨ n = 10 ∨ n = 11 ∨ n = 12 ∨ n = 13 ∨ n = 14 ∨ n = 15) as Hn by lia.
repeat (destruct Hn as [-> | Hn]; [reflexivity|]). by subst.
Qed.

Lemma lower_is_hexdigit c : Py.is_lower_hexdigit c = true → is_hexdigit c = true.
Proof.
unfold Py.is_lower_hexdigit, is_hexdigit, Py.digit_value.
intros H. apply bool_decide_eq_true.
destruct (_ && _) eqn:E1; [eauto|].
destruct ((97 <=? _) && _) eqn:E2; [eauto|]. simpl in H. congruence.
Qed.

(** A digit is neither white space, nor a sign, nor the [x] of a prefix. *)
Lemma hexdigit_plain c :
is_hexdigit c = true →
Py.is_space c = false ∧ c ≠ "-"%char ∧ c ≠ "+"%char
∧ (Py.ord c =? 120) || (Py.ord c =? 88) = false.
Proof.
intros H.
destruct c as [[] [] [] [] [] [] [] []]; vm_compute in H; try discriminate;
  repeat split; try reflexivity; discriminate.
Qed.

Lemma read_digits_hex s acc count :
Py.all_chars is_hexdigit s = true →
Py.read_digits s acc count = (hex_value s acc, (count + String.length s)%nat, "").
Proof.
revert acc count; induction s as [|c s IH]; intros acc count H; simpl in *.
- by rewrite Nat.add_0_r.
- apply andb_prop in H as [Hc Hs]. apply bool_decide_eq_true in Hc as [d Hd].
  rewrite Hd. simpl. rewrite IH by done. f_equal. f_equal. lia.
Qed.

Lemma skip_prefix_hex s : Py.all_chars is_hexdigit s = true → Py.skip_prefix s = s.
Proof.
destruct s as [|c0 s]; [done|].
destruct c0 as [[] [] [] [] [] [] [] []]; try reflexivity.
destruct s as [|x [|d rest]]; try reflexivity.
intros H. cbn [Py.all_chars] in H.
apply andb_prop in H as [_ H]. apply andb_prop in H as [Hx _].
apply hexdigit_plain in Hx as (_ & _ & _ & Hx).
unfold Py.skip_prefix. by rewrite Hx.
Qed.

(** [int(s, 16)] of a string of digits is the number the digits denote. *)
Lemma int16_hex_string s : hex_string s → Py.int16 s = Py.Ok (hex_value s 0).
Proof.
intros [Hne H]. destruct s as [|c s]; [done|].
assert (Hc : is_hexdigit c = true) by (simpl in H; by apply andb_prop in H as [? _]).
pose proof (hexdigit_plain c Hc) as (Hsp & Hm & Hp & _).
assert (Hparse : Py.parse_unsigned (String c s) = Py.Ok (hex_value (String c s) 0)).
{ unfold Py.parse_unsigned. rewrite skip_prefix_hex by done.
  rewrite read_digits_hex by done. done. }
unfold Py.int16. cbn [Py.lstrip]. rewrite Hsp.
destruct c as [[] [] [] [] [] [] [] []]; try exact Hparse; done.
Qed.

Lemma b2a_hex_digits s : Py.all_chars is_hexdigit (Py.b2a_hex s) = true.
Proof.
induction s as [|c s IH]; [done|].
pose proof (ord_range c).
cbn [Py.b2a_hex]. unfold Py.hex2. rewrite !app_cons, app_nil.
cbn [Py.all_chars]. rewrite IH.
rewrite !lower_is_hexdigit; [done| |]; apply hexdigit_lower.
- apply Z.mod_pos_bound; lia.
- split; [apply Z.div_pos; lia | apply Z.div_lt_upper_bound; lia].
Qed.

Lemma hex_value_b2a_hex s acc : hex_value (Py.b2a_hex s) acc = big_endian s acc.
Proof.
revert acc; induction s as [|c s IH]; intros acc; [done|].
pose proof (ord_range c).
cbn [Py.b2a_hex]. unfold Py.hex2. rewrite !app_cons, app_nil.
cbn [hex_value big_endian].
rewrite !digit_value_hexdigit.
- rewrite IH. f_equal. simpl. pose proof (Z.div_mod (Py.ord c) 16). lia.
- apply Z.mod_pos_bound; lia.
- split; [apply Z.div_pos; lia | apply Z.div_lt_upper_bound; lia].
Qed.

Lemma int16_b2a_hex s : s ≠ "" → Py.int16 (Py.b2a_hex s) = Py.Ok (big_endian s 0).
Proof.
intros Hne. rewrite int16_hex_string.
- by rewrite hex_value_b2a_hex.
- split; [by destruct s | apply b2a_hex_digits].
Qed.

Lemma big_endian_nonneg s acc : 0 ≤ acc → 0 ≤ big_endian s acc.
Proof.
revert acc; induction s as [|c s IH]; intros acc H; simpl; [done|].
apply IH. pose proof (ord_range c). lia.
Qed.

End StringFacts.

(** C6. [pop_data] yields nothing and keeps the buffer when it holds fewer
    than 16 bytes or fewer than [command_length] bytes, the big-endian
    number in its first four bytes; otherwise it yields the first
    [command_length] bytes and the buffer keeps exactly what follows them. *)
Theorem pop_data_frame (self : EsmeTransceiver) :
  let ds := datastream self in
  let n := Z.of_nat (String.length ds) in
  let command_length := big_endian (Py.take 4 ds) 0 in
  if (n <? 16) || (n <? command_length)
  then Esme.pop_data self = Py.Ok (None, self)
  else ∃ frame rest,
         Esme.pop_data self
         = Py.Ok (Some frame,
                  mkEsme (config self) (bind_params self) (state self) rest)
         ∧ ds = frame +:+ rest
         ∧ Z.of_nat (String.length frame) = command_length.
Proof.
  destruct self as [cfg bp st ds]. unfold Esme.pop_data.
  cbn [datastream config bind_params state]. cbv zeta.
  change (Py.slice_to ds 4) with (Py.take 4 ds).
  set (n := Z.of_nat (String.length ds)).
  set (command_length := big_endian (Py.take 4 ds) 0).
  assert (Hpos : 0 ≤ command_length) by (by apply big_endian_nonneg).
  assert (Hcl : Py.int16 (Py.b2a_hex (Py.take 4 ds)) = Py.Ok command_length
                ∨ String.length ds = 0%nat).
  { destruct ds as [|c ds]; [by right | left]. by apply int16_b2a_hex. }
  assert (Hn : n = Z.of_nat (String.length ds)) by done.
  clearbody command_length n.
  destruct (Z.ltb_spec n 16) as [Hshort | Hlong]; cbn [orb].
  - destruct (Z.leb_spec 16 n) as [Hge|_]; [|done]. exfalso. clear -Hshort Hge. lia.
  - destruct (Z.leb_spec 16 n) as [_|Hlt]; [|exfalso; clear -Hlong Hlt; lia].
    destruct Hcl as [Hcl | Hempty]; [|exfalso; rewrite Hempty in Hn; clear -Hn Hlong; lia].
    rewrite Hcl. cbn [Py.rbind].
    destruct (Z.ltb_spec n command_length) as [Hpart | Hfull].
    + destruct (Z.leb_spec command_length n) as [Hge|_]; [|done].
      exfalso. clear -Hpart Hge. lia.
    + destruct (Z.leb_spec command_length n) as [_|Hlt]; [|exfalso; clear -Hfull Hlt; lia].
      exists (Py.take (Z.to_nat command_length) ds), (Py.drop (Z.to_nat command_length) ds).
      unfold Py.slice_to, Py.slice_from.
      destruct (Z.ltb_spec command_length 0) as [Hneg|_]; [exfalso; clear -Hneg Hpos; lia|].
      split; [done|]. split; [by rewrite take_drop|].
      rewrite length_take. subst n. clear -Hfull Hpos.
      set (k := String.length ds) in *. clearbody k. lia.
Qed.

Section Formatting.

Lemma mod16_range v : 0 ≤ v mod 16 < 16.
Proof. apply Z.mod_pos_bound. lia. Qed.

Lemma hex_digits_lower fuel v acc :
Py.all_chars Py.is_lower_hexdigit acc = true →
Py.all_chars Py.is_lower_hexdigit (Py.hex_digits fuel v acc) = true.
Proof.
revert v acc; induction fuel as [|fuel IH]; intros v acc Hacc; cbn [Py.hex_digits].
- cbn [Py.all_chars]. by rewrite hexdigit_lower, Hacc by apply mod16_range.
- assert (Py.all_chars Py.is_lower_hexdigit (String (Py.hexdigit (v mod 16)) acc) = true)
    by (cbn [Py.all_chars]; by rewrite hexdigit_lower, Hacc by apply mod16_range).
  destruct (v / 16 =? 0); [done | by apply IH].
Qed.

(** With enough fuel the digits written for [v] in front of [acc] read back
  as [v] shifted in front of what [acc] reads as. *)
Lemma hex_digits_value fuel v acc a :
0 ≤ v < 16 ^ Z.of_nat (S fuel) →
∃ k, 0 < k ∧ hex_value (Py.hex_digits fuel v acc) a = hex_value acc (a * 16 ^ k + v).
Proof.
revert v acc; induction fuel as [|fuel IH]; intros v acc Hv; cbn [Py.hex_digits].
- exists 1. split; [lia|]. cbn [hex_value].
  rewrite digit_value_hexdigit by apply mod16_range. cbn [default]; unfold id.
  change (16 ^ Z.of_nat 1) with 16 in Hv. rewrite Z.mod_small by lia.
  f_equal. rewrite Z.pow_1_r. lia.
- destruct (Z.eqb_spec (v / 16) 0) as [Hz | Hnz].
  + exists 1. split; [lia|]. cbn [hex_value].
    rewrite digit_value_hexdigit by apply mod16_range. cbn [default]; unfold id.
    f_equal. rewrite Z.pow_1_r. pose proof (Z.div_mod v 16). lia.
  + destruct (IH (v / 16) (String (Py.hexdigit (v mod 16)) acc)) as (k & Hk & E).
    { split; [apply Z.div_pos; lia|].
      apply Z.div_lt_upper_bound; [lia|].
      replace (16 * 16 ^ Z.of_nat (S fuel)) with (16 ^ Z.of_nat (S (S fuel))); [lia|].
      rewrite (Nat2Z.inj_succ (S fuel)), Z.pow_succ_r; lia. }
    exists (k + 1). split; [lia|]. rewrite E. cbn [hex_value].
    rewrite digit_value_hexdigit by apply mod16_range. cbn [default]; unfold id.
    f_equal. rewrite Z.pow_add_r by lia. pose proof (Z.div_mod v 16). lia.
Qed.

Lemma hex_fuel v : 0 ≤ v → v < 16 ^ Z.of_nat (S (Z.to_nat (Z.log2 v))).
Proof.
intros Hv. destruct (Z.eq_dec v 0) as [-> | Hne]; [done|].
pose proof (Z.log2_nonneg v) as Hl.
destruct (Z.log2_spec v) as [_ Hlt]; [lia|].
rewrite Nat2Z.inj_succ, Z2Nat.id by lia.
eapply Z.lt_le_trans; [exact Hlt|].
apply Z.pow_le_mono_l. lia.
Qed.

Lemma hex_value_hex v : 0 ≤ v → hex_value (Py.hex v) 0 = v.
Proof.
intros Hv. unfold Py.hex.
destruct (hex_digits_value (Z.to_nat (Z.log2 v)) v "" 0) as (k & _ & E).
{ split; [done | by apply hex_fuel]. }
rewrite E. cbn [hex_value]. lia.
Qed.

Lemma zeros_lower n s :
Py.all_chars Py.is_lower_hexdigit s = true →
Py.all_chars Py.is_lower_hexdigit (Py.zeros n s) = true.
Proof. intros H. induction n as [|n IH]; [done|]. cbn. by rewrite IH. Qed.

Lemma hex_value_zeros n s : hex_value (Py.zeros n s) 0 = hex_value s 0.
Proof. induction n as [|n IH]; [done|]. cbn [Py.zeros hex_value]. exact IH. Qed.

Lemma length_zeros n s : String.length (Py.zeros n s) = (n + String.length s)%nat.
Proof. induction n as [|n IH]; [done|]. cbn. by rewrite IH. Qed.

Lemma length_zfill width s :
String.length (Py.zfill width s) = (width `max` String.length s)%nat.
Proof. unfold Py.zfill. rewrite length_zeros. lia. Qed.

(** A run of [n] digits denotes a number below [16 ^ n]. *)
Lemma hex_value_bound s a :
Py.all_chars is_hexdigit s = true → 0 ≤ a →
0 ≤ hex_value s a < (a + 1) * 16 ^ Z.of_nat (String.length s).
Proof.
revert a; induction s as [|c s IH]; intros a Hs Ha.
- cbn. lia.
- cbn [Py.all_chars] in Hs. apply andb_prop in Hs as [Hc Hs].
  apply bool_decide_eq_true in Hc as [d Hd].
  assert (0 ≤ d < 16).
  { unfold Py.digit_value in Hd. pose proof (ord_range c).
    repeat match type of Hd with
           | (if ?b then _ else _) = _ => destruct b eqn:?
           end; simplify_eq; lia. }
  cbn [hex_value String.length]. rewrite Hd. cbn [default]; unfold id.
  specialize (IH (16 * a + d) Hs ltac:(lia)).
  rewrite Nat2Z.inj_succ, Z.pow_succ_r by lia.
  set (p := 16 ^ Z.of_nat (String.length s)) in *.
  assert (0 < p) by (apply Z.pow_pos_nonneg; lia).
  clearbody p. nia.
Qed.

(** The text of ["%04x" % v] for a non-negative [v]: lowercase digits that
  denote [v], at least four of them, and exactly four below [0x10000]. *)
Lemma fmt_04x_lower v :
0 ≤ v → Py.all_chars Py.is_lower_hexdigit (Py.fmt_04x v) = true.
Proof.
intros Hv. unfold Py.fmt_04x. destruct (Z.ltb_spec v 0); [lia|].
apply zeros_lower. unfold Py.hex. by apply hex_digits_lower.
Qed.

Lemma all_chars_impl (p q : ascii → bool) s :
(∀ c, p c = true → q c = true) → Py.all_chars p s = true → Py.all_chars q s = true.
Proof.
intros Hpq. induction s as [|c s IH]; [done|]. cbn [Py.all_chars].
intros [Hc Hs]%andb_prop. by rewrite (Hpq c Hc), IH.
Qed.

Lemma length_fmt_04x_ge v : 0 ≤ v → (4 ≤ String.length (Py.fmt_04x v))%nat.
Proof.
intros Hv. unfold Py.fmt_04x. destruct (Z.ltb_spec v 0); [lia|].
rewrite length_zfill. lia.
Qed.

Lemma fmt_04x_hex_string v : 0 ≤ v → hex_string (Py.fmt_04x v).
Proof.
intros Hv. split.
- pose proof (length_fmt_04x_ge v Hv) as Hl. intros E. rewrite E in Hl. cbn in Hl. lia.
- eapply all_chars_impl; [apply lower_is_hexdigit | by apply fmt_04x_lower].
Qed.

Lemma hex_value_fmt_04x v : 0 ≤ v → hex_value (Py.fmt_04x v) 0 = v.
Proof.
intros Hv. unfold Py.fmt_04x. destruct (Z.ltb_spec v 0); [lia|].
unfold Py.zfill. by rewrite hex_value_zeros, hex_value_hex.
Qed.

Lemma int16_fmt_04x v : 0 ≤ v → Py.int16 (Py.fmt_04x v) = Py.Ok v.
Proof.
intros Hv. rewrite int16_hex_string by (by apply fmt_04x_hex_string).
by rewrite hex_value_fmt_04x.
Qed.

Lemma hex_digits_length fuel v acc m :
0 ≤ v < 16 ^ Z.of_nat (S m) →
(String.length (Py.hex_digits fuel v acc) ≤ S m + String.length acc)%nat.
Proof.
revert v acc m; induction fuel as [|fuel IH]; intros v acc m Hv; cbn [Py.hex_digits].
- cbn [String.length]. lia.
- destruct (Z.eqb_spec (v / 16) 0) as [Hz | Hnz]; [cbn [String.length]; lia|].
  destruct m as [|m].
  { exfalso. apply Hnz, Z.div_small. change (16 ^ Z.of_nat 1) with 16 in Hv. lia. }
  etrans; [apply (IH _ _ m)|cbn [String.length]; lia].
  split; [apply Z.div_pos; lia|].
  apply Z.div_lt_upper_bound; [lia|].
  replace (16 * 16 ^ Z.of_nat (S m)) with (16 ^ Z.of_nat (S (S m))); [lia|].
  rewrite (Nat2Z.inj_succ (S m)), Z.pow_succ_r; lia.
Qed.

Lemma length_fmt_04x v :
0 ≤ v → String.length (Py.fmt_04x v) = 4%nat ↔ v < 0x10000.
Proof.
intros Hv. split.
- intros Hl.
  pose proof (hex_value_bound (Py.fmt_04x v) 0) as Hb.
  destruct (fmt_04x_hex_string v Hv) as [_ Hd].
  specialize (Hb Hd ltac:(lia)). rewrite hex_value_fmt_04x, Hl in Hb by done.
  change (16 ^ Z.of_nat 4) with 65536 in Hb. lia.
- intros Hlt. unfold Py.fmt_04x. destruct (Z.ltb_spec v 0); [lia|].
  rewrite length_zfill.
  pose proof (hex_digits_length (Z.to_nat (Z.log2 v)) v "" 3) as Hle.
  change (16 ^ Z.of_nat 4) with 65536 in Hle.
  specialize (Hle ltac:(lia)). unfold Py.hex. cbn [String.length] in Hle. lia.
Qed.

End Formatting.

(** C4 (amended).  For a session_info made of hexadecimal digits (or none,
    which counts as "0000") and any continue_session value,
    [update_ussd_pdu] adds [ussd_service_op] with the text "02" and
    [its_session_info] with ["%04x"] of [int(session_info, 16)] plus 0 when
    the session continues and plus 1 otherwise.  That text is made of
    lowercase hexadecimal digits denoting the sum, at least four of them and
    exactly four when the sum is below [0x10000]; when the session ends and
    the low bit of the number is unset the sum is the number with the low
    bit set. *)
Theorem update_ussd_pdu_session_info
    (sm_pdu : PDU) (continue_session : Py.PyVal) (session_info : option string) :
  hex_string (default "0000" session_info) →
  let n := hex_value (default "0000" session_info) 0 in
  let v := n + (if Py.truthy continue_session then 0 else 1) in
  Py.int16 (default "0000" session_info) = Py.Ok n
  ∧ update_ussd_pdu sm_pdu continue_session (from_option Py.VStr Py.VNone session_info)
    = Py.Ok (mkPDU (command_id sm_pdu) (command_status sm_pdu) (sequence_number sm_pdu)
               (mandatory_parameters sm_pdu)
               (optional_parameters sm_pdu
                  ++ [("ussd_service_op", Py.VStr "02");
                      ("its_session_info", Py.VStr (Py.fmt_04x v))]))
  ∧ Py.all_chars Py.is_lower_hexdigit (Py.fmt_04x v) = true
  ∧ Py.int16 (Py.fmt_04x v) = Py.Ok v
  ∧ (4 ≤ String.length (Py.fmt_04x v))%nat
  ∧ (String.length (Py.fmt_04x v) = 4%nat ↔ v < 0x10000)
  ∧ (Py.truthy continue_session = false → Z.land n 1 = 0 → v = Z.lor n 1).
Proof.
  intros Hs n v.
  assert (Hn : 0 ≤ n).
  { destruct Hs as [_ Hd]. by apply (hex_value_bound _ 0 Hd). }
  assert (Hv : 0 ≤ v) by (unfold v; destruct (Py.truthy continue_session); lia).
  assert (Hint : Py.int16 (default "0000" session_info) = Py.Ok n)
    by (by apply int16_hex_string).
  split; [done|]. split.
  - unfold update_ussd_pdu.
    assert (E : ∀ k : Z → Py.Result PDU,
               Py.rbind match from_option Py.VStr Py.VNone session_info with
                        | Py.VNone => Py.int16 "0000"
                        | Py.VStr s => Py.int16 s
                        | _ => Py.Err Py.TypeError
                        end k = k n).
    { intros k. destruct session_info; cbn [from_option default] in Hint |- *;
        unfold id in Hint; by rewrite Hint. }
    destruct session_info as [s|]; cbn [from_option] in *; cbv beta iota zeta;
      rewrite E.
    all: unfold Builder.add_optional_parameter;
      cbn [command_id command_status sequence_number mandatory_parameters
           optional_parameters];
      rewrite <- app_assoc; cbn [app]; do 4 f_equal; unfold v;
      by destruct (Py.truthy continue_session).
  - split; [by apply fmt_04x_lower|]. split; [by apply int16_fmt_04x|].
    split; [by apply length_fmt_04x_ge|]. split; [by apply length_fmt_04x|].
    intros Hend Hlow. unfold v. rewrite Hend.
    pose proof (Z.add_lor_land n 1) as E. rewrite Hlow in E. lia.
Qed.

Lemma update_ussd_pdu_session_info_witness :
  update_ussd_pdu (Builder.SubmitSM 7 ∅) (Py.VBool false) (Py.VStr "0a10")
  = Py.Ok (mkPDU "submit_sm" "ESME_ROK" 7 ∅
             [("ussd_service_op", Py.VStr "02"); ("its_session_info", Py.VStr "0a11")]).
Proof.
  assert (H : hex_string (default "0000" (Some "0a10"))) by (split; [discriminate | reflexivity]).
  exact (proj1 (proj2 (update_ussd_pdu_session_info
                         (Builder.SubmitSM 7 ∅) (Py.VBool false) (Some "0a10") H))).
Defined.

(** C4, as first stated, fails: ending a session whose session_info is
    "ffff" produces five digits, not four. *)
Lemma update_ussd_pdu_five_digits :
  update_ussd_pdu (Builder.SubmitSM 7 ∅) (Py.VBool false) (Py.VStr "ffff")
  = Py.Ok (mkPDU "submit_sm" "ESME_ROK" 7 ∅
             [("ussd_service_op", Py.VStr "02"); ("its_session_info", Py.VStr "10000")])
  ∧ String.length "10000" ≠ 4%nat.
Proof. split; [reflexivity | discriminate]. Qed.

Section RunFacts.
Context {W : Type} (h : ∀ c : Call, W → resp c * W).

Lemma run_bind {A B} (p : Prog A) (f : A → Prog B) (w : W) :
  run h (p ≫= f) w
  = match run h p w with
    | (Returned a, w1, t1) =>
        let '(o, w2, t2) := run h (f a) w1 in (o, w2, t1 ++ t2)
    | (Raised e, w1, t1) => (Raised e, w1, t1)
    end.
Proof.
  revert w. induction p as [a | e | c k IH]; intros w.
  - change (Ret a ≫= f) with (f a). cbn [run].
    by destruct (run h (f a) w) as [[o w2] t2].
  - done.
  - change (Vis c k ≫= f) with (Vis c (λ r, k r ≫= f)). cbn [run].
    destruct (h c w) as [r w1]. rewrite IH.
    destruct (run h (k r) w1) as [[[a | e] w2] t1]; [|done].
    by destruct (run h (f a) w2) as [[o w3] t2].
Qed.

End RunFacts.

Section ResetCounter.
Context {W : Type} (h : ∀ c : Call, W → resp c * W).

(** C7 (amended).  The store calls of [_reset_seq_counter], whatever the
    store answers: SETNX on the lock key, then TTL on it, then EXPIRE with
    10 seconds when the time to live is negative, all three whether or not
    the lock was obtained.  When SETNX failed nothing more is issued: the
    counter is neither read nor deleted.  When it succeeded the counter is
    read, and it is deleted exactly when the value read is a number of at
    least [0xFFFF0000]. *)
Theorem reset_seq_counter_calls (w : W) :
  ∃ (locked : bool) (t : Z) tail,
    outcome h Esme._reset_seq_counter w = Returned tt
    ∧ trace h Esme._reset_seq_counter w
      = [(redis_setnx "smpp_last_sequence_number_wrap" 1, RBool locked);
         (redis_ttl "smpp_last_sequence_number_wrap", RInt t)]
        ++ (if t <? 0
            then [(redis_expire "smpp_last_sequence_number_wrap" 10, RUnit)]
            else [])
        ++ tail
    ∧ (if locked
       then ∃ v, tail = (redis_get "smpp_last_sequence_number", ROpt v)
                        :: (if Py.lt_opt v 0xFFFF0000 then []
                            else [(redis_delete "smpp_last_sequence_number", RUnit)])
       else tail = [])
    ∧ (redis_delete "smpp_last_sequence_number" ∈ map ev_call tail
       ↔ locked = true
         ∧ ∃ x, (redis_get "smpp_last_sequence_number", ROpt (Some x)) ∈ tail
                ∧ 0xFFFF0000 ≤ x).
Proof.
  unfold outcome, trace, Esme._reset_seq_counter. cbn.
  destruct (h (redis_setnx _ _) w) as [locked w1].
  destruct (h (redis_ttl _) w1) as [t w2]. exists locked, t.
  destruct (Z.ltb_spec t 0) as [Ht | Ht]; cbn.
  1: destruct (h (redis_expire _ _) w2) as [[] w3].
  all: destruct locked; cbn.
  all: try match goal with
           | |- context [h (redis_get ?k) ?w'] =>
               let v := fresh "v" in
               destruct (h (redis_get k) w') as [v ?];
               destruct (Py.lt_opt v 4294901760) eqn:Hv; cbn
           end.
  all: try match goal with
           | |- context [h (redis_delete ?k) ?w'] =>
               destruct (h (redis_delete k) w') as [[] ?]
           end.
  all: eexists; split; [reflexivity|]; split; [reflexivity|]; split;
    [try reflexivity; eexists; rewrite Hv; reflexivity|]; cbn.
  all: split; [intros H | intros (Hl & x & Hx & Hle)]; try discriminate Hl.
  all: inv_elem; try discriminate; simplify_eq; cbn in *.
  all: try (destruct (Z.ltb_spec x 4294901760); [lia | discriminate]).
  all: try (rewrite !elem_of_cons; by auto).
  all: split; [done|]; destruct v as [x|]; [|discriminate]; exists x; cbn in Hv;
    split; [by left | lia].
Qed.
End ResetCounter.

Section Quiet.

Lemma store_only_sent tr : store_only tr → sent_pdus tr = [].
Proof.
  induction 1 as [|[c r] tr Hc _ IH]; [done|].
  unfold sent_pdus in *. cbn in *. rewrite IH. by destruct c.
Qed.

Lemma store_only_closed tr : store_only tr → closed tr = false.
Proof.
  induction 1 as [|[c r] tr Hc _ IH]; [done|].
  unfold closed in *. cbn in *. rewrite IH. by destruct c.
Qed.

Lemma store_only_processor tr : store_only tr → processor_calls tr = [].
Proof.
  induction 1 as [|[c r] tr Hc _ IH]; [done|].
  unfold processor_calls in *. cbn in *. rewrite IH. by destruct c.
Qed.

Lemma sent_pdus_app t1 t2 : sent_pdus (t1 ++ t2) = sent_pdus t1 ++ sent_pdus t2.
Proof. apply omap_app. Qed.

Lemma closed_app t1 t2 : closed (t1 ++ t2) = closed t1 || closed t2.
Proof. apply existsb_app. Qed.

Lemma redis_calls_app t1 t2 : redis_calls (t1 ++ t2) = redis_calls t1 ++ redis_calls t2.
Proof. unfold redis_calls. by rewrite map_app, List.filter_app. Qed.

End Quiet.

(** Outside the link check every outgoing PDU is logged, then written. *)
Lemma send_pdu_logged (pdu : PDU) :
  command_id pdu ≠ "enquire_link" → command_id pdu ≠ "enquire_link_resp" →
  Esme.send_pdu pdu
  = Vis (log_debug "OUTGOING >>>> %s") (λ _, Vis (transport_write pdu) Ret).
Proof.
  intros H1 H2. unfold Esme.send_pdu.
  rewrite bool_decide_eq_false_2 by elem_solver. reflexivity.
Qed.

Section Allocator.
Context {W : Type} (h : ∀ c : Call, W → resp c * W).

(** The resetter always returns and talks to nothing but the store. *)
Lemma run_reset_seq_counter (w : W) :
  ∃ w' tr,
    run h Esme._reset_seq_counter w = (Returned tt, w', tr)
    ∧ store_only tr
    ∧ (∀ k v, redis_lpush k v ∉ map ev_call tr).
Proof.
  unfold Esme._reset_seq_counter. cbn.
  destruct (h (redis_setnx _ _) w) as [locked w1].
  destruct (h (redis_ttl _) w1) as [t w2].
  destruct (t <? 0); cbn.
  1: destruct (h (redis_expire _ _) w2) as [[] w3].
  all: destruct locked; cbn.
  all: try match goal with
           | |- context [h (redis_get ?k) ?w'] =>
               let v := fresh "v" in
               destruct (h (redis_get k) w') as [v ?];
               destruct (Py.lt_opt v 4294901760); cbn
           end.
  all: try match goal with
           | |- context [h (redis_delete ?k) ?w'] =>
               destruct (h (redis_delete k) w') as [[] ?]
           end.
  all: eexists _, _; (split; [reflexivity|]); split;
    [repeat constructor | elem_solver].
Qed.

(** [get_next_seq] always returns, hands back the reply of its [INCR],
    and talks to nothing but the store. *)
Lemma run_get_next_seq (w : W) :
  ∃ seq w' tr,
    run h Esme.get_next_seq w
    = (Returned seq, w', (redis_incr "smpp_last_sequence_number", RInt seq) :: tr)
    ∧ store_only tr
    ∧ (∀ k v, redis_lpush k v ∉ map ev_call tr).
Proof.
  unfold Esme.get_next_seq. cbn -[Esme._reset_seq_counter].
  destruct (h (redis_incr _) w) as [seq w1].
  rewrite run_bind.
  destruct (4294901760 <=? seq).
  - destruct (run_reset_seq_counter w1) as (w2 & tr & -> & Hs & Hl).
    cbn. exists seq, w2, (tr ++ []). by rewrite app_nil_r.
  - cbn. exists seq, w1, []. split; [done|]. split; [constructor|]. elem_solver.
Qed.

End Allocator.

Section Unbound.
Context {W : Type} (h : ∀ c : Call, W → resp c * W).

(** C2 (amended).  Calling [submit_sm] in a state other than BOUND_TX and
    BOUND_TRX only logs: no PDU is sent, the transport is not closed, the
    store is not touched, and the call returns the integer 0. *)
Theorem submit_sm_unbound (self : EsmeTransceiver) (kwargs : gmap string Py.PyVal)
    (w : W) :
  state self ≠ BOUND_TX → state self ≠ BOUND_TRX →
  outcome h (Esme.submit_sm self kwargs) w = Returned (ret_int 0)
  ∧ map ev_call (trace h (Esme.submit_sm self kwargs) w)
    = [log_err "WARNING: submit_sm in wrong state: %s, dropping message: %s"]
  ∧ sent_pdus (trace h (Esme.submit_sm self kwargs) w) = []
  ∧ closed (trace h (Esme.submit_sm self kwargs) w) = false
  ∧ redis_calls (trace h (Esme.submit_sm self kwargs) w) = [].
Proof.
  intros Htx Htrx. unfold outcome, trace, Esme.submit_sm.
  rewrite bool_decide_eq_false_2 by elem_solver. cbn.
  by destruct (h (log_err _) w) as [[] w1].
Qed.

End Unbound.

Lemma submit_sm_unbound_witness :
  outcome world_h
    (Esme.submit_sm (mkEsme (mkConfig false false false) ∅ OPEN "")
       {["short_message" := Py.VStr "hi"]})
    (plain_world empty_store)
  = Returned (ret_int 0).
Proof.
  apply (submit_sm_unbound world_h (mkEsme (mkConfig false false false) ∅ OPEN ""));
    discriminate.
Defined.

(** C2, as first stated, fails: the unbound call hands back the integer 0,
    which is not the empty list. *)
Lemma submit_sm_unbound_returns_zero :
  outcome world_h
    (Esme.submit_sm (mkEsme (mkConfig false false false) ∅ CLOSED "")
       {["short_message" := Py.VStr "hi"]})
    (plain_world empty_store)
  = Returned (ret_int 0)
  ∧ Returned (ret_int 0) ≠ Returned (ret_list []).
Proof. split; [reflexivity | discriminate]. Qed.

(** C7, as first stated, fails: with the lock held elsewhere and no expiry
    on it, the resetter still asks for the time to live and sets it. *)
Lemma reset_seq_counter_calls_after_failed_setnx :
  trace world_h Esme._reset_seq_counter
    (plain_world (seeded_store 0xFFFF0000 (Some None)))
  = [(redis_setnx "smpp_last_sequence_number_wrap" 1, RBool false);
     (redis_ttl "smpp_last_sequence_number_wrap", RInt (-1));
     (redis_expire "smpp_last_sequence_number_wrap" 10, RUnit)]
  ∧ redis_calls (trace world_h Esme._reset_seq_counter
                   (plain_world (seeded_store 0xFFFF0000 (Some None))))
    ≠ [redis_setnx "smpp_last_sequence_number_wrap" 1].
Proof. split; [reflexivity | discriminate]. Qed.

Section Deliver.
Context {W : Type} (h : ∀ c : Call, W → resp c * W).

(** C5.  A [deliver_sm] with status ESME_ROK handled in BOUND_RX or
    BOUND_TRX: the [deliver_sm_resp] echoing the sequence number is the
    one PDU written and it is written before any processor is called.
    [handle_delivery_report_pdu] is then always asked; each processor
    that declines is followed by the next of the fixed order delivery
    report, multipart, USSD, decoding, delivery-report content, short
    message, and the first that reports the PDU handled is the last one
    asked (as is the decoding when a part is not a text, which is logged).
    The calls made are exactly these, with nothing in between.  In
    particular a handled delivery report ends the processing there. *)
Theorem handle_deliver_sm_precedence (self : EsmeTransceiver) (pdu : PDU) (w : W) :
  state self = BOUND_RX ∨ state self = BOUND_TRX →
  command_status pdu = "ESME_ROK" →
  let tr := trace h (Esme.handle_deliver_sm self pdu) w in
  let resp_pdu := Builder.DeliverSMResp (sequence_number pdu) (bind_params self) in
  outcome h (Esme.handle_deliver_sm self pdu) w = Returned tt
  ∧ (∃ rest,
       tr = (log_debug "OUTGOING >>>> %s", RUnit)
            :: (transport_write resp_pdu, RUnit) :: rest
       ∧ sent_pdus rest = []
       ∧ processor_calls rest = processor_calls tr)
  ∧ sent_pdus tr = [resp_pdu]
  ∧ (∃ content,
       processor_calls tr
       `prefix_of` [handle_delivery_report_pdu pdu; handle_multipart_pdu pdu;
                    handle_ussd_pdu pdu; decode_pdus [pdu];
                    handle_delivery_report_content content;
                    handle_short_message_pdu pdu])
  ∧ ((handle_delivery_report_pdu pdu, RBool true) ∈ tr →
     processor_calls tr = [handle_delivery_report_pdu pdu])
  ∧ ((handle_multipart_pdu pdu, RBool true) ∈ tr →
     processor_calls tr = [handle_delivery_report_pdu pdu; handle_multipart_pdu pdu])
  ∧ ((handle_ussd_pdu pdu, RBool true) ∈ tr →
     processor_calls tr = [handle_delivery_report_pdu pdu; handle_multipart_pdu pdu;
                           handle_ussd_pdu pdu])
  ∧ (∃ (was_dr : bool) after_dr,
       tr = [(log_debug "OUTGOING >>>> %s", RUnit);
             (transport_write resp_pdu, RUnit);
             (handle_delivery_report_pdu pdu, RBool was_dr)] ++ after_dr
       ∧ if was_dr then after_dr = [] else
         ∃ (was_multipart : bool) after_multipart,
           after_dr = (handle_multipart_pdu pdu, RBool was_multipart) :: after_multipart
           ∧ if was_multipart then after_multipart = [] else
             ∃ (was_ussd : bool) after_ussd,
               after_multipart = (handle_ussd_pdu pdu, RBool was_ussd) :: after_ussd
               ∧ if was_ussd then after_ussd = [] else
                 ∃ content_parts after_decode,
                   after_ussd
                   = (decode_pdus [pdu], RParts content_parts) :: after_decode
                   ∧ if forallb (λ part : option string, bool_decide (is_Some part))
                                content_parts
                     then
                       ∃ was_cdr : bool,
                         after_decode
                         = (handle_delivery_report_content
                              (String.concat "" (omap id content_parts)),
                            RBool was_cdr)
                           :: (if was_cdr then []
                               else [(handle_short_message_pdu pdu, RUnit)])
                     else
                       after_decode
                       = [(log_msg "Not all parts of the PDU were able to be decoded.",
                           RUnit)]).
Proof.
  intros Hstate Hstatus tr resp_pdu. subst tr.
  unfold outcome, trace, Esme.handle_deliver_sm.
  rewrite bool_decide_eq_true_2 by (destruct Hstate as [-> | ->]; elem_solver).
  rewrite Hstatus, send_pdu_logged by done. cbn.
  hstep h w as [[] w1].
  hstep h w1 as [[] w2].
  hstep h w2 as [was_dr w3].
  destruct was_dr; cbn; [deliver_leaf|].
  hstep h w3 as [was_multipart w4].
  destruct was_multipart; cbn; [deliver_leaf|].
  hstep h w4 as [was_ussd w5].
  destruct was_ussd; cbn; [deliver_leaf|].
  hstep h w5 as [content_parts w6].
  destruct (forallb _ content_parts) eqn:Hall; cbn.
  - hstep h w6 as [was_cdr w7].
    destruct was_cdr; cbn; [deliver_leaf|].
    hstep h w7 as [[] w8]. deliver_leaf.
  - hstep h w6 as [[] w7]. deliver_leaf.
Qed.

End Deliver.

Lemma handle_deliver_sm_precedence_witness :
  processor_calls
    (trace world_h
       (Esme.handle_deliver_sm
          (mkEsme (mkConfig false false false) ∅ BOUND_TRX "")
          (mkPDU "deliver_sm" "ESME_ROK" 9 ∅ []))
       (stub_world empty_store true false false))
  = [handle_delivery_report_pdu (mkPDU "deliver_sm" "ESME_ROK" 9 ∅ [])]
  ∧ processor_calls
      (trace world_h
         (Esme.handle_deliver_sm
            (mkEsme (mkConfig false false false) ∅ BOUND_TRX "")
            (mkPDU "deliver_sm" "ESME_ROK" 9 ∅ []))
         (stub_world empty_store false false false))
    = [handle_delivery_report_pdu (mkPDU "deliver_sm" "ESME_ROK" 9 ∅ []);
       handle_multipart_pdu (mkPDU "deliver_sm" "ESME_ROK" 9 ∅ []);
       handle_ussd_pdu (mkPDU "deliver_sm" "ESME_ROK" 9 ∅ []);
       decode_pdus [mkPDU "deliver_sm" "ESME_ROK" 9 ∅ []];
       handle_delivery_report_content "text";
       handle_short_message_pdu (mkPDU "deliver_sm" "ESME_ROK" 9 ∅ [])].
Proof.
  split.
  - apply (handle_deliver_sm_precedence world_h
             (mkEsme (mkConfig false false false) ∅ BOUND_TRX "")
             (mkPDU "deliver_sm" "ESME_ROK" 9 ∅ [])
             (stub_world empty_store true false false)).
    + by right.
    + reflexivity.
    + vm_compute. do 2 apply list_elem_of_further. apply list_elem_of_here.
  - pose proof (handle_deliver_sm_precedence world_h
                  (mkEsme (mkConfig false false false) ∅ BOUND_TRX "")
                  (mkPDU "deliver_sm" "ESME_ROK" 9 ∅ [])
                  (stub_world empty_store false false false)
                  (or_intror eq_refl) eq_refl) as H.
    cbv zeta in H.
    destruct H as (_ & _ & _ & _ & _ & _ & _ & was_dr & after_dr & Htr & H).
    rewrite Htr.
    assert (Hdr : was_dr = false) by (by injection Htr as <- _).
    rewrite Hdr in H.
    destruct H as (was_multipart & after_multipart & -> & H).
    assert (Hmultipart : was_multipart = false) by (by injection Htr as _ <- _).
    rewrite Hmultipart in H.
    destruct H as (was_ussd & after_ussd & -> & H).
    assert (Hussd : was_ussd = false) by (by injection Htr as _ _ <- _).
    rewrite Hussd in H.
    destruct H as (content_parts & after_decode & -> & H).
    assert (Hparts : content_parts = [Some "text"]) by (by injection Htr as _ _ _ <- _).
    rewrite Hparts in H. cbn in H.
    destruct H as (was_cdr & ->).
    assert (Hcdr : was_cdr = false) by (by injection Htr as _ _ _ _ <-).
    rewrite Hdr, Hmultipart, Hussd, Hparts, Hcdr. reflexivity.
Defined.

Section Ledger.
Context {W : Type} (h : ∀ c : Call, W → resp c * W).

Lemma push_unacked_calls (x : Z) (w : W) :
  outcome h (Esme.push_unacked x) w = Returned tt
  ∧ map ev_call (trace h (Esme.push_unacked x) w)
    = [redis_lpush "unacked" x; redis_llen "unacked"; log_msg "unacked pushed to: %s"].
Proof.
  unfold outcome, trace, Esme.push_unacked, Esme.get_unacked_count. cbn.
  hstep h w as [[] w1]. hstep h w1 as [n w2]. hstep h w2 as [[] w3]. done.
Qed.

Lemma pop_unacked_calls (w : W) :
  outcome h Esme.pop_unacked w = Returned tt
  ∧ map ev_call (trace h Esme.pop_unacked w)
    = [redis_lpop "unacked"; redis_llen "unacked"; log_msg "unacked popped to: %s"].
Proof.
  unfold outcome, trace, Esme.pop_unacked, Esme.get_unacked_count. cbn.
  hstep h w as [o w1]. hstep h w1 as [n w2]. hstep h w2 as [[] w3]. done.
Qed.

End Ledger.

Section StoreLists.

Lemma lists_lpush key x s :
  default [] (lists (Redis.lpush key x s) !! key) = x :: default [] (lists s !! key).
Proof. unfold Redis.lpush. cbn [lists]. by rewrite lookup_insert_eq. Qed.

Lemma lpop_cons key x l s :
  default [] (lists s !! key) = x :: l →
  ∃ s', Redis.lpop key s = (Some x, s') ∧ default [] (lists s' !! key) = l.
Proof.
  intros E. unfold Redis.lpop. rewrite E. eexists. split; [done|].
  cbn [lists]. by rewrite lookup_insert_eq.
Qed.

Lemma final_push_unacked x w :
  final world_h (Esme.push_unacked x) w
  = with_store w (Redis.lpush "unacked" x (store w)).
Proof. reflexivity. Qed.

Lemma run_pop_unacked x l w :
  default [] (lists (store w) !! "unacked") = x :: l →
  ∃ s', run world_h Esme.pop_unacked w
        = (Returned tt, with_store w s',
           [(redis_lpop "unacked", ROpt (Some x));
            (redis_llen "unacked", RInt (Redis.llen "unacked" s'));
            (log_msg "unacked popped to: %s", RUnit)])
        ∧ default [] (lists s' !! "unacked") = l.
Proof.
  intros E. destruct (lpop_cons "unacked" x l (store w) E) as (s' & Hpop & Hs').
  exists s'. split; [|done].
  unfold Esme.pop_unacked, Esme.get_unacked_count. cbn -[Redis.lpop Redis.llen].
  rewrite Hpop. reflexivity.
Qed.

End StoreLists.

(** C9.  The unacked ledger is last in, first out: [push_unacked] issues
    LPUSH, which puts the number at the head of the shared list, and
    [pop_unacked] issues LPOP, which takes the head.  After pushing [a] and
    then [b] on any ledger the head is [b], and the next pop removes [b]
    and leaves [a] at the head of what was there before. *)
Theorem unacked_ledger_lifo (w : World) (a b : Z) :
  let w1 := final world_h (Esme.push_unacked a) w in
  let w2 := final world_h (Esme.push_unacked b) w1 in
  let popped := trace world_h Esme.pop_unacked w2 in
  let w3 := final world_h Esme.pop_unacked w2 in
  unacked w1 = a :: unacked w
  ∧ unacked w2 = b :: a :: unacked w
  ∧ head popped = Some (redis_lpop "unacked", ROpt (Some b))
  ∧ unacked w3 = a :: unacked w
  ∧ map ev_call (trace world_h (Esme.push_unacked a) w)
    = [redis_lpush "unacked" a; redis_llen "unacked"; log_msg "unacked pushed to: %s"]
  ∧ map ev_call popped
    = [redis_lpop "unacked"; redis_llen "unacked"; log_msg "unacked popped to: %s"].
Proof.
  intros w1 w2 popped w3.
  assert (H1 : unacked w1 = a :: unacked w).
  { subst w1. rewrite final_push_unacked. apply lists_lpush. }
  assert (H2 : unacked w2 = b :: a :: unacked w).
  { subst w2. rewrite final_push_unacked. rewrite <- H1. apply lists_lpush. }
  destruct (run_pop_unacked b (a :: unacked w) w2 H2) as (s' & Hrun & Hs').
  subst popped w3. unfold trace, final. rewrite Hrun.
  repeat split; done.
Qed.

Section Query.
Context {W : Type} (h : ∀ c : Call, W → resp c * W).

(** C10.  [query_sm(message_id, source_addr)], for bind parameters and
    keyword arguments that do not themselves name [message_id] or
    [source_addr]: in BOUND_TX or BOUND_TRX it obtains a sequence number
    from [get_next_seq], writes one [query_sm] PDU with that number, the
    given [message_id] and [source_addr], and returns the number, without
    pushing anything on the unacked ledger; in any other state it calls
    nothing at all and returns 0. *)
Theorem query_sm_contract (self : EsmeTransceiver) (message_id source_addr : Py.PyVal)
    (kwargs : gmap string Py.PyVal) (w : W) :
  (kwargs ∪ bind_params self) !! "message_id" = None →
  (kwargs ∪ bind_params self) !! "source_addr" = None →
  if bool_decide (state self ∈ [BOUND_TX; BOUND_TRX])
  then ∃ seq w1 tr1 w2 pdu,
      run h Esme.get_next_seq w = (Returned seq, w1, tr1)
      ∧ run h (Esme.query_sm self message_id source_addr kwargs) w
        = (Returned seq, w2,
           tr1 ++ [(log_debug "OUTGOING >>>> %s", RUnit); (transport_write pdu, RUnit)])
      ∧ sent_pdus (trace h (Esme.query_sm self message_id source_addr kwargs) w) = [pdu]
      ∧ command_id pdu = "query_sm"
      ∧ sequence_number pdu = seq
      ∧ mandatory_parameters pdu !! "message_id" = Some message_id
      ∧ mandatory_parameters pdu !! "source_addr" = Some source_addr
      ∧ (∀ k, k ≠ "message_id" → k ≠ "source_addr" →
              mandatory_parameters pdu !! k = (kwargs ∪ bind_params self) !! k)
      ∧ (∀ k v, redis_lpush k v
                ∉ map ev_call (trace h (Esme.query_sm self message_id source_addr kwargs) w))
  else run h (Esme.query_sm self message_id source_addr kwargs) w = (Returned 0, w, []).
Proof.
  intros Hmid Hsrc.
  destruct (bool_decide (state self ∈ [BOUND_TX; BOUND_TRX])) eqn:Hstate;
    [|unfold Esme.query_sm; by rewrite Hstate].
  destruct (run_get_next_seq h w) as (seq & w1 & tr1 & Hseq & Hstore & Hpush).
  set (pdu := Builder.QuerySM seq
                (<["message_id":=message_id]>
                   (<["source_addr":=source_addr]> (kwargs ∪ bind_params self)))).
  assert (Hrun : ∃ w2,
             run h (Esme.query_sm self message_id source_addr kwargs) w
             = (Returned seq, w2,
                ((redis_incr "smpp_last_sequence_number", RInt seq) :: tr1)
                ++ [(log_debug "OUTGOING >>>> %s", RUnit); (transport_write pdu, RUnit)])).
  { unfold Esme.query_sm. rewrite Hstate, run_bind, Hseq. cbv beta iota zeta.
    rewrite Hmid, Hsrc.
    rewrite (bool_decide_eq_false_2 (is_Some None)) by (by intros [? ?]).
    cbn [orb]. rewrite send_pdu_logged by done. cbn.
    hstep h w1 as [[] w2]. hstep h w2 as [[] w3]. by exists w3. }
  destruct Hrun as (w2 & Hrun).
  exists seq, w1, ((redis_incr "smpp_last_sequence_number", RInt seq) :: tr1), w2, pdu.
  unfold trace. rewrite Hrun. cbn [snd].
  split; [done|]. split; [done|]. split.
  { rewrite sent_pdus_app. cbn.
    change (sent_pdus tr1 ++ [pdu] = [pdu]). by rewrite store_only_sent. }
  split; [done|]. split; [done|].
  split; [subst pdu; cbn; by rewrite lookup_insert_eq|].
  split; [subst pdu; cbn; by rewrite lookup_insert_ne, lookup_insert_eq|].
  split; [intros k ? ?; subst pdu; cbn; by rewrite !lookup_insert_ne|].
  intros k v. rewrite map_app, elem_of_app. cbn.
  rewrite !elem_of_cons, elem_of_nil. specialize (Hpush k v). naive_solver.
Qed.

End Query.

Lemma query_sm_contract_witness :
  ∃ seq w1 tr1 w2 pdu,
    run world_h Esme.get_next_seq (plain_world empty_store) = (Returned seq, w1, tr1)
    ∧ run world_h
        (Esme.query_sm (mkEsme (mkConfig false false false)
                          {["system_id" := Py.VStr "vumi"]} BOUND_TX "")
           (Py.VStr "abc") (Py.VStr "27831234567") ∅)
        (plain_world empty_store)
      = (Returned seq, w2,
         tr1 ++ [(log_debug "OUTGOING >>>> %s", RUnit); (transport_write pdu, RUnit)])
    ∧ mandatory_parameters pdu !! "message_id" = Some (Py.VStr "abc").
Proof.
  destruct (query_sm_contract world_h
              (mkEsme (mkConfig false false false)
                 {["system_id" := Py.VStr "vumi"]} BOUND_TX "")
              (Py.VStr "abc") (Py.VStr "27831234567") ∅ (plain_world empty_store))
    as (seq & w1 & tr1 & w2 & pdu & H1 & H2 & _ & _ & _ & H3 & _);
    [reflexivity | reflexivity |].
  exists seq, w1, tr1, w2, pdu. exact (conj H1 (conj H2 H3)).
Defined.

Section StoreInts.





Lemma get_delete key s : Redis.get key (Redis.delete key s) = None.
Proof. unfold Redis.delete, Redis.get. cbn. by rewrite lookup_delete_eq. Qed.


End StoreInts.









Section SubmitOne.
Context {W : Type} (h : ∀ c : Call, W → resp c * W).

Lemma run_eta {A} (p : Prog A) (w : W) :
  run h p w = (outcome h p w, final h p w, trace h p w).
Proof. unfold outcome, final, trace. by destruct (run h p w) as [[? ?] ?]. Qed.

(** One segment through [_submit_sm]: a byte string short enough not to
    be moved to [message_payload], a USSD annotation and SAR parameters
    that are defined. *)
Lemma run_submit_sm (self : EsmeTransceiver) (params : gmap string Py.PyVal)
    (msg : string) (uo so : list (string * Py.PyVal)) (w : W) :
  params !! "short_message" = Some (Py.VStr msg) →
  (String.length msg ≤ 254)%nat →
  ussd_options params = Py.Ok uo →
  sar_options params = Py.Ok so →
  ∃ seq w' tr pdu,
    run h (Esme._submit_sm self params) w = (Returned seq, w', tr)
    ∧ sent_pdus tr = [pdu]
    ∧ closed tr = false
    ∧ redis_lpush "unacked" seq ∈ map ev_call tr
    ∧ command_id pdu = "submit_sm"
    ∧ sequence_number pdu = seq
    ∧ optional_parameters pdu = uo ++ so
    ∧ (∀ k, k ∉ popped_keys → mandatory_parameters pdu !! k = params !! k).
Proof.
  intros Hmsg Hlen Hussd Hsar.
  destruct (run_get_next_seq h w) as (seq & w1 & tr1 & Hseq & Hstore & Hpush).
  unfold Esme._submit_sm. rewrite run_bind, Hseq.
  unfold Py.dict_get. rewrite Hmsg. cbn [lift].
  change (Ret (Py.VStr msg) ≫= ?f) with (f (Py.VStr msg)). cbv beta.
  unfold Py.dict_pop. cbv beta iota zeta.
  rewrite !lookup_delete_ne by done.
  set (kw := base.delete "session_info" _).
  assert (Hkw : ∀ k, k ∉ popped_keys → kw !! k = params !! k).
  { intros k Hk. subst kw. unfold popped_keys in Hk.
    rewrite !not_elem_of_cons in Hk. destruct Hk as (? & ? & ? & ? & _).
    by rewrite !lookup_delete_ne. }
  clearbody kw.
  set (pdu0 := Builder.SubmitSM seq kw).
  (* the USSD annotation *)
  assert (Hann : (if Py.eq_str (default (Py.VStr "sms") (params !! "message_type")) "ussd"
                  then lift (update_ussd_pdu pdu0
                               (default (Py.VBool true) (params !! "continue_session"))
                               (default Py.VNone (params !! "session_info")))
                  else mret pdu0)
                 = Ret (mkPDU "submit_sm" "ESME_ROK" seq kw uo)).
  { unfold ussd_options in Hussd.
    destruct (Py.eq_str _ "ussd"); [|by simplify_eq].
    unfold update_ussd_pdu.
    destruct (default Py.VNone (params !! "session_info")) as [| | |s|];
      try discriminate; cbv beta iota zeta in Hussd |- *;
      (destruct (Py.int16 _) as [n|]; [|discriminate]);
      cbn in Hussd |- *; by simplify_eq. }
  rewrite Hann. clear Hann.
  change (Ret ?x ≫= ?f) with (f x). cbv beta.
  set (pdu1 := mkPDU "submit_sm" "ESME_ROK" seq kw uo).
  (* no message_payload for a short message *)
  assert (Hlong : (if send_long_messages (config self)
                   then n ← lift (Py.len (Py.VStr msg));
                        if 254 <? n
                        then payload ← lift (Esme.hex_payload (Py.VStr msg));
                             mret (Builder.add_message_payload payload pdu1)
                        else mret pdu1
                   else mret pdu1) = Ret pdu1).
  { destruct (send_long_messages (config self)); [|done]. cbn [Py.len lift].
    change (Ret ?x ≫= ?f) with (f x). cbv beta.
    destruct (Z.ltb_spec 254 (Z.of_nat (String.length msg))); [lia | done]. }
  rewrite Hlong. clear Hlong.
  change (Ret ?x ≫= ?f) with (f x). cbv beta.
  (* the SAR parameters *)
  assert (Hsarp : (if Py.truthy (default Py.VNone (params !! "sar_params"))
                   then r ← lift (Py.getitem (default Py.VNone (params !! "sar_params"))
                                    "msg_ref_num");
                        t ← lift (Py.getitem (default Py.VNone (params !! "sar_params"))
                                    "total_segments");
                        i ← lift (Py.getitem (default Py.VNone (params !! "sar_params"))
                                    "segment_seqnum");
                        mret (Builder.set_sar_segment_seqnum i
                                (Builder.set_sar_total_segments t
                                   (Builder.set_sar_msg_ref_num r pdu1)))
                   else mret pdu1)
                  = Ret (mkPDU "submit_sm" "ESME_ROK" seq kw (uo ++ so))).
  { unfold sar_options in Hsar. cbv zeta in Hsar.
    destruct (Py.truthy _); [|simplify_eq; by rewrite app_nil_r].
    destruct (Py.getitem _ "msg_ref_num") as [r|]; [|discriminate].
    destruct (Py.getitem _ "total_segments") as [t|]; [|discriminate].
    destruct (Py.getitem _ "segment_seqnum") as [i|]; [|discriminate].
    cbn in Hsar |- *. simplify_eq.
    unfold Builder.set_sar_segment_seqnum, Builder.set_sar_total_segments,
      Builder.set_sar_msg_ref_num, Builder.add_optional_parameter. cbn.
    by rewrite <- !app_assoc. }
  rewrite Hsarp. clear Hsarp.
  change (Ret ?x ≫= ?f) with (f x). cbv beta.
  set (pdu := mkPDU "submit_sm" "ESME_ROK" seq kw (uo ++ so)).
  rewrite send_pdu_logged by done.
  unfold Esme.push_unacked, Esme.get_unacked_count. cbn.
  hstep h w1 as [[] w2]. hstep h w2 as [[] w3]. hstep h w3 as [[] w4].
  hstep h w4 as [n w5]. hstep h w5 as [[] w6].
  eexists seq, w6, _, pdu. split; [reflexivity|].
  split.
  { unfold sent_pdus. cbn. fold (sent_pdus tr1).
    rewrite sent_pdus_app, store_only_sent by done. done. }
  split.
  { unfold closed. cbn. fold (closed tr1).
    rewrite closed_app, store_only_closed by done. done. }
  split.
  { cbn. rewrite map_app. cbn. apply list_elem_of_further, elem_of_app. right.
    elem_solver. }
  done.
Qed.

End SubmitOne.

Section Chunks.

Lemma drop_drop n m s : Py.drop n (Py.drop m s) = Py.drop (m + n) s.
Proof.
  revert s; induction m as [|m IH]; intros s; [done|].
  destruct s as [|c s]; [by destruct n|]. cbn. apply IH.
Qed.

Lemma split_loop_unfold fuel (msg : string) :
  Esme.split_loop (S fuel) 130 msg
  = if String.eqb msg "" then []
    else Py.take 130 msg :: Esme.split_loop fuel 130 (Py.drop 130 msg).
Proof. cbn [Esme.split_loop Py.truthy]. by destruct (String.eqb msg ""). Qed.

Lemma ceil_step n : (0 < n)%nat → ((n + 129) / 130 = S ((n - 130 + 129) / 130))%nat.
Proof.
  intros Hn. destruct (le_lt_dec n 130) as [Hle | Hgt].
  - replace (n - 130)%nat with 0%nat by lia.
    rewrite (Nat.div_small (0 + 129) 130) by lia.
    symmetry. apply (Nat.div_unique (n + 129) 130 1 (n - 1)); lia.
  - replace (n + 129)%nat with ((n - 130 + 129) + 1 * 130)%nat by lia.
    rewrite Nat.div_add by lia. lia.
Qed.

(** With fuel for every byte, the loop cuts the message into its
    successive chunks of 130 bytes, the last one possibly shorter. *)
Lemma split_loop_spec fuel (msg : string) :
  (String.length msg ≤ fuel)%nat →
  join (Esme.split_loop fuel 130 msg) = msg
  ∧ length (Esme.split_loop fuel 130 msg) = ((String.length msg + 129) / 130)%nat
  ∧ (∀ i, (i < length (Esme.split_loop fuel 130 msg))%nat →
          Esme.split_loop fuel 130 msg !! i = Some (chunk msg i))
  ∧ Forall (λ c, (1 ≤ String.length c ≤ 130)%nat) (Esme.split_loop fuel 130 msg).
Proof.
  revert msg; induction fuel as [|fuel IH]; intros msg Hlen.
  - destruct msg; [|cbn in Hlen; lia]. cbn. repeat split; [intros; lia | constructor].
  - rewrite split_loop_unfold. destruct msg as [|c msg].
    { cbn. repeat split; [intros; lia | constructor]. }
    cbn [String.eqb].
    set (m := String c msg) in *.
    assert (Hm : (0 < String.length m)%nat) by (cbn; lia).
    destruct (IH (Py.drop 130 m)) as (Hj & Hl & Hi & Hf).
    { rewrite length_drop. lia. }
    split; [cbn [join foldr]; fold (join (Esme.split_loop fuel 130 (Py.drop 130 m)));
            by rewrite Hj, take_drop|].
    split; [cbn [length]; rewrite Hl, length_drop; by rewrite (ceil_step _ Hm)|].
    split.
    + intros [|i] Hlt; cbn [length] in Hlt.
      * reflexivity.
      * cbn [lookup list_lookup]. change ((?x :: ?l) !! S i) with (l !! i).
        rewrite Hi by lia. unfold chunk. rewrite drop_drop. do 3 f_equal. lia.
    + constructor; [|done]. rewrite length_take. lia.
Qed.

End Chunks.

Section Sar.
Context {W : Type} (h : ∀ c : Call, W → resp c * W).
Context (self : EsmeTransceiver) (pdu_params : gmap string Py.PyVal).
Context (uo : list (string * Py.PyVal)).
Hypothesis Hussd : ussd_options pdu_params = Py.Ok uo.

Lemma run_sar_loop (ref_num total : Z) (msgs : list string) :
  Forall (λ m, (String.length m ≤ 130)%nat) msgs →
  ∀ (i : nat) (acc : list Z) (w : W),
  ∃ seqs w' tr,
    run h (Esme.sar_loop self pdu_params ref_num total (Z.of_nat i) msgs acc) w
    = (Returned (acc ++ seqs), w', tr)
    ∧ closed tr = false
    ∧ length seqs = length msgs
    ∧ length (sent_pdus tr) = length msgs
    ∧ (∀ j m, msgs !! j = Some m →
         ∃ pdu, sent_pdus tr !! j = Some pdu
                ∧ seqs !! j = Some (sequence_number pdu)
                ∧ command_id pdu = "submit_sm"
                ∧ mandatory_parameters pdu !! "short_message" = Some (Py.VStr m)
                ∧ optional_parameters pdu
                  = uo ++ [("sar_msg_ref_num", Py.VInt ref_num);
                           ("sar_total_segments", Py.VInt total);
                           ("sar_segment_seqnum", Py.VInt (Z.of_nat (i + j) + 1))]
                ∧ (∀ k, k ∉ popped_keys → k ≠ "short_message" →
                        mandatory_parameters pdu !! k = pdu_params !! k)).
Proof.
  induction 1 as [|m msgs Hm Hmsgs IH]; intros i acc w.
  - exists [], w, []. rewrite app_nil_r. repeat split; try done.
  - cbn [Esme.sar_loop]. cbv zeta.
    set (params := <["sar_params" := _]> _).
    destruct (run_submit_sm h self params m uo
                [("sar_msg_ref_num", Py.VInt ref_num);
                 ("sar_total_segments", Py.VInt total);
                 ("sar_segment_seqnum", Py.VInt (Z.of_nat i + 1))] w)
      as (seq & w1 & tr1 & pdu & Hrun & Hsent & Hclosed & _ & Hcmd & Hseq & Hopt & Hkw).
    { subst params. by rewrite lookup_insert_ne, lookup_insert_eq. }
    { lia. }
    { subst params. unfold ussd_options in *. by rewrite !lookup_insert_ne. }
    { subst params. unfold sar_options. by rewrite lookup_insert_eq. }
    rewrite run_bind, Hrun.
    replace (Z.of_nat i + 1) with (Z.of_nat (S i)) by lia.
    destruct (IH (S i) (acc ++ [seq]) w1)
      as (seqs & w2 & tr2 & Hrun2 & Hclosed2 & Hlen & Hlenp & Hall).
    rewrite Hrun2. exists (seq :: seqs), w2, (tr1 ++ tr2).
    split; [by rewrite <- app_assoc|].
    split; [by rewrite closed_app, Hclosed, Hclosed2|].
    split; [cbn; by rewrite Hlen|].
    split; [rewrite sent_pdus_app, Hsent; cbn; by rewrite Hlenp|].
    rewrite sent_pdus_app, Hsent. intros [|j] m' Hj; cbn in Hj.
    + assert (m' = m) as -> by congruence. exists pdu.
      split; [done|]. split; [cbn; by rewrite Hseq|]. split; [done|].
      split.
      { rewrite Hkw by (unfold popped_keys; elem_solver).
        subst params. by rewrite lookup_insert_ne, lookup_insert_eq. }
      split.
      { by rewrite Hopt, Nat.add_0_r. }
      intros k Hk Hne. rewrite Hkw by done. subst params.
      rewrite !lookup_insert_ne; [done|done|].
      intros <-. apply Hk. unfold popped_keys. elem_solver.
    + destruct (Hall j m' Hj) as (pdu' & ? & ? & ? & ? & Ho & ?).
      exists pdu'. split; [done|]. split; [done|]. split; [done|].
      split; [done|]. split; [|done].
      rewrite Ho. by replace (S i + j)%nat with (i + S j)%nat by lia.
Qed.

End Sar.

Section Routing.
Context {W : Type} (h : ∀ c : Call, W → resp c * W).

(** A bound [submit_sm] of a byte string longer than 140 bytes goes to
    the SAR splitter when [send_multipart_sar] is set, else to the UDH
    splitter when [send_multipart_udh] is set. *)
Lemma submit_sm_multipart (self : EsmeTransceiver) (kwargs : gmap string Py.PyVal)
    (msg : string) (w : W) :
  state self = BOUND_TX ∨ state self = BOUND_TRX →
  (kwargs ∪ bind_params self) !! "short_message" = Some (Py.VStr msg) →
  (140 < String.length msg)%nat →
  (send_multipart_sar (config self) = true →
   run h (Esme.submit_sm self kwargs) w
   = let '(o, w', tr) :=
       run h (Esme._submit_multipart_sar self (kwargs ∪ bind_params self)) w in
     (listed o, w', tr))
  ∧ (send_multipart_sar (config self) = false →
     send_multipart_udh (config self) = true →
     run h (Esme.submit_sm self kwargs) w
     = let '(o, w', tr) :=
         run h (Esme._submit_multipart_udh self (kwargs ∪ bind_params self)) w in
       (listed o, w', tr)).
Proof.
  intros Hstate Hmsg Hlen. unfold Esme.submit_sm.
  rewrite bool_decide_eq_true_2 by (destruct Hstate as [-> | ->]; elem_solver).
  cbn [negb]. cbv zeta. unfold Py.dict_get. rewrite Hmsg. cbn [lift].
  change (Ret ?x ≫= ?f) with (f x). cbv beta.
  unfold Py.len. cbn [lift].
  change (Ret ?x ≫= ?f) with (f x). cbv beta.
  assert (Hn : (GSM_MAX_SMS_BYTES <? Z.of_nat (String.length msg)) = true).
  { apply Z.ltb_lt. unfold GSM_MAX_SMS_BYTES. lia. }
  rewrite Hn. cbn [andb]. split.
  - intros ->. rewrite run_bind.
    destruct (run h (Esme._submit_multipart_sar _ _) w) as [[[l|e] w'] tr]; [|done].
    cbn. by rewrite app_nil_r.
  - intros -> ->. rewrite run_bind.
    destruct (run h (Esme._submit_multipart_udh _ _) w) as [[[l|e] w'] tr]; [|done].
    cbn. by rewrite app_nil_r.
Qed.

End Routing.

Section SarTheorem.
Context {W : Type} (h : ∀ c : Call, W → resp c * W).

(** C3.  [_submit_multipart_sar] on a byte string of N bytes, with a
    random generator that keeps to its bounds and a USSD annotation that
    is defined: it writes ceil(N/130) [submit_sm] PDUs and nothing else
    to the transport; the i-th carries the i-th chunk of 130 bytes, so
    the short messages joined are the input; all carry the same
    [sar_msg_ref_num], drawn in [1, 255], [sar_total_segments] equal to
    the number of segments and [sar_segment_seqnum] equal to i, counting
    from 1; the call returns the sequence numbers of the segments, one
    each, in order.  This is what a bound [submit_sm] does for N > 140
    when [send_multipart_sar] is set. *)
Theorem submit_multipart_sar_segments (self : EsmeTransceiver)
    (pdu_params : gmap string Py.PyVal) (msg : string)
    (uo : list (string * Py.PyVal)) (w : W) :
  pdu_params !! "short_message" = Some (Py.VStr msg) →
  ussd_options pdu_params = Py.Ok uo →
  (∀ w0, 1 ≤ (h (randint 1 255) w0).1 ≤ 255) →
  let tr := trace h (Esme._submit_multipart_sar self pdu_params) w in
  let pdus := sent_pdus tr in
  ∃ ref_num sequence_numbers,
    outcome h (Esme._submit_multipart_sar self pdu_params) w
    = Returned sequence_numbers
    ∧ 1 ≤ ref_num ≤ 255
    ∧ (randint 1 255, RInt ref_num) ∈ tr
    ∧ closed tr = false
    ∧ length pdus = ((String.length msg + 129) / 130)%nat
    ∧ join (map short_message pdus) = msg
    ∧ sequence_numbers = map sequence_number pdus
    ∧ (∀ i pdu, pdus !! i = Some pdu →
         command_id pdu = "submit_sm"
         ∧ mandatory_parameters pdu !! "short_message" = Some (Py.VStr (chunk msg i))
         ∧ optional_parameters pdu
           = uo ++ [("sar_msg_ref_num", Py.VInt ref_num);
                    ("sar_total_segments", Py.VInt (Z.of_nat (length pdus)));
                    ("sar_segment_seqnum", Py.VInt (Z.of_nat i + 1))]
         ∧ (∀ k, k ∉ popped_keys → k ≠ "short_message" →
                 mandatory_parameters pdu !! k = pdu_params !! k))
    ∧ (∀ kwargs, pdu_params = kwargs ∪ bind_params self →
         state self = BOUND_TX ∨ state self = BOUND_TRX →
         send_multipart_sar (config self) = true →
         (140 < String.length msg)%nat →
         outcome h (Esme.submit_sm self kwargs) w = Returned (ret_list sequence_numbers)
         ∧ trace h (Esme.submit_sm self kwargs) w = tr).
Proof.
  intros Hmsg Hussd Hrand tr pdus.
  destruct (split_loop_spec (String.length msg) msg ltac:(done))
    as (Hjoin & Hcount & Hchunk & Hsize).
  set (msgs := Esme.split_loop (String.length msg) 130 msg) in *.
  assert (Hrun : ∃ ref_num seqs w' tr',
             1 ≤ ref_num ≤ 255
             ∧ run h (Esme._submit_multipart_sar self pdu_params) w
               = (Returned seqs, w', (randint 1 255, RInt ref_num) :: tr')
             ∧ run h (Esme.sar_loop self pdu_params ref_num (Z.of_nat (length msgs))
                        0 msgs []) (h (randint 1 255) w).2
               = (Returned seqs, w', tr')).
  { unfold Esme._submit_multipart_sar, Py.dict_get. rewrite Hmsg. cbn [lift].
    change (Ret ?x ≫= ?f) with (f x). cbv beta zeta.
    change (GSM_MAX_SMS_BYTES - 10) with 130. cbn [Esme.split_msg_of lift].
    change (Ret ?x ≫= ?f) with (f x). cbv beta. fold msgs.
    cbn [mbind Prog_bind bind call run].
    pose proof (Hrand w) as Hr.
    destruct (h (randint 1 255) w) as [ref_num w1]. cbn [fst snd] in *.
    destruct (run_sar_loop h self pdu_params uo Hussd ref_num
                (Z.of_nat (length msgs)) msgs) with (i := 0%nat) (acc := @nil Z) (w := w1)
      as (seqs & w' & tr' & Hloop & _).
    { eapply Forall_impl; [exact Hsize|]. cbn. intros; lia. }
    change (bind (Ret ref_num) ?f) with (f ref_num). cbv beta.
    cbn [app] in Hloop. change (Z.of_nat 0) with 0 in Hloop. rewrite Hloop.
    by exists ref_num, seqs, w', tr'. }
  destruct Hrun as (ref_num & seqs & w' & tr' & Href & Hrun & Hloop).
  destruct (run_sar_loop h self pdu_params uo Hussd ref_num
              (Z.of_nat (length msgs)) msgs) with
    (i := 0%nat) (acc := @nil Z) (w := (h (randint 1 255) w).2)
    as (seqs0 & w0 & tr0 & Hloop0 & Hclosed & Hlen & Hlenp & Hall).
  { eapply Forall_impl; [exact Hsize|]. cbn. intros; lia. }
  change (Z.of_nat 0) with 0 in Hloop0. rewrite Hloop in Hloop0.
  cbn [app] in Hloop0. symmetry in Hloop0. simplify_eq.
  assert (Htr : tr = (randint 1 255, RInt ref_num) :: tr')
    by (subst tr; unfold trace; by rewrite Hrun).
  assert (Hpdus : pdus = sent_pdus tr') by (subst pdus; by rewrite Htr).
  assert (Hshort : map short_message pdus = msgs).
  { rewrite Hpdus. apply list_eq. intros j. rewrite list_lookup_fmap.
    destruct (msgs !! j) as [m|] eqn:Hj.
    - destruct (Hall j m Hj) as (pdu & -> & _ & _ & Hsm & _). cbn.
      unfold short_message. by rewrite Hsm.
    - apply lookup_ge_None in Hj. rewrite lookup_ge_None_2 by lia. done. }
  exists ref_num, seqs.
  split; [unfold outcome; by rewrite Hrun|]. split; [done|].
  split; [rewrite Htr; apply list_elem_of_here|].
  split; [rewrite Htr; exact Hclosed|].
  split; [rewrite Hpdus, Hlenp; exact Hcount|].
  split; [by rewrite Hshort|].
  split.
  { rewrite Hpdus. apply list_eq. intros j. rewrite list_lookup_fmap.
    destruct (msgs !! j) as [m|] eqn:Hj.
    - destruct (Hall j m Hj) as (pdu & -> & -> & _). done.
    - apply lookup_ge_None in Hj.
      rewrite !lookup_ge_None_2 by lia. done. }
  split.
  { intros i pdu Hi. rewrite Hpdus in Hi.
    assert (Hlt : (i < length msgs)%nat).
    { apply lookup_lt_Some in Hi. lia. }
    pose proof (Hchunk i Hlt) as Hci.
    destruct (Hall i _ Hci) as (pdu' & Hp & _ & Hcmd & Hsm & Hopt & Hkw).
    assert (pdu' = pdu) as -> by congruence.
    rewrite Hpdus, Hlenp. repeat split; try done. }
  intros kwargs -> Hstate Hsar Hlong.
  destruct (submit_sm_multipart h self kwargs msg w Hstate Hmsg Hlong) as [Hroute _].
  specialize (Hroute Hsar). unfold outcome, trace. rewrite Hroute, Hrun.
  split; [done|]. subst tr. unfold trace. by rewrite Hrun.
Qed.

End SarTheorem.

Section Header.

Lemma ord_chr x : 0 ≤ x < 256 → Py.ord (ascii_of_N (Z.to_N x)) = x.
Proof.
  intros Hx. unfold Py.ord. rewrite N_ascii_embedding; lia.
Qed.

Lemma udh_header_ok ref_num total i :
  0 ≤ ref_num < 256 → 0 ≤ total < 256 → 0 ≤ i + 1 < 256 →
  Esme.udh_header ref_num total i = Py.Ok (udh ref_num total (i + 1)).
Proof.
  intros Hr Ht Hi. unfold Esme.udh_header, Py.chr.
  repeat match goal with
         | |- context [(0 <=? ?x) && (?x <? 256)] =>
             replace ((0 <=? x) && (x <? 256)) with true
               by (symmetry; apply andb_true_intro; split;
                   [apply Z.leb_le | apply Z.ltb_lt]; lia)
         end.
  reflexivity.
Qed.

Lemma bytes_of_udh ref_num total seqnum :
  0 ≤ ref_num < 256 → 0 ≤ total < 256 → 0 ≤ seqnum < 256 →
  bytes_of (udh ref_num total seqnum) = [5; 0; 3; ref_num; total; seqnum].
Proof. intros. unfold udh. cbn [bytes_of]. by rewrite !ord_chr. Qed.

Lemma length_app_string s t :
  String.length (s +:+ t) = (String.length s + String.length t)%nat.
Proof. induction s as [|c s IH]; [done|]. rewrite app_cons. cbn. by rewrite IH. Qed.

End Header.

Section Udh.
Context {W : Type} (h : ∀ c : Call, W → resp c * W).
Context (self : EsmeTransceiver) (pdu_params : gmap string Py.PyVal).
Context (uo so : list (string * Py.PyVal)).
Hypothesis Hussd : ussd_options pdu_params = Py.Ok uo.
Hypothesis Hsar : sar_options pdu_params = Py.Ok so.

Lemma run_udh_loop (ref_num total : Z) (msgs : list string) :
  0 ≤ ref_num < 256 → 0 ≤ total < 256 →
  Forall (λ m, (String.length m ≤ 130)%nat) msgs →
  ∀ (i : nat) (acc : list Z) (w : W),
  (i + length msgs ≤ 255)%nat →
  ∃ seqs w' tr,
    run h (Esme.udh_loop self pdu_params ref_num total (Z.of_nat i) msgs acc) w
    = (Returned (acc ++ seqs), w', tr)
    ∧ closed tr = false
    ∧ length seqs = length msgs
    ∧ length (sent_pdus tr) = length msgs
    ∧ (∀ j m, msgs !! j = Some m →
         ∃ pdu, sent_pdus tr !! j = Some pdu
                ∧ seqs !! j = Some (sequence_number pdu)
                ∧ command_id pdu = "submit_sm"
                ∧ mandatory_parameters pdu !! "esm_class" = Some (Py.VInt 0x40)
                ∧ mandatory_parameters pdu !! "short_message"
                  = Some (Py.VStr (udh ref_num total (Z.of_nat (i + j) + 1) +:+ m))
                ∧ optional_parameters pdu = uo ++ so
                ∧ (∀ k, k ∉ popped_keys → k ≠ "short_message" → k ≠ "esm_class" →
                        mandatory_parameters pdu !! k = pdu_params !! k)).
Proof.
  intros Href Htotal. induction 1 as [|m msgs Hm Hmsgs IH]; intros i acc w Hi.
  - exists [], w, []. rewrite app_nil_r. repeat split; try done.
  - cbn [length] in Hi. cbn [Esme.udh_loop]. cbv zeta.
    rewrite udh_header_ok by lia. cbn [lift].
    change (Ret ?x ≫= ?f) with (f x). cbv beta.
    set (params := <["short_message" := _]> _).
    destruct (run_submit_sm h self params
                (udh ref_num total (Z.of_nat i + 1) +:+ m) uo so w)
      as (seq & w1 & tr1 & pdu & Hrun & Hsent & Hclosed & _ & Hcmd & Hseq & Hopt & Hkw).
    { subst params. by rewrite lookup_insert_eq. }
    { rewrite length_app_string. cbn [udh String.length]. lia. }
    { subst params. unfold ussd_options in *. by rewrite !lookup_insert_ne. }
    { subst params. unfold sar_options in *. by rewrite !lookup_insert_ne. }
    rewrite run_bind, Hrun.
    replace (Z.of_nat i + 1) with (Z.of_nat (S i)) in * by lia.
    destruct (IH (S i) (acc ++ [seq]) w1 ltac:(lia))
      as (seqs & w2 & tr2 & Hrun2 & Hclosed2 & Hlen & Hlenp & Hall).
    rewrite Hrun2. exists (seq :: seqs), w2, (tr1 ++ tr2).
    split; [by rewrite <- app_assoc|].
    split; [by rewrite closed_app, Hclosed, Hclosed2|].
    split; [cbn; by rewrite Hlen|].
    split; [rewrite sent_pdus_app, Hsent; cbn; by rewrite Hlenp|].
    rewrite sent_pdus_app, Hsent. intros [|j] m' Hj; cbn in Hj.
    + assert (m' = m) as -> by congruence. exists pdu.
      split; [done|]. split; [cbn; by rewrite Hseq|]. split; [done|].
      split.
      { rewrite Hkw by (unfold popped_keys; elem_solver).
        subst params. by rewrite lookup_insert_ne, lookup_insert_eq. }
      split.
      { rewrite Hkw by (unfold popped_keys; elem_solver).
        subst params. rewrite lookup_insert_eq, Nat.add_0_r.
        by replace (Z.of_nat i + 1) with (Z.of_nat (S i)) by lia. }
      split; [done|].
      intros k Hk Hne Hne'. rewrite Hkw by done. subst params.
      by rewrite !lookup_insert_ne.
    + destruct (Hall j m' Hj) as (pdu' & ? & ? & ? & ? & Hsm & ? & ?).
      exists pdu'. split; [done|]. split; [done|]. split; [done|].
      split; [done|]. split; [|done].
      rewrite Hsm. by replace (S i + j)%nat with (i + S j)%nat by lia.
Qed.

End Udh.

Section UdhTheorem.
Context {W : Type} (h : ∀ c : Call, W → resp c * W).

(** C8 (amended).  [_submit_multipart_udh] on a byte string of at most
    33150 bytes (at most 255 segments), with a random generator that keeps
    to its bounds and USSD and SAR keywords that are defined: it writes
    ceil(N/130) [submit_sm] PDUs and nothing else to the transport; every
    one has [esm_class] 0x40 and a [short_message] made of the six bytes
    05 00 03 ref N i followed by the i-th chunk of 130 bytes of the input,
    where ref is one number drawn in [1, 255] for all segments, N is the
    number of segments and i counts from 1; the call returns the sequence
    numbers of the segments in order.  This is what a bound [submit_sm]
    does for more than 140 bytes when [send_multipart_udh] is set and
    [send_multipart_sar] is not. *)
Theorem submit_multipart_udh_segments (self : EsmeTransceiver)
    (pdu_params : gmap string Py.PyVal) (msg : string)
    (uo so : list (string * Py.PyVal)) (w : W) :
  pdu_params !! "short_message" = Some (Py.VStr msg) →
  Z.of_nat (String.length msg) ≤ 33150 →
  ussd_options pdu_params = Py.Ok uo →
  sar_options pdu_params = Py.Ok so →
  (∀ w0, 1 ≤ (h (randint 1 255) w0).1 ≤ 255) →
  let tr := trace h (Esme._submit_multipart_udh self pdu_params) w in
  let pdus := sent_pdus tr in
  let total := Z.of_nat (length pdus) in
  ∃ ref_num sequence_numbers,
    outcome h (Esme._submit_multipart_udh self pdu_params) w
    = Returned sequence_numbers
    ∧ 1 ≤ ref_num ≤ 255
    ∧ (randint 1 255, RInt ref_num) ∈ tr
    ∧ closed tr = false
    ∧ length pdus = ((String.length msg + 129) / 130)%nat
    ∧ sequence_numbers = map sequence_number pdus
    ∧ (∀ i pdu, pdus !! i = Some pdu →
         command_id pdu = "submit_sm"
         ∧ mandatory_parameters pdu !! "esm_class" = Some (Py.VInt 0x40)
         ∧ mandatory_parameters pdu !! "short_message"
           = Some (Py.VStr (udh ref_num total (Z.of_nat i + 1) +:+ chunk msg i))
         ∧ bytes_of (udh ref_num total (Z.of_nat i + 1))
           = [5; 0; 3; ref_num; total; Z.of_nat i + 1]
         ∧ optional_parameters pdu = uo ++ so
         ∧ (∀ k, k ∉ popped_keys → k ≠ "short_message" → k ≠ "esm_class" →
                 mandatory_parameters pdu !! k = pdu_params !! k))
    ∧ (∀ kwargs, pdu_params = kwargs ∪ bind_params self →
         state self = BOUND_TX ∨ state self = BOUND_TRX →
         send_multipart_sar (config self) = false →
         send_multipart_udh (config self) = true →
         (140 < String.length msg)%nat →
         outcome h (Esme.submit_sm self kwargs) w = Returned (ret_list sequence_numbers)
         ∧ trace h (Esme.submit_sm self kwargs) w = tr).
Proof.
  intros Hmsg Hbound Hussd Hsar Hrand tr pdus total.
  destruct (split_loop_spec (String.length msg) msg ltac:(done))
    as (Hjoin & Hcount & Hchunk & Hsize).
  set (msgs := Esme.split_loop (String.length msg) 130 msg) in *.
  assert (Hfew : (length msgs ≤ 255)%nat).
  { rewrite Hcount. apply Nat.lt_succ_r, Nat.Div0.div_lt_upper_bound; lia. }
  assert (Hshort : Forall (λ m, (String.length m ≤ 130)%nat) msgs).
  { eapply Forall_impl; [exact Hsize|]. cbn. intros; lia. }
  pose proof (Hrand w) as Href.
  destruct (run_udh_loop h self pdu_params uo so Hussd Hsar (h (randint 1 255) w).1
              (Z.of_nat (length msgs)) msgs ltac:(lia) ltac:(lia) Hshort
              0%nat [] (h (randint 1 255) w).2 ltac:(lia))
    as (seqs & w' & tr' & Hloop & Hclosed & Hlen & Hlenp & Hall).
  change (Z.of_nat 0) with 0 in Hloop. cbn [app] in Hloop.
  assert (Hrun : run h (Esme._submit_multipart_udh self pdu_params) w
                 = (Returned seqs, w',
                    (randint 1 255, RInt (h (randint 1 255) w).1) :: tr')).
  { unfold Esme._submit_multipart_udh, Py.dict_get. rewrite Hmsg. cbn [lift].
    change (Ret ?x ≫= ?f) with (f x). cbv beta zeta.
    change (GSM_MAX_SMS_BYTES - 10) with 130. cbn [Esme.split_msg_of lift].
    change (Ret ?x ≫= ?f) with (f x). cbv beta. fold msgs.
    cbn [mbind Prog_bind bind call run].
    destruct (h (randint 1 255) w) as [ref_num w1]. cbn [fst snd] in *.
    change (bind (Ret ref_num) ?f) with (f ref_num). cbv beta.
    by rewrite Hloop. }
  set (ref_num := (h (randint 1 255) w).1) in *.
  assert (Htr : tr = (randint 1 255, RInt ref_num) :: tr')
    by (subst tr; unfold trace; by rewrite Hrun).
  assert (Hpdus : pdus = sent_pdus tr') by (subst pdus; by rewrite Htr).
  assert (Htotal : total = Z.of_nat (length msgs))
    by (subst total; by rewrite Hpdus, Hlenp).
  exists ref_num, seqs.
  split; [unfold outcome; by rewrite Hrun|]. split; [done|].
  split; [rewrite Htr; apply list_elem_of_here|].
  split; [rewrite Htr; exact Hclosed|].
  split; [rewrite Hpdus, Hlenp; exact Hcount|].
  split.
  { rewrite Hpdus. apply list_eq. intros j. rewrite list_lookup_fmap.
    destruct (msgs !! j) as [m|] eqn:Hj.
    - destruct (Hall j m Hj) as (pdu & -> & -> & _). done.
    - apply lookup_ge_None in Hj.
      rewrite !lookup_ge_None_2 by lia. done. }
  split.
  { intros i pdu Hi. rewrite Hpdus in Hi.
    assert (Hlt : (i < length msgs)%nat).
    { apply lookup_lt_Some in Hi. lia. }
    pose proof (Hchunk i Hlt) as Hci.
    destruct (Hall i _ Hci) as (pdu' & Hp & _ & Hcmd & Hesm & Hsm & Hopt & Hkw).
    assert (pdu' = pdu) as -> by congruence.
    rewrite Htotal. cbn [Nat.add] in Hsm.
    split; [done|]. split; [done|]. split; [done|].
    split; [apply bytes_of_udh; lia|]. split; done. }
  intros kwargs -> Hstate Hnosar Hudh Hlong.
  destruct (submit_sm_multipart h self kwargs msg w Hstate Hmsg Hlong) as [_ Hroute].
  specialize (Hroute Hnosar Hudh). unfold outcome, trace. rewrite Hroute, Hrun.
  split; [done|]. subst tr. unfold trace. by rewrite Hrun.
Qed.

End UdhTheorem.

Lemma randint_world_h (w : World) : 1 ≤ (world_h (randint 1 255) w).1 ≤ 255.
Proof.
  change ((world_h (randint 1 255) w).1) with (1 + entropy w (draws w) mod 255).
  pose proof (Z.mod_pos_bound (entropy w (draws w)) 255 ltac:(lia)). lia.
Qed.

Lemma submit_multipart_sar_segments_witness :
  length (sent_pdus
            (trace world_h
               (Esme._submit_multipart_sar
                  (mkEsme (mkConfig true false false) ∅ BOUND_TRX "")
                  {["short_message" := Py.VStr (bytes 300 "a")]})
               (plain_world empty_store)))
  = 3%nat.
Proof.
  destruct (submit_multipart_sar_segments world_h
              (mkEsme (mkConfig true false false) ∅ BOUND_TRX "")
              {["short_message" := Py.VStr (bytes 300 "a")]}
              (bytes 300 "a") [] (plain_world empty_store))
    as (ref_num & seqs & _ & _ & _ & _ & Hlen & _).
  - reflexivity.
  - reflexivity.
  - exact randint_world_h.
  - rewrite Hlen. reflexivity.
Defined.

Lemma submit_multipart_udh_segments_witness :
  length (sent_pdus
            (trace world_h
               (Esme._submit_multipart_udh
                  (mkEsme (mkConfig false true false) ∅ BOUND_TRX "")
                  {["short_message" := Py.VStr (bytes 260 "a")]})
               (plain_world empty_store)))
  = 2%nat.
Proof.
  destruct (submit_multipart_udh_segments world_h
              (mkEsme (mkConfig false true false) ∅ BOUND_TRX "")
              {["short_message" := Py.VStr (bytes 260 "a")]}
              (bytes 260 "a") [] [] (plain_world empty_store))
    as (ref_num & seqs & _ & _ & _ & _ & Hlen & _).
  - reflexivity.
  - vm_compute. discriminate.
  - reflexivity.
  - reflexivity.
  - exact randint_world_h.
  - rewrite Hlen. reflexivity.
Defined.

Section Overlong.
Context {W : Type} (h : ∀ c : Call, W → resp c * W).

(** Beyond 255 segments the first header cannot be built. *)
Lemma run_submit_multipart_udh_overlong (self : EsmeTransceiver)
    (pdu_params : gmap string Py.PyVal) (msg : string) (w : W) :
  pdu_params !! "short_message" = Some (Py.VStr msg) →
  33150 < Z.of_nat (String.length msg) →
  (∀ w0, 1 ≤ (h (randint 1 255) w0).1 ≤ 255) →
  outcome h (Esme._submit_multipart_udh self pdu_params) w = Raised Py.ValueError
  ∧ sent_pdus (trace h (Esme._submit_multipart_udh self pdu_params) w) = [].
Proof.
  intros Hmsg Hlong Hrand.
  destruct (split_loop_spec (String.length msg) msg ltac:(done))
    as (_ & Hcount & _ & _).
  set (msgs := Esme.split_loop (String.length msg) 130 msg) in *.
  assert (Hmany : (256 ≤ length msgs)%nat).
  { rewrite Hcount. apply Nat.div_le_lower_bound; lia. }
  unfold outcome, trace, Esme._submit_multipart_udh, Py.dict_get. rewrite Hmsg.
  cbn [lift]. change (Ret ?x ≫= ?f) with (f x). cbv beta zeta.
  change (GSM_MAX_SMS_BYTES - 10) with 130. cbn [Esme.split_msg_of lift].
  change (Ret ?x ≫= ?f) with (f x). cbv beta. fold msgs.
  cbn [mbind Prog_bind bind call run].
  pose proof (Hrand w) as Href.
  destruct (h (randint 1 255) w) as [ref_num w1]. cbn [fst snd] in *.
  change (bind (Ret ref_num) ?f) with (f ref_num). cbv beta.
  destruct msgs as [|m msgs']; [cbn in Hmany; lia|].
  cbn [Esme.udh_loop]. cbv zeta.
  assert (Hhdr : Esme.udh_header ref_num (Z.of_nat (length (m :: msgs'))) 0
                 = Py.Err Py.ValueError).
  { unfold Esme.udh_header, Py.chr.
    replace ((0 <=? ref_num) && (ref_num <? 256)) with true
      by (symmetry; apply andb_true_intro; split;
          [apply Z.leb_le | apply Z.ltb_lt]; lia).
    cbn [Py.rbind].
    replace (Z.of_nat (length (m :: msgs')) <? 256) with false
      by (symmetry; apply Z.ltb_ge; lia).
    by rewrite andb_false_r. }
  rewrite Hhdr. done.
Qed.

End Overlong.

Lemma length_bytes n c : String.length (bytes n c) = n.
Proof. induction n as [|n IH]; [done|]. cbn. by rewrite IH. Qed.

(** C8, as first stated, fails: a message of 33151 bytes makes 256 chunks,
    [chr(256)] raises ValueError while the first header is built, and no
    segment is sent. *)
Lemma submit_multipart_udh_too_long :
  let self := mkEsme (mkConfig false true false) ∅ BOUND_TRX "" in
  let kwargs : gmap string Py.PyVal :=
    {["short_message" := Py.VStr (bytes (Z.to_nat 33151) "a")]} in
  outcome world_h (Esme.submit_sm self kwargs) (plain_world empty_store)
  = Raised Py.ValueError
  ∧ sent_pdus (trace world_h (Esme.submit_sm self kwargs) (plain_world empty_store)) = [].
Proof.
  intros self kwargs.
  assert (Hmsg : (kwargs ∪ bind_params self) !! "short_message"
                 = Some (Py.VStr (bytes (Z.to_nat 33151) "a"))).
  { subst self kwargs. cbn [bind_params].
    rewrite (right_id_L ∅ (∪)). apply lookup_singleton_eq. }
  assert (Hlen : 33150 < Z.of_nat (String.length (bytes (Z.to_nat 33151) "a")))
    by (rewrite length_bytes; lia).
  assert (Hlen' : (140 < String.length (bytes (Z.to_nat 33151) "a"))%nat)
    by (rewrite length_bytes; lia).
  pose proof (submit_sm_multipart world_h self kwargs _ (plain_world empty_store)
              (or_intror eq_refl) Hmsg Hlen') as [_ Hroute].
  specialize (Hroute eq_refl eq_refl).
  pose proof (run_submit_multipart_udh_overlong world_h self _ _ (plain_world empty_store)
              Hmsg Hlen randint_world_h) as [Ho Hs].
  unfold outcome, trace in *.
  rewrite Hroute.
  destruct (run world_h (Esme._submit_multipart_udh _ _) _) as [[o w'] tr].
  cbn [fst snd] in *. subst o. split; [reflexivity | exact Hs].
Qed.

Section Framing.

Lemma app_assoc_string (s t u : string) : (s +:+ t) +:+ u = s +:+ (t +:+ u).
Proof. induction s as [|c s IH]; [done|]. rewrite !app_cons. by rewrite IH. Qed.

Lemma app_nil_r_string (s : string) : s +:+ "" = s.
Proof. induction s as [|c s IH]; [done|]. rewrite app_cons. by rewrite IH. Qed.

Lemma take_app_le n (s t : string) :
  (n ≤ String.length s)%nat → Py.take n (s +:+ t) = Py.take n s.
Proof.
  revert s. induction n as [|n IH]; intros s Hn.
  - by destruct s, t.
  - destruct s as [|c s]; [cbn in Hn; lia|]. rewrite app_cons. cbn.
    rewrite IH; [done | cbn in Hn; lia].
Qed.

Lemma drop_app_le n (s t : string) :
  (n ≤ String.length s)%nat → Py.drop n (s +:+ t) = Py.drop n s +:+ t.
Proof.
  revert s. induction n as [|n IH]; intros s Hn.
  - by destruct s, t.
  - destruct s as [|c s]; [cbn in Hn; lia|]. rewrite app_cons. cbn.
    rewrite IH; [done | cbn in Hn; lia].
Qed.

Lemma take_all n (s : string) : (String.length s ≤ n)%nat → Py.take n s = s.
Proof.
  revert s. induction n as [|n IH]; intros s Hn.
  - destruct s; [done | cbn in Hn; lia].
  - destruct s as [|c s]; [done|]. cbn. rewrite IH; [done | cbn in Hn; lia].
Qed.

Lemma drop_all n (s : string) : (String.length s ≤ n)%nat → Py.drop n s = "".
Proof.
  revert s. induction n as [|n IH]; intros s Hn.
  - destruct s; [done | cbn in Hn; lia].
  - destruct s as [|c s]; [done|]. cbn. rewrite IH; [done | cbn in Hn; lia].
Qed.

Lemma command_length_nonneg ds : 0 ≤ command_length ds.
Proof. by apply big_endian_nonneg. Qed.

Lemma command_length_app (s t : string) :
  (4 ≤ String.length s)%nat → command_length (s +:+ t) = command_length s.
Proof. intros. unfold command_length. by rewrite take_app_le. Qed.

(** [pop_data] in one equation. *)
Lemma pop_data_eq (self : EsmeTransceiver) :
  Esme.pop_data self
  = if has_frame (datastream self)
    then Py.Ok (Some (Py.take (Z.to_nat (command_length (datastream self)))
                              (datastream self)),
                with_buffer self
                  (Py.drop (Z.to_nat (command_length (datastream self)))
                           (datastream self)))
    else Py.Ok (None, self).
Proof.
  destruct self as [cfg bp st ds]. unfold Esme.pop_data, has_frame, with_buffer.
  cbn [datastream config bind_params state]. cbv zeta.
  change (Py.slice_to ds 4) with (Py.take 4 ds).
  pose proof (command_length_nonneg ds) as Hpos.
  destruct (Z.leb_spec 16 (Z.of_nat (String.length ds))) as [Hlong|Hshort]; [|done].
  cbn [andb].
  assert (Hcl : Py.int16 (Py.b2a_hex (Py.take 4 ds)) = Py.Ok (command_length ds)).
  { destruct ds as [|c ds]; [cbn in Hlong; lia|]. by apply int16_b2a_hex. }
  rewrite Hcl. cbn [Py.rbind].
  destruct (command_length ds <=? Z.of_nat (String.length ds)); [|done].
  unfold Py.slice_to, Py.slice_from.
  destruct (Z.ltb_spec (command_length ds) 0) as [Hneg|_]; [lia | done].
Qed.

Lemma pop_loop_more fuel : ∀ self queue r,
  pop_loop fuel self queue = Some r → ∀ extra, pop_loop (fuel + extra) self queue = Some r.
Proof.
  induction fuel as [|fuel IH]; intros self queue r H extra; [done|].
  cbn [pop_loop Nat.add] in *.
  destruct (Esme.pop_data self) as [[[data|] self']|e]; [|done..].
  by apply IH.
Qed.

Lemma drop_0 (s : string) : Py.drop 0 s = s.
Proof. by destruct s. Qed.

Lemma take_0 (s : string) : Py.take 0 s = "".
Proof. by destruct s. Qed.

Lemma with_buffer_same (self : EsmeTransceiver) :
  with_buffer self (datastream self) = self.
Proof. by destruct self. Qed.

(** A buffer that announces a length of zero gives the empty frame and
    stays as it is, so the loop goes round for ever. *)
Lemma pop_loop_stuck (self : EsmeTransceiver) :
  has_frame (datastream self) = true → command_length (datastream self) = 0 →
  ∀ fuel queue, pop_loop fuel self queue = None.
Proof.
  intros Hf Hcl. induction fuel as [|fuel IH]; intros queue; [done|].
  cbn [pop_loop]. rewrite pop_data_eq, Hf, Hcl. cbn [Z.to_nat].
  rewrite drop_0, with_buffer_same. apply IH.
Qed.

(** The loop never raises, and what it has put on the queue when it ends
    is what was there, then non-empty frames that, with the buffer left,
    make up the buffer it started from. *)
Lemma pop_loop_spec fuel : ∀ self queue r,
  pop_loop fuel self queue = Some r →
  ∃ frames rest,
    r = Py.Ok (queue ++ frames, with_buffer self rest)
    ∧ join frames +:+ rest = datastream self
    ∧ has_frame rest = false
    ∧ Forall (λ f, f ≠ "") frames.
Proof.
  induction fuel as [|fuel IH]; intros self queue r H; [done|].
  pose proof H as Hrun.
  cbn [pop_loop] in H. rewrite pop_data_eq in H.
  destruct (has_frame (datastream self)) eqn:Hf.
  - apply IH in H as (frames & rest & -> & Hjoin & Hrest & Hne).
    cbn [datastream with_buffer config bind_params state] in Hjoin |- *.
    set (n := Z.to_nat (command_length (datastream self))) in *.
    destruct (decide (n = 0%nat)) as [Hzero|Hpos].
    + exfalso. pose proof (command_length_nonneg (datastream self)).
      rewrite pop_loop_stuck in Hrun; [done..|]. subst n. lia.
    + exists (Py.take n (datastream self) :: frames), rest. split.
      { by rewrite <- app_assoc. }
      split.
      { cbn [join foldr]. fold (join frames). rewrite app_assoc_string, Hjoin.
        apply take_drop. }
      split; [done|]. constructor; [|done].
      intros Hempty. pose proof (length_take n (datastream self)) as Hl.
      rewrite Hempty in Hl. cbn in Hl.
      unfold has_frame in Hf. apply andb_true_iff in Hf as [H16 _].
      apply Z.leb_le in H16. lia.
  - injection H as <-. exists [], (datastream self).
    rewrite app_nil_r, with_buffer_same. split; [done|]. cbn. by rewrite app_nil.
Qed.

Lemma pop_loop_extend fuel : ∀ self queue queue1 self1,
  pop_loop fuel self queue = Some (Py.Ok (queue1, self1)) →
  ∀ more fuel2 r,
    pop_loop fuel2 (with_buffer self1 (datastream self1 +:+ more)) queue1 = Some r →
    pop_loop (fuel + fuel2) (with_buffer self (datastream self +:+ more)) queue = Some r.
Proof.
  induction fuel as [|fuel IH]; intros self queue queue1 self1 H more fuel2 r H2; [done|].
  cbn [pop_loop] in H. rewrite pop_data_eq in H.
  destruct (has_frame (datastream self)) eqn:Hf.
  - pose proof Hf as Hf'. unfold has_frame in Hf'.
    apply andb_true_iff in Hf' as [H16 Hcl].
    apply Z.leb_le in H16. apply Z.leb_le in Hcl.
    pose proof (command_length_nonneg (datastream self)) as Hpos.
    assert (Hcl' : command_length (datastream self +:+ more)
                   = command_length (datastream self))
      by (apply command_length_app; lia).
    cbn [Nat.add pop_loop]. rewrite pop_data_eq.
    cbn [datastream with_buffer config bind_params state].
    assert (Hf2 : has_frame (datastream self +:+ more) = true).
    { unfold has_frame. rewrite Hcl', length_app_string.
      apply andb_true_iff. split; apply Z.leb_le; lia. }
    rewrite Hf2, Hcl', take_app_le, drop_app_le by lia.
    by apply (IH _ _ _ _ H).
  - injection H as <- <-. rewrite Nat.add_comm. by apply pop_loop_more.
Qed.

Lemma join_app (l1 l2 : list string) : join (l1 ++ l2) = join l1 +:+ join l2.
Proof.
  induction l1 as [|s l1 IH]; [by rewrite app_nil|].
  cbn [app join foldr]. fold (join (l1 ++ l2)) (join l1).
  by rewrite IH, app_assoc_string.
Qed.

Lemma pop_loop_whole (self : EsmeTransceiver) (tail : string) (frames : list string) :
  Forall (λ f, whole_frame f = true) frames →
  has_frame tail = false →
  ∀ fuel queue, (length frames < fuel)%nat →
    pop_loop fuel (with_buffer self (join frames +:+ tail)) queue
    = Some (Py.Ok (queue ++ frames, with_buffer self tail)).
Proof.
  intros Hall Htail. induction Hall as [|f frames Hf Hall IH]; intros fuel queue Hfuel.
  - destruct fuel as [|fuel]; [cbn in Hfuel; lia|]. cbn [pop_loop join foldr].
    rewrite app_nil, pop_data_eq. cbn [datastream with_buffer]. rewrite Htail.
    by rewrite app_nil_r.
  - destruct fuel as [|fuel]; [cbn in Hfuel; lia|]. cbn [length] in Hfuel.
    cbn [pop_loop join foldr]. fold (join frames).
    rewrite app_assoc_string, pop_data_eq.
    cbn [datastream with_buffer config bind_params state].
    unfold whole_frame in Hf. apply andb_true_iff in Hf as [H16 Hcl].
    apply Z.leb_le in H16. apply Z.eqb_eq in Hcl.
    assert (Hcl' : command_length (f +:+ (join frames +:+ tail)) = Z.of_nat (String.length f))
      by (rewrite command_length_app; [done | lia]).
    assert (Hhas : has_frame (f +:+ (join frames +:+ tail)) = true).
    { unfold has_frame. rewrite Hcl', length_app_string.
      apply andb_true_iff. split; apply Z.leb_le; lia. }
    rewrite Hhas, Hcl', Nat2Z.id, take_app_le, drop_app_le, take_all, drop_all by lia.
    rewrite app_nil. fold (with_buffer self (join frames +:+ tail)).
    rewrite IH by lia. by rewrite <- app_assoc.
Qed.

End Framing.

(** What [dataReceived] does with the bytes it is given.  It never raises.
    When it returns, the frames it has put on the PDU queue, in that order,
    followed by the buffer it keeps, are the old buffer followed by the new
    data: no byte is lost, repeated or moved.  No frame is empty, the rest
    of the session is as it was, and the buffer kept holds no further frame
    ([pop_data] has nothing to give). *)
Theorem dataReceived_frames (fuel : nat) (self : EsmeTransceiver) (data : string)
    (r : Py.Result (list string * EsmeTransceiver)) :
  dataReceived fuel self data = Some r →
  ∃ frames rest,
    r = Py.Ok (frames, with_buffer self rest)
    ∧ join frames +:+ rest = datastream self +:+ data
    ∧ Forall (λ f, f ≠ "") frames
    ∧ Esme.pop_data (with_buffer self rest) = Py.Ok (None, with_buffer self rest).
Proof.
  unfold dataReceived. cbv zeta. intros H.
  apply pop_loop_spec in H as (frames & rest & -> & Hjoin & Hrest & Hne).
  exists frames, rest. cbn [app datastream with_buffer config bind_params state] in *.
  split; [done|]. split; [done|]. split; [done|].
  rewrite pop_data_eq. cbn [datastream with_buffer]. by rewrite Hrest.
Qed.

Lemma dataReceived_frames_witness :
  ∃ frames rest,
    Py.Ok ([sixteen_bytes], with_buffer fresh_session "xy")
    = Py.Ok (frames, with_buffer fresh_session rest)
    ∧ join frames +:+ rest = datastream fresh_session +:+ (sixteen_bytes +:+ "xy")
    ∧ Forall (λ f, f ≠ "") frames
    ∧ Esme.pop_data (with_buffer fresh_session rest)
      = Py.Ok (None, with_buffer fresh_session rest).
Proof.
  exact (dataReceived_frames 3 fresh_session (sixteen_bytes +:+ "xy")
           (Py.Ok ([sixteen_bytes], with_buffer fresh_session "xy")) eq_refl).
Defined.

(** Framing undoes concatenation.  When the buffer together with the new
    data is a run of whole PDUs (each at least sixteen bytes long and
    announcing its own length in its first four bytes) followed by a tail
    that holds no frame, [dataReceived] ends after one [pop_data] per PDU
    and one more, puts exactly those PDUs on the queue, in order, and keeps
    exactly the tail. *)
Theorem dataReceived_whole_frames (self : EsmeTransceiver) (data : string)
    (frames : list string) (tail : string) (fuel : nat) :
  Forall (λ f, whole_frame f = true) frames →
  has_frame tail = false →
  datastream self +:+ data = join frames +:+ tail →
  (length frames < fuel)%nat →
  dataReceived fuel self data = Some (Py.Ok (frames, with_buffer self tail)).
Proof.
  intros Hall Htail Hbuf Hfuel. unfold dataReceived. cbv zeta. rewrite Hbuf.
  fold (with_buffer self (join frames +:+ tail)).
  by rewrite (pop_loop_whole self tail frames Hall Htail fuel []).
Qed.

Lemma dataReceived_whole_frames_witness :
  dataReceived 3 fresh_session (sixteen_bytes +:+ (sixteen_bytes +:+ "xy"))
  = Some (Py.Ok ([sixteen_bytes; sixteen_bytes], with_buffer fresh_session "xy")).
Proof.
  apply (dataReceived_whole_frames fresh_session
           (sixteen_bytes +:+ (sixteen_bytes +:+ "xy"))
           [sixteen_bytes; sixteen_bytes] "xy" 3).
  - repeat constructor.
  - reflexivity.
  - reflexivity.
  - cbn. lia.
Defined.

(** The frames do not depend on how the bytes arrive.  If [dataReceived]
    returns for [data1] and then, on the session it leaves, for [data2],
    then given both at once it returns too, with the frames of the first
    call followed by those of the second and with the same session at the
    end. *)
Theorem dataReceived_chunks (self self1 self2 : EsmeTransceiver)
    (data1 data2 : string) (frames1 frames2 : list string) (fuel1 fuel2 : nat) :
  dataReceived fuel1 self data1 = Some (Py.Ok (frames1, self1)) →
  dataReceived fuel2 self1 data2 = Some (Py.Ok (frames2, self2)) →
  dataReceived (fuel1 + fuel2) self (data1 +:+ data2)
  = Some (Py.Ok (frames1 ++ frames2, self2)).
Proof.
  unfold dataReceived. cbv zeta. intros H1 H2.
  pose proof (pop_loop_spec _ _ _ _ H1) as (fs & rest & Heq & _).
  injection Heq as Hfs Hself1. cbn [app] in Hfs. subst fs.
  rewrite <- app_assoc_string.
  set (s0 := mkEsme _ _ _ (datastream self +:+ data1)) in *.
  change (mkEsme (config self) (bind_params self) (state self)
            ((datastream self +:+ data1) +:+ data2))
    with (with_buffer s0 (datastream s0 +:+ data2)).
  apply (pop_loop_extend _ _ _ _ _ H1).
  (* the second call, with what it had put on the queue before *)
  clear H1. revert H2.
  change (mkEsme (config self1) (bind_params self1) (state self1)
            (datastream self1 +:+ data2))
    with (with_buffer self1 (datastream self1 +:+ data2)).
  generalize (with_buffer self1 (datastream self1 +:+ data2)). clear.
  assert (Hq : ∀ fuel s (q q' : list string) r,
             pop_loop fuel s q = Some (Py.Ok r) →
             pop_loop fuel s (q' ++ q) = Some (Py.Ok (q' ++ r.1, r.2))).
  { induction fuel as [|fuel IH]; intros s q q' r H; [done|].
    cbn [pop_loop] in *.
    destruct (Esme.pop_data s) as [[[d|] s']|e]; [| |done].
    - rewrite <- app_assoc. by apply IH.
    - by injection H as <-. }
  intros s H. apply (Hq _ _ _ frames1) in H. by rewrite app_nil_r in H.
Qed.

Lemma dataReceived_chunks_witness :
  dataReceived (1 + 2) fresh_session (Py.take 5 sixteen_bytes +:+ Py.drop 5 sixteen_bytes)
  = Some (Py.Ok ([] ++ [sixteen_bytes], fresh_session)).
Proof.
  apply (dataReceived_chunks fresh_session
           (with_buffer fresh_session (Py.take 5 sixteen_bytes)) fresh_session
           (Py.take 5 sixteen_bytes) (Py.drop 5 sixteen_bytes) [] [sixteen_bytes] 1 2).
  - reflexivity.
  - reflexivity.
Defined.

(** A header that announces a length of zero stops the receiver.  When
    the buffer with the new data holds at least sixteen bytes and its first
    four bytes are the number zero, [pop_data] hands out the empty string
    as a frame and leaves the buffer as it is, so the loop of
    [dataReceived] puts empty frames on the queue without end: it does not
    return, whatever the number of rounds it is given. *)
Theorem dataReceived_zero_length (self : EsmeTransceiver) (data : string) :
  (16 ≤ String.length (datastream self +:+ data))%nat →
  command_length (datastream self +:+ data) = 0 →
  let received := with_buffer self (datastream self +:+ data) in
  Esme.pop_data received = Py.Ok (Some "", received)
  ∧ ∀ fuel, dataReceived fuel self data = None.
Proof.
  intros Hlen Hcl received.
  assert (Hf : has_frame (datastream received) = true).
  { unfold has_frame. cbn [received datastream with_buffer]. rewrite Hcl.
    apply andb_true_iff. split; apply Z.leb_le; lia. }
  split.
  - rewrite pop_data_eq, Hf. cbn [received datastream with_buffer] in *.
    rewrite Hcl. cbn [Z.to_nat]. by rewrite take_0, drop_0.
  - intros fuel. unfold dataReceived. cbv zeta. by apply pop_loop_stuck.
Qed.

Lemma dataReceived_zero_length_witness :
  Esme.pop_data (with_buffer fresh_session
                   (datastream fresh_session +:+ bytes 16 "000"))
  = Py.Ok (Some "", with_buffer fresh_session
                      (datastream fresh_session +:+ bytes 16 "000"))
  ∧ dataReceived 1000 fresh_session (bytes 16 "000") = None.
Proof.
  destruct (dataReceived_zero_length fresh_session (bytes 16 "000")) as [H1 H2].
  - change (16 ≤ 16)%nat. lia.
  - reflexivity.
  - split; [exact H1 | exact (H2 1000%nat)].
Defined.

Section DeliverEdges.
Context {W : Type} (h : ∀ c : Call, W → resp c * W).

(** A [deliver_sm] that is not processed is not acknowledged either.  In
    a state other than BOUND_RX and BOUND_TRX [handle_deliver_sm] writes
    one line to the error log and nothing else; in one of these states
    but with a status other than ESME_ROK it does nothing at all.  In
    both cases no [deliver_sm_resp] is written, no processor is
    consulted and the store is not touched. *)
Theorem handle_deliver_sm_ignored (self : EsmeTransceiver) (pdu : PDU) (w : W) :
  (state self ≠ BOUND_RX ∧ state self ≠ BOUND_TRX) ∨ command_status pdu ≠ "ESME_ROK" →
  let tr := trace h (Esme.handle_deliver_sm self pdu) w in
  outcome h (Esme.handle_deliver_sm self pdu) w = Returned tt
  ∧ map ev_call tr
    = (if bool_decide (state self ∈ [BOUND_RX; BOUND_TRX]) then []
       else [log_err "WARNING: Received deliver_sm in wrong state: %s"])
  ∧ sent_pdus tr = []
  ∧ processor_calls tr = []
  ∧ redis_calls tr = []
  ∧ closed tr = false.
Proof.
  intros Hcase. cbv zeta. unfold outcome, trace, Esme.handle_deliver_sm.
  destruct (bool_decide (state self ∈ [BOUND_RX; BOUND_TRX])) eqn:Hst; cbn [negb].
  - destruct Hcase as [[Hrx Htrx]|Hstatus].
    + exfalso. apply bool_decide_eq_true in Hst.
      rewrite !elem_of_cons, elem_of_nil in Hst. naive_solver.
    + apply String.eqb_neq in Hstatus. rewrite Hstatus. by cbn.
  - cbn. by destruct (h _ w) as [[] w1].
Qed.

(** The end of the deliver pipeline.  For a [deliver_sm] with status
    ESME_ROK in BOUND_RX or BOUND_TRX that the first three processors
    decline, the parts given by [decode_pdus] decide: if one of them is
    not a decoded text, a line is logged and the PDU is dropped, though
    its [deliver_sm_resp] has been written, with neither
    [handle_delivery_report_content] nor [handle_short_message_pdu]
    called; if all are, their concatenation is offered to
    [handle_delivery_report_content], and [handle_short_message_pdu] gets
    the PDU exactly when that one declines, as the last call. *)
Theorem handle_deliver_sm_content (self : EsmeTransceiver) (pdu : PDU) (w : W)
    (parts : list (option string)) :
  state self = BOUND_RX ∨ state self = BOUND_TRX →
  command_status pdu = "ESME_ROK" →
  let tr := trace h (Esme.handle_deliver_sm self pdu) w in
  (decode_pdus [pdu], RParts parts) ∈ tr →
  sent_pdus tr = [Builder.DeliverSMResp (sequence_number pdu) (bind_params self)]
  ∧ if all_decoded parts
    then ∃ was_cdr : bool,
        processor_calls tr
        = [handle_delivery_report_pdu pdu; handle_multipart_pdu pdu;
           handle_ussd_pdu pdu; decode_pdus [pdu];
           handle_delivery_report_content (String.concat "" (omap id parts))]
          ++ (if was_cdr then [] else [handle_short_message_pdu pdu])
        ∧ (handle_delivery_report_content (String.concat "" (omap id parts)),
           RBool was_cdr) ∈ tr
        ∧ (if was_cdr then True
           else last (map ev_call tr) = Some (handle_short_message_pdu pdu))
    else
      processor_calls tr
      = [handle_delivery_report_pdu pdu; handle_multipart_pdu pdu;
         handle_ussd_pdu pdu; decode_pdus [pdu]]
      ∧ last (map ev_call tr)
        = Some (log_msg "Not all parts of the PDU were able to be decoded.").
Proof.
  intros Hstate Hstatus. cbv zeta. unfold trace, Esme.handle_deliver_sm.
  assert (Hin : bool_decide (state self ∈ [BOUND_RX; BOUND_TRX]) = true).
  { apply bool_decide_eq_true. destruct Hstate as [-> | ->]; set_solver. }
  rewrite Hin. cbn [negb].
  rewrite Hstatus, send_pdu_logged by done. cbn.
  hstep h w as [[] w1].
  hstep h w1 as [[] w2].
  hstep h w2 as [was_dr w3].
  destruct was_dr; cbn; [intros; inv_elem; simplify_eq|].
  hstep h w3 as [was_multipart w4].
  destruct was_multipart; cbn; [intros; inv_elem; simplify_eq|].
  hstep h w4 as [was_ussd w5].
  destruct was_ussd; cbn; [intros; inv_elem; simplify_eq|].
  hstep h w5 as [content_parts w6].
  fold (all_decoded content_parts).
  destruct (all_decoded content_parts) eqn:Hall; cbn.
  - hstep h w6 as [was_cdr w7].
    destruct was_cdr; cbn.
    + intros Hmem; inv_elem; simplify_eq. rewrite Hall. split; [done|].
      exists true. cbn. split; [done|]. split; [|done].
      rewrite !elem_of_cons. naive_solver.
    + hstep h w7 as [[] w8]. cbn.
      intros Hmem; inv_elem; simplify_eq. rewrite Hall. split; [done|].
      exists false. cbn. split; [done|]. split; [|done].
      rewrite !elem_of_cons. naive_solver.
  - hstep h w6 as [[] w7]. cbn.
    intros Hmem; inv_elem; simplify_eq. by rewrite Hall.
Qed.

End DeliverEdges.

Lemma handle_deliver_sm_ignored_witness :
  sent_pdus
    (trace world_h
       (Esme.handle_deliver_sm
          (mkEsme (mkConfig false false false) ∅ BOUND_TX "")
          (mkPDU "deliver_sm" "ESME_ROK" 9 ∅ []))
       (plain_world empty_store))
  = [].
Proof.
  apply (handle_deliver_sm_ignored world_h
           (mkEsme (mkConfig false false false) ∅ BOUND_TX "")
           (mkPDU "deliver_sm" "ESME_ROK" 9 ∅ [])
           (plain_world empty_store)).
  left. split; discriminate.
Defined.

Lemma handle_deliver_sm_content_witness :
  last (map ev_call
          (trace world_h
             (Esme.handle_deliver_sm
                (mkEsme (mkConfig false false false) ∅ BOUND_RX "")
                (mkPDU "deliver_sm" "ESME_ROK" 9 ∅ []))
             (stub_world empty_store false false false)))
  = Some (handle_short_message_pdu (mkPDU "deliver_sm" "ESME_ROK" 9 ∅ [])).
Proof.
  destruct (handle_deliver_sm_content world_h
              (mkEsme (mkConfig false false false) ∅ BOUND_RX "")
              (mkPDU "deliver_sm" "ESME_ROK" 9 ∅ [])
              (stub_world empty_store false false false) [Some "text"])
    as (_ & was_cdr & _ & Hin & Hlast).
  - by left.
  - reflexivity.
  - vm_compute. do 5 apply list_elem_of_further. apply list_elem_of_here.
  - destruct was_cdr; [|exact Hlast].
    exfalso. vm_compute in Hin.
    repeat (apply elem_of_cons in Hin as [Hin|Hin]; [discriminate Hin|]).
    by apply elem_of_nil in Hin.
Defined.

Section Recorded.

Lemma pushed_app t1 t2 : pushed (t1 ++ t2) = pushed t1 ++ pushed t2.
Proof. apply omap_app. Qed.

Lemma debug_lines_app t1 t2 : debug_lines (t1 ++ t2) = debug_lines t1 ++ debug_lines t2.
Proof. apply omap_app. Qed.

Lemma pushed_none tr : (∀ k v, redis_lpush k v ∉ map ev_call tr) → pushed tr = [].
Proof.
  induction tr as [|[c r] tr IH]; intros Hno; [done|].
  assert (Htl : pushed tr = []).
  { apply IH. intros k v Hin. apply (Hno k v). cbn. by right. }
  destruct c; try exact Htl.
  exfalso. apply (Hno key value). cbn. by left.
Qed.

Lemma store_only_debug tr : store_only tr → debug_lines tr = [].
Proof.
  induction 1 as [|[c r] tr Hc _ IH]; [done|].
  unfold debug_lines in *. cbn in *. rewrite IH. by destruct c.
Qed.

End Recorded.

Section Segment.
Context {W : Type} (h : ∀ c : Call, W → resp c * W).

Lemma run_raise {A B} (e : Py.Exc) (f : A → Prog B) (w : W) :
  run h (Raise e ≫= f) w = (Raised e, w, []).
Proof. done. Qed.

(** One run of [_submit_sm], whatever the parameters: a sequence number
    is drawn first; then either an exception ends the call with nothing
    written and nothing recorded, or one [submit_sm] PDU with that number
    is written and the number is put on the ledger. *)
Lemma run_submit_sm_any (self : EsmeTransceiver) (params : gmap string Py.PyVal)
    (w : W) :
  ∃ seq w1 tr1,
    run h Esme.get_next_seq w = (Returned seq, w1, tr1)
    ∧ sent_pdus tr1 = [] ∧ pushed tr1 = [] ∧ closed tr1 = false
    ∧ ((∃ e, run h (Esme._submit_sm self params) w = (Raised e, w1, tr1))
       ∨ (∃ pdu w' count,
            run h (Esme._submit_sm self params) w
            = (Returned seq, w', tr1 ++ segment_events pdu count)
            ∧ sequence_number pdu = seq
            ∧ command_id pdu = "submit_sm")).
Proof.
  destruct (run_get_next_seq h w) as (seq & w1 & tr & Hseq & Hstore & Hpush).
  exists seq, w1, ((redis_incr "smpp_last_sequence_number", RInt seq) :: tr).
  split; [done|].
  split. { unfold sent_pdus. cbn. by apply store_only_sent. }
  split. { unfold pushed. cbn. by apply pushed_none. }
  split. { unfold closed. cbn. by apply store_only_closed. }
  unfold Esme._submit_sm. rewrite run_bind, Hseq.
  destruct (Py.dict_get params "short_message") as [message|e]; cbn [lift];
    [|left; exists e; rewrite run_raise; by rewrite app_nil_r].
  change (Ret message ≫= ?f) with (f message). cbv beta.
  unfold Py.dict_pop. cbv beta iota zeta.
  set (kw := base.delete "session_info" _).
  set (message_type := default (Py.VStr "sms") _).
  set (continue_session := default (Py.VBool true) _).
  set (session_info := default Py.VNone (_ !! "session_info")). 
  set (sar_params := default Py.VNone (_ !! "sar_params")). 
  clearbody kw message_type continue_session session_info sar_params.
  (* every stage keeps the header of the PDU or raises *)
  set (good := λ p : Prog PDU,
         (∃ e, p = Raise e)
         ∨ (∃ pdu, p = Ret pdu ∧ sequence_number pdu = seq
                   ∧ command_id pdu = "submit_sm")).
  assert (Hussd : good (if Py.eq_str message_type "ussd"
                        then lift (update_ussd_pdu (Builder.SubmitSM seq kw)
                                     continue_session session_info)
                        else mret (Builder.SubmitSM seq kw))).
  { destruct (Py.eq_str message_type "ussd"); [|right; by eexists].
    unfold update_ussd_pdu. cbv zeta.
    destruct (match match session_info with
                    | Py.VNone => Py.VStr "0000"
                    | v => v
                    end with
              | Py.VStr s => Py.int16 s
              | _ => Py.Err Py.TypeError
              end) as [n|e]; cbn [Py.rbind lift]; [right; by eexists | left; by eexists]. }
  destruct Hussd as [[e ->] | (pdu1 & -> & Hs1 & Hc1)];
    [left; exists e; rewrite run_raise; by rewrite app_nil_r|].
  change (Ret pdu1 ≫= ?f) with (f pdu1). cbv beta.
  assert (Hlong : good (if send_long_messages (config self)
                        then n ← lift (Py.len message);
                             if 254 <? n
                             then payload ← lift (Esme.hex_payload message);
                                  mret (Builder.add_message_payload payload pdu1)
                             else mret pdu1
                        else mret pdu1)).
  { destruct (send_long_messages (config self)); [|right; by eexists].
    destruct (Py.len message) as [n|e]; cbn [lift]; [|left; by eexists].
    change (Ret n ≫= ?f) with (f n). cbv beta.
    destruct (254 <? n); [|right; by eexists].
    destruct (Esme.hex_payload message) as [payload|e]; cbn [lift];
      [right; by eexists | left; by eexists]. }
  destruct Hlong as [[e ->] | (pdu2 & -> & Hs2 & Hc2)];
    [left; exists e; rewrite run_raise; by rewrite app_nil_r|].
  change (Ret pdu2 ≫= ?f) with (f pdu2). cbv beta.
  assert (Hsar : good (if Py.truthy sar_params
                       then r ← lift (Py.getitem sar_params "msg_ref_num");
                            t ← lift (Py.getitem sar_params "total_segments");
                            i ← lift (Py.getitem sar_params "segment_seqnum");
                            mret (Builder.set_sar_segment_seqnum i
                                    (Builder.set_sar_total_segments t
                                       (Builder.set_sar_msg_ref_num r pdu2)))
                       else mret pdu2)).
  { destruct (Py.truthy sar_params); [|right; by eexists].
    destruct (Py.getitem sar_params "msg_ref_num") as [r|e]; cbn [lift];
      [|left; by eexists].
    change (Ret r ≫= ?f) with (f r). cbv beta.
    destruct (Py.getitem sar_params "total_segments") as [t|e]; cbn [lift];
      [|left; by eexists].
    change (Ret t ≫= ?f) with (f t). cbv beta.
    destruct (Py.getitem sar_params "segment_seqnum") as [i|e]; cbn [lift];
      [right; by eexists | left; by eexists]. }
  destruct Hsar as [[e ->] | (pdu & -> & Hs & Hc)];
    [left; exists e; rewrite run_raise; by rewrite app_nil_r|].
  change (Ret pdu ≫= ?f) with (f pdu). cbv beta.
  right. rewrite send_pdu_logged by (rewrite Hc; done).
  unfold Esme.push_unacked, Esme.get_unacked_count. cbn.
  hstep h w1 as [[] w2]. hstep h w2 as [[] w3]. hstep h w3 as [[] w4].
  hstep h w4 as [n w5]. hstep h w5 as [[] w6].
  exists pdu, w6, n. unfold segment_events. rewrite Hs. done.
Qed.

End Segment.

Section Recording.
Context {W : Type} (h : ∀ c : Call, W → resp c * W).

Lemma recorded_nil : recorded [].
Proof. by repeat split. Qed.

Lemma recorded_app t1 t2 : recorded t1 → recorded t2 → recorded (t1 ++ t2).
Proof.
  intros (Hp1 & Hc1 & Hx1) (Hp2 & Hc2 & Hx2). unfold recorded.
  rewrite pushed_app, sent_pdus_app, closed_app, map_app, Hp1, Hp2, Hx1, Hx2.
  split; [done|]. split; [|done]. by apply Forall_app.
Qed.

Lemma run_submit_sm_recorded (self : EsmeTransceiver) (params : gmap string Py.PyVal)
    (w : W) :
  ∃ o w' tr,
    run h (Esme._submit_sm self params) w = (o, w', tr)
    ∧ recorded tr
    ∧ (∀ seq, o = Returned seq → pushed tr = [seq]).
Proof.
  destruct (run_submit_sm_any h self params w)
    as (seq & w1 & tr1 & _ & Hsent & Hpush & Hclosed & [[e Hrun] | Hrun]).
  - exists (Raised e), w1, tr1. split; [done|]. split; [|done].
    unfold recorded. by rewrite Hsent, Hpush, Hclosed.
  - destruct Hrun as (pdu & w' & count & Hrun & Hseq & Hcmd).
    exists (Returned seq), w', (tr1 ++ segment_events pdu count).
    split; [done|]. split.
    + apply recorded_app.
      * unfold recorded. by rewrite Hsent, Hpush, Hclosed.
      * unfold recorded, segment_events. cbn. repeat split. by constructor.
    + intros ? [= <-]. rewrite pushed_app, Hpush. cbn. by rewrite Hseq.
Qed.

Lemma run_sar_loop_recorded (self : EsmeTransceiver) (pdu_params : gmap string Py.PyVal)
    (ref_num total : Z) (msgs : list string) :
  ∀ (i : Z) (acc : list Z) (w : W),
  ∃ o w' tr,
    run h (Esme.sar_loop self pdu_params ref_num total i msgs acc) w = (o, w', tr)
    ∧ recorded tr
    ∧ (∀ l, o = Returned l → l = acc ++ pushed tr ∧ length (pushed tr) = length msgs).
Proof.
  induction msgs as [|m msgs IH]; intros i acc w.
  - exists (Returned acc), w, []. split; [done|]. split; [apply recorded_nil|].
    intros ? [= <-]. by rewrite app_nil_r.
  - cbn [Esme.sar_loop]. cbv zeta. rewrite run_bind.
    destruct (run_submit_sm_recorded self
                (<["sar_params" := Py.VDict [("msg_ref_num", Py.VInt ref_num);
                                             ("total_segments", Py.VInt total);
                                             ("segment_seqnum", Py.VInt (i + 1))]]>
                   (<["short_message" := Py.VStr m]> pdu_params)) w)
      as ([seq|e] & w1 & tr1 & -> & Hrec1 & Hret1).
    + destruct (IH (i + 1) (acc ++ [seq]) w1) as (o & w2 & tr2 & -> & Hrec2 & Hret2).
      exists o, w2, (tr1 ++ tr2). split; [done|].
      split; [by apply recorded_app|].
      intros l Hl. destruct (Hret2 l Hl) as [-> Hlen].
      rewrite pushed_app, (Hret1 seq eq_refl), <- app_assoc. cbn. by rewrite Hlen.
    + exists (Raised e), w1, tr1. split; [done|]. split; [done|]. by intros ? [=].
Qed.

Lemma run_udh_loop_recorded (self : EsmeTransceiver) (pdu_params : gmap string Py.PyVal)
    (ref_num total : Z) (msgs : list string) :
  ∀ (i : Z) (acc : list Z) (w : W),
  ∃ o w' tr,
    run h (Esme.udh_loop self pdu_params ref_num total i msgs acc) w = (o, w', tr)
    ∧ recorded tr
    ∧ (∀ l, o = Returned l → l = acc ++ pushed tr ∧ length (pushed tr) = length msgs).
Proof.
  induction msgs as [|m msgs IH]; intros i acc w.
  - exists (Returned acc), w, []. split; [done|]. split; [apply recorded_nil|].
    intros ? [= <-]. by rewrite app_nil_r.
  - cbn [Esme.udh_loop]. cbv zeta.
    destruct (Esme.udh_header ref_num total i) as [header|e]; cbn [lift].
    2: { exists (Raised e), w, []. split; [done|]. split; [apply recorded_nil | done]. }
    change (Ret header ≫= ?f) with (f header). cbv beta. rewrite run_bind.
    destruct (run_submit_sm_recorded self
                (<["short_message" := Py.VStr (header +:+ m)]>
                   (<["esm_class" := Py.VInt 64]> pdu_params)) w)
      as ([seq|e] & w1 & tr1 & -> & Hrec1 & Hret1).
    + destruct (IH (i + 1) (acc ++ [seq]) w1) as (o & w2 & tr2 & -> & Hrec2 & Hret2).
      exists o, w2, (tr1 ++ tr2). split; [done|].
      split; [by apply recorded_app|].
      intros l Hl. destruct (Hret2 l Hl) as [-> Hlen].
      rewrite pushed_app, (Hret1 seq eq_refl), <- app_assoc. cbn. by rewrite Hlen.
    + exists (Raised e), w1, tr1. split; [done|]. split; [done|]. by intros ? [=].
Qed.

Lemma recorded_randint a b r tr : recorded tr → recorded ((randint a b, r) :: tr).
Proof. intros (? & ? & ?). by repeat split. Qed.

Lemma split_msg_nonempty (payload_length : Z) (message : Py.PyVal) (n : Z)
    (split_msg : list string) :
  Esme.split_msg_of payload_length message = Py.Ok split_msg →
  Py.len message = Py.Ok n → 0 < n → split_msg ≠ [].
Proof.
  destruct message as [| | |s|d]; try done; cbn.
  - intros [= <-] [= <-] Hn. destruct s as [|c s]; [cbn in Hn; lia|]. by cbn.
  - intros H [= <-] Hn. destruct d; [cbn in Hn; lia | done].
Qed.

Lemma run_map {A B} (p : Prog A) (f : A → B) (w : W) :
  run h (x ← p; mret (f x)) w
  = (match outcome h p w with
     | Returned a => Returned (f a)
     | Raised e => Raised e
     end, final h p w, trace h p w).
Proof.
  rewrite run_bind. unfold outcome, final, trace.
  destruct (run h p w) as [[[a|e] w'] tr]; [|done]. cbn. by rewrite app_nil_r.
Qed.

Lemma run_submit_multipart_sar_recorded (self : EsmeTransceiver)
    (pdu_params : gmap string Py.PyVal) (w : W) :
  ∃ o w' tr,
    run h (Esme._submit_multipart_sar self pdu_params) w = (o, w', tr)
    ∧ recorded tr
    ∧ (∀ l, o = Returned l →
         l = pushed tr
         ∧ ∀ message n, Py.dict_get pdu_params "short_message" = Py.Ok message →
                        Py.len message = Py.Ok n → 0 < n → l ≠ []).
Proof.
  unfold Esme._submit_multipart_sar.
  destruct (Py.dict_get pdu_params "short_message") as [message|e]; cbn [lift].
  2: { exists (Raised e), w, []. split; [done|]. split; [apply recorded_nil | done]. }
  change (Ret message ≫= ?f) with (f message). cbv beta zeta.
  destruct (Esme.split_msg_of _ message) as [split_msg|e] eqn:Hsplit; cbn [lift].
  2: { exists (Raised e), w, []. split; [done|]. split; [apply recorded_nil | done]. }
  change (Ret split_msg ≫= ?f) with (f split_msg). cbv beta.
  cbn [mbind Prog_bind bind call run]. destruct (h (randint 1 255) w) as [ref_num w1].
  destruct (run_sar_loop_recorded self pdu_params ref_num (Z.of_nat (length split_msg))
              split_msg 0 [] w1) as (o & w2 & tr & Hrun & Hrec & Hret).
  cbn [reify]. rewrite Hrun.
  exists o, w2, ((randint 1 255, RInt ref_num) :: tr). split; [done|].
  split; [by apply recorded_randint|].
  intros l Hl. destruct (Hret l Hl) as [-> Hlen]. split; [done|].
  intros message' n [= <-] Hn Hpos.
  pose proof (split_msg_nonempty _ _ _ _ Hsplit Hn Hpos) as Hne.
  cbn [app]. intros Hnil. rewrite Hnil in Hlen. by destruct split_msg.
Qed.

Lemma run_submit_multipart_udh_recorded (self : EsmeTransceiver)
    (pdu_params : gmap string Py.PyVal) (w : W) :
  ∃ o w' tr,
    run h (Esme._submit_multipart_udh self pdu_params) w = (o, w', tr)
    ∧ recorded tr
    ∧ (∀ l, o = Returned l →
         l = pushed tr
         ∧ ∀ message n, Py.dict_get pdu_params "short_message" = Py.Ok message →
                        Py.len message = Py.Ok n → 0 < n → l ≠ []).
Proof.
  unfold Esme._submit_multipart_udh.
  destruct (Py.dict_get pdu_params "short_message") as [message|e]; cbn [lift].
  2: { exists (Raised e), w, []. split; [done|]. split; [apply recorded_nil | done]. }
  change (Ret message ≫= ?f) with (f message). cbv beta zeta.
  destruct (Esme.split_msg_of _ message) as [split_msg|e] eqn:Hsplit; cbn [lift].
  2: { exists (Raised e), w, []. split; [done|]. split; [apply recorded_nil | done]. }
  change (Ret split_msg ≫= ?f) with (f split_msg). cbv beta.
  cbn [mbind Prog_bind bind call run]. destruct (h (randint 1 255) w) as [ref_num w1].
  destruct (run_udh_loop_recorded self pdu_params ref_num (Z.of_nat (length split_msg))
              split_msg 0 [] w1) as (o & w2 & tr & Hrun & Hrec & Hret).
  cbn [reify]. rewrite Hrun.
  exists o, w2, ((randint 1 255, RInt ref_num) :: tr). split; [done|].
  split; [by apply recorded_randint|].
  intros l Hl. destruct (Hret l Hl) as [-> Hlen]. split; [done|].
  intros message' n [= <-] Hn Hpos.
  pose proof (split_msg_nonempty _ _ _ _ Hsplit Hn Hpos) as Hne.
  cbn [app]. intros Hnil. rewrite Hnil in Hlen. by destruct split_msg.
Qed.

(** Every PDU that [submit_sm] writes is recorded.  Whatever the state,
    the configuration and the parameters, and however the call ends, the
    numbers it puts on the unacked ledger are the sequence numbers of the
    PDUs it writes, one for one and in the same order; it writes only
    [submit_sm] PDUs and does not close the transport.  When it returns a
    list, the list is those numbers and is not empty; the only integer
    it returns is 0, with nothing written. *)
Theorem submit_sm_recorded (self : EsmeTransceiver) (kwargs : gmap string Py.PyVal)
    (w : W) :
  let tr := trace h (Esme.submit_sm self kwargs) w in
  pushed tr = map sequence_number (sent_pdus tr)
  ∧ Forall (λ pdu, command_id pdu = "submit_sm") (sent_pdus tr)
  ∧ closed tr = false
  ∧ match outcome h (Esme.submit_sm self kwargs) w with
    | Returned (ret_list sequence_numbers) =>
        sequence_numbers = pushed tr ∧ sequence_numbers ≠ []
    | Returned (ret_int n) => n = 0 ∧ sent_pdus tr = []
    | Raised _ => True
    end.
Proof.
  cbv zeta. unfold trace, outcome, Esme.submit_sm.
  destruct (bool_decide (state self ∈ [BOUND_TX; BOUND_TRX])); cbn [negb].
  2: { cbn. by destruct (h _ w) as [[] w1]. }
  cbv zeta. set (pdu_params := kwargs ∪ bind_params self).
  destruct (Py.dict_get pdu_params "short_message") as [message|e] eqn:Hmsg;
    cbn [lift]; [|done].
  change (Ret message ≫= ?f) with (f message). cbv beta.
  destruct (Py.len message) as [n|e] eqn:Hlen; cbn [lift]; [|done].
  change (Ret n ≫= ?f) with (f n). cbv beta.
  destruct ((GSM_MAX_SMS_BYTES <? n) && send_multipart_sar (config self)) eqn:Hsar.
  { apply andb_true_iff in Hsar as [Hn _]. apply Z.ltb_lt in Hn.
    unfold GSM_MAX_SMS_BYTES in Hn.
    rewrite (run_map _ ret_list). unfold outcome, final, trace.
    destruct (run_submit_multipart_sar_recorded self pdu_params w)
      as ([l|e] & w' & tr & -> & (Hp & Hc & Hx) & Hret); cbn [fst snd].
    - destruct (Hret l eq_refl) as [Hl Hne].
      split; [done|]. split; [done|]. split; [done|]. split; [done|].
      apply (Hne message n); [done | done | lia].
    - done. }
  destruct ((GSM_MAX_SMS_BYTES <? n) && send_multipart_udh (config self)) eqn:Hudh.
  { apply andb_true_iff in Hudh as [Hn _]. apply Z.ltb_lt in Hn.
    unfold GSM_MAX_SMS_BYTES in Hn.
    rewrite (run_map _ ret_list). unfold outcome, final, trace.
    destruct (run_submit_multipart_udh_recorded self pdu_params w)
      as ([l|e] & w' & tr & -> & (Hp & Hc & Hx) & Hret); cbn [fst snd].
    - destruct (Hret l eq_refl) as [Hl Hne].
      split; [done|]. split; [done|]. split; [done|]. split; [done|].
      apply (Hne message n); [done | done | lia].
    - done. }
  rewrite (run_map _ (λ sequence_number, ret_list [sequence_number])).
  unfold outcome, final, trace.
  destruct (run_submit_sm_recorded self pdu_params w)
    as ([seq|e] & w' & tr & -> & (Hp & Hc & Hx) & Hret); cbn [fst snd]; [|done].
  rewrite (Hret seq eq_refl) in *. done.
Qed.

End Recording.

Section SegmentOfBytes.
Context {W : Type} (h : ∀ c : Call, W → resp c * W).

(** One run of [_submit_sm] on a byte string, in full. *)
Lemma run_submit_sm_str (self : EsmeTransceiver) (params : gmap string Py.PyVal)
    (msg : string) (w : W) :
  params !! "short_message" = Some (Py.VStr msg) →
  ∃ seq w1 tr1,
    run h Esme.get_next_seq w = (Returned seq, w1, tr1)
    ∧ sent_pdus tr1 = [] ∧ pushed tr1 = [] ∧ closed tr1 = false
    ∧ debug_lines tr1 = []
    ∧ match ussd_options params, sar_options params with
      | Py.Ok uo, Py.Ok so =>
          ∃ w' count,
            run h (Esme._submit_sm self params) w
            = (Returned seq, w',
               tr1 ++ segment_events (segment_pdu self params msg seq uo so) count)
      | Py.Err e, _ | Py.Ok _, Py.Err e =>
          run h (Esme._submit_sm self params) w = (Raised e, w1, tr1)
      end.
Proof.
  intros Hmsg.
  destruct (run_get_next_seq h w) as (seq & w1 & tr & Hseq & Hstore & Hpush).
  exists seq, w1, ((redis_incr "smpp_last_sequence_number", RInt seq) :: tr).
  split; [done|].
  split. { unfold sent_pdus. cbn. by apply store_only_sent. }
  split. { unfold pushed. cbn. by apply pushed_none. }
  split. { unfold closed. cbn. by apply store_only_closed. }
  split. { unfold debug_lines. cbn. by apply store_only_debug. }
  unfold Esme._submit_sm. rewrite run_bind, Hseq.
  unfold Py.dict_get. rewrite Hmsg. cbn [lift].
  change (Ret (Py.VStr msg) ≫= ?f) with (f (Py.VStr msg)). cbv beta.
  unfold Py.dict_pop. cbv beta iota zeta.
  rewrite !lookup_delete_ne by done.
  fold (builder_params params).
  set (kw := builder_params params).
  set (pdu0 := Builder.SubmitSM seq kw).
  (* the USSD annotation *)
  assert (Hann : (if Py.eq_str (default (Py.VStr "sms") (params !! "message_type")) "ussd"
                  then lift (update_ussd_pdu pdu0
                               (default (Py.VBool true) (params !! "continue_session"))
                               (default Py.VNone (params !! "session_info")))
                  else mret pdu0)
                 = match ussd_options params with
                   | Py.Ok uo => Ret (mkPDU "submit_sm" "ESME_ROK" seq kw uo)
                   | Py.Err e => Raise e
                   end).
  { unfold ussd_options.
    destruct (Py.eq_str _ "ussd"); [|done].
    unfold update_ussd_pdu.
    destruct (default Py.VNone (params !! "session_info")) as [| | |s|];
      cbv beta iota zeta; try done;
      (destruct (Py.int16 _) as [n|]; [|done]); by cbn. }
  rewrite Hann. clear Hann.
  destruct (ussd_options params) as [uo|e]; [|rewrite run_raise; by rewrite app_nil_r].
  change (Ret ?x ≫= ?f) with (f x). cbv beta.
  set (pdu1 := mkPDU "submit_sm" "ESME_ROK" seq kw uo).
  (* the move to message_payload *)
  assert (Hlong : (if send_long_messages (config self)
                   then n ← lift (Py.len (Py.VStr msg));
                        if 254 <? n
                        then payload ← lift (Esme.hex_payload (Py.VStr msg));
                             mret (Builder.add_message_payload payload pdu1)
                        else mret pdu1
                   else mret pdu1)
                  = Ret (if moved_to_payload self msg
                         then mkPDU "submit_sm" "ESME_ROK" seq
                                (<["short_message" := Py.VNone]> kw)
                                (uo ++ [("message_payload", Py.VStr (Py.b2a_hex msg))])
                         else pdu1)).
  { unfold moved_to_payload.
    destruct (send_long_messages (config self)); [|done]. cbn [Py.len lift andb].
    change (Ret ?x ≫= ?f) with (f x). cbv beta.
    by destruct (254 <? Z.of_nat (String.length msg)). }
  rewrite Hlong. clear Hlong.
  change (Ret ?x ≫= ?f) with (f x). cbv beta.
  set (pdu2 := if moved_to_payload self msg then _ else pdu1).
  (* the SAR parameters *)
  assert (Hsarp : (if Py.truthy (default Py.VNone (params !! "sar_params"))
                   then r ← lift (Py.getitem (default Py.VNone (params !! "sar_params"))
                                    "msg_ref_num");
                        t ← lift (Py.getitem (default Py.VNone (params !! "sar_params"))
                                    "total_segments");
                        i ← lift (Py.getitem (default Py.VNone (params !! "sar_params"))
                                    "segment_seqnum");
                        mret (Builder.set_sar_segment_seqnum i
                                (Builder.set_sar_total_segments t
                                   (Builder.set_sar_msg_ref_num r pdu2)))
                   else mret pdu2)
                  = match sar_options params with
                    | Py.Ok so => Ret (segment_pdu self params msg seq uo so)
                    | Py.Err e => Raise e
                    end).
  { unfold sar_options, segment_pdu. cbv zeta. subst pdu2 pdu1. fold kw.
    destruct (Py.truthy _).
    - destruct (Py.getitem _ "msg_ref_num") as [r|]; [|done].
      cbn [lift Py.rbind]. change (Ret ?x ≫= ?f) with (f x). cbv beta.
      destruct (Py.getitem _ "total_segments") as [t|]; [|done].
      cbn [lift Py.rbind]. change (Ret ?x ≫= ?f) with (f x). cbv beta.
      destruct (Py.getitem _ "segment_seqnum") as [i|]; [|done].
      cbn [lift Py.rbind]. change (Ret ?x ≫= ?f) with (f x). cbv beta.
      unfold Builder.set_sar_segment_seqnum, Builder.set_sar_total_segments,
        Builder.set_sar_msg_ref_num, Builder.add_optional_parameter.
      destruct (moved_to_payload self msg); cbn; by rewrite <- !app_assoc.
    - cbn. destruct (moved_to_payload self msg); by rewrite ?app_nil_r. }
  rewrite Hsarp. clear Hsarp.
  destruct (sar_options params) as [so|e]; [|rewrite run_raise; by rewrite app_nil_r].
  change (Ret ?x ≫= ?f) with (f x). cbv beta.
  set (pdu := segment_pdu self params msg seq uo so).
  assert (Hcmd : command_id pdu = "submit_sm").
  { subst pdu. unfold segment_pdu. by destruct (moved_to_payload self msg). }
  assert (Hsn : sequence_number pdu = seq).
  { subst pdu. unfold segment_pdu. by destruct (moved_to_payload self msg). }
  clearbody pdu.
  rewrite send_pdu_logged by (rewrite Hcmd; done).
  unfold Esme.push_unacked, Esme.get_unacked_count. cbn.
  hstep h w1 as [[] w2]. hstep h w2 as [[] w3]. hstep h w3 as [[] w4].
  hstep h w4 as [n w5]. hstep h w5 as [[] w6].
  exists w6, n. unfold segment_events. by rewrite Hsn.
Qed.

End SegmentOfBytes.

Section AllOrNothing.
Context {W : Type} (h : ∀ c : Call, W → resp c * W).

Lemma ussd_options_insert (params : gmap string Py.PyVal) (k : string) (v : Py.PyVal) :
  k ≠ "message_type" → k ≠ "session_info" → k ≠ "continue_session" →
  ussd_options (<[k := v]> params) = ussd_options params.
Proof. intros. unfold ussd_options. by rewrite !lookup_insert_ne. Qed.

Lemma sar_options_insert (params : gmap string Py.PyVal) (k : string) (v : Py.PyVal) :
  k ≠ "sar_params" → sar_options (<[k := v]> params) = sar_options params.
Proof. intros. unfold sar_options. by rewrite !lookup_insert_ne. Qed.

(** The first segment of a loop whose USSD annotation or SAR keywords are
    not defined: a sequence number is drawn and the call ends. *)
Lemma run_submit_sm_fails (self : EsmeTransceiver) (params : gmap string Py.PyVal)
    (msg : string) (e : Py.Exc) (w : W) :
  params !! "short_message" = Some (Py.VStr msg) →
  segment_error params = Some e →
  ∃ w' tr, run h (Esme._submit_sm self params) w = (Raised e, w', tr) ∧ nothing_sent tr.
Proof.
  intros Hmsg Herr.
  destruct (run_submit_sm_str h self params msg w Hmsg)
    as (seq & w1 & tr1 & _ & Hs & Hp & Hc & _ & Hrun).
  unfold segment_error in Herr.
  destruct (ussd_options params) as [uo|e1].
  - destruct (sar_options params) as [so|e2]; [done|].
    injection Herr as ->. by exists w1, tr1.
  - injection Herr as ->. exists w1, tr1.
    split; [by destruct (sar_options params)|done].
Qed.

Lemma run_submit_sm_returns (self : EsmeTransceiver) (params : gmap string Py.PyVal)
    (msg : string) (w : W) :
  params !! "short_message" = Some (Py.VStr msg) →
  segment_error params = None →
  ∃ seq w' tr, run h (Esme._submit_sm self params) w = (Returned seq, w', tr).
Proof.
  intros Hmsg Herr.
  destruct (run_submit_sm_str h self params msg w Hmsg)
    as (seq & w1 & tr1 & _ & _ & _ & _ & _ & Hrun).
  unfold segment_error in Herr.
  destruct (ussd_options params) as [uo|e1]; [|done].
  destruct (sar_options params) as [so|e2]; [|done].
  destruct Hrun as (w' & count & Hrun). by eexists _, _, _.
Qed.

Lemma run_sar_loop_returns (self : EsmeTransceiver) (pdu_params : gmap string Py.PyVal)
    (uo : list (string * Py.PyVal)) (ref_num total : Z) (msgs : list string) :
  ussd_options pdu_params = Py.Ok uo →
  ∀ (i : Z) (acc : list Z) (w : W),
  ∃ l w' tr,
    run h (Esme.sar_loop self pdu_params ref_num total i msgs acc) w = (Returned l, w', tr).
Proof.
  intros Hussd. induction msgs as [|m msgs IH]; intros i acc w.
  - by exists acc, w, [].
  - cbn [Esme.sar_loop]. cbv zeta. rewrite run_bind.
    set (params := <["sar_params" := _]> _).
    destruct (run_submit_sm_returns self params m w) as (seq & w1 & tr1 & ->).
    { subst params. by rewrite lookup_insert_ne, lookup_insert_eq. }
    { unfold segment_error. subst params.
      rewrite !ussd_options_insert, Hussd by done.
      unfold sar_options. rewrite lookup_insert_eq. by cbn. }
    destruct (IH (i + 1) (acc ++ [seq]) w1) as (l & w2 & tr2 & ->).
    by eexists _, _, _.
Qed.

Lemma run_udh_loop_returns (self : EsmeTransceiver) (pdu_params : gmap string Py.PyVal)
    (ref_num total : Z) (msgs : list string) :
  segment_error pdu_params = None →
  0 ≤ ref_num < 256 → 0 ≤ total < 256 →
  ∀ (i : Z) (acc : list Z) (w : W),
  0 ≤ i → i + Z.of_nat (length msgs) ≤ total →
  ∃ l w' tr,
    run h (Esme.udh_loop self pdu_params ref_num total i msgs acc) w = (Returned l, w', tr).
Proof.
  intros Herr Href Htotal. induction msgs as [|m msgs IH]; intros i acc w Hi Hlen.
  - by exists acc, w, [].
  - cbn [length] in Hlen. cbn [Esme.udh_loop]. cbv zeta.
    rewrite udh_header_ok by lia. cbn [lift].
    change (Ret ?x ≫= ?f) with (f x). cbv beta. rewrite run_bind.
    set (params := <["short_message" := _]> _).
    destruct (run_submit_sm_returns self params (udh ref_num total (i + 1) +:+ m) w)
      as (seq & w1 & tr1 & ->).
    { subst params. by rewrite lookup_insert_eq. }
    { unfold segment_error in *. subst params.
      by rewrite !ussd_options_insert, !sar_options_insert. }
    destruct (IH (i + 1) (acc ++ [seq]) w1 ltac:(lia) ltac:(lia)) as (l & w2 & tr2 & ->).
    by eexists _, _, _.
Qed.

Lemma nothing_sent_randint a b r tr : nothing_sent tr → nothing_sent ((randint a b, r) :: tr).
Proof. by intros (? & ? & ?). Qed.

Lemma run_submit_multipart_sar_all_or_nothing (self : EsmeTransceiver)
    (pdu_params : gmap string Py.PyVal) (w : W) :
  ∃ o w' tr,
    run h (Esme._submit_multipart_sar self pdu_params) w = (o, w', tr)
    ∧ ((∃ l, o = Returned l) ∨ nothing_sent tr).
Proof.
  unfold Esme._submit_multipart_sar.
  destruct (Py.dict_get pdu_params "short_message") as [message|e]; cbn [lift].
  2: { exists (Raised e), w, []. split; [done|]. by right. }
  change (Ret message ≫= ?f) with (f message). cbv beta zeta.
  destruct (Esme.split_msg_of _ message) as [split_msg|e] eqn:Hsplit; cbn [lift].
  2: { exists (Raised e), w, []. split; [done|]. by right. }
  change (Ret split_msg ≫= ?f) with (f split_msg). cbv beta.
  cbn [mbind Prog_bind bind call run]. destruct (h (randint 1 255) w) as [ref_num w1].
  cbn [reify].
  destruct (ussd_options pdu_params) as [uo|e] eqn:Hussd.
  - destruct (run_sar_loop_returns self pdu_params uo ref_num
                (Z.of_nat (length split_msg)) split_msg Hussd 0 [] w1)
      as (l & w2 & tr & ->).
    eexists _, _, _. split; [done|]. left. by eexists.
  - destruct split_msg as [|m msgs].
    { cbn. eexists _, _, _. split; [done|]. left. by eexists. }
    cbn [Esme.sar_loop]. cbv zeta. rewrite run_bind.
    set (params := <["sar_params" := _]> _).
    destruct (run_submit_sm_fails self params m e w1) as (w2 & tr & -> & Hnone).
    { subst params. by rewrite lookup_insert_ne, lookup_insert_eq. }
    { unfold segment_error. subst params.
      by rewrite !ussd_options_insert, Hussd. }
    eexists _, _, _. split; [done|]. right. by apply nothing_sent_randint.
Qed.

Lemma udh_header_ranges (ref_num total i : Z) (header : string) :
  Esme.udh_header ref_num total i = Py.Ok header →
  0 ≤ ref_num < 256 ∧ 0 ≤ total < 256.
Proof.
  unfold Esme.udh_header, Py.chr.
  destruct (Z.leb_spec 0 ref_num), (Z.ltb_spec ref_num 256); cbn; try done.
  destruct (Z.leb_spec 0 total), (Z.ltb_spec total 256); cbn; try done.
  all: intros _; lia.
Qed.

Lemma run_submit_multipart_udh_all_or_nothing (self : EsmeTransceiver)
    (pdu_params : gmap string Py.PyVal) (w : W) :
  ∃ o w' tr,
    run h (Esme._submit_multipart_udh self pdu_params) w = (o, w', tr)
    ∧ ((∃ l, o = Returned l) ∨ nothing_sent tr).
Proof.
  unfold Esme._submit_multipart_udh.
  destruct (Py.dict_get pdu_params "short_message") as [message|e]; cbn [lift].
  2: { exists (Raised e), w, []. split; [done|]. by right. }
  change (Ret message ≫= ?f) with (f message). cbv beta zeta.
  destruct (Esme.split_msg_of _ message) as [split_msg|e] eqn:Hsplit; cbn [lift].
  2: { exists (Raised e), w, []. split; [done|]. by right. }
  change (Ret split_msg ≫= ?f) with (f split_msg). cbv beta.
  cbn [mbind Prog_bind bind call run]. destruct (h (randint 1 255) w) as [ref_num w1].
  cbn [reify].
  destruct split_msg as [|m msgs].
  { cbn. eexists _, _, _. split; [done|]. left. by eexists. }
  set (total := Z.of_nat (length (m :: msgs))).
  destruct (Esme.udh_header ref_num total 0) as [header|e] eqn:Hheader.
  2: { cbn [Esme.udh_loop]. cbv zeta. rewrite Hheader. cbn.
       eexists _, _, _. split; [done|]. by right. }
  destruct (udh_header_ranges _ _ _ _ Hheader) as [Href Htotal].
  destruct (segment_error pdu_params) as [e|] eqn:Herr.
  - cbn [Esme.udh_loop]. cbv zeta. rewrite Hheader. cbn [lift].
    change (Ret ?x ≫= ?f) with (f x). cbv beta. rewrite run_bind.
    set (params := <["short_message" := _]> _).
    destruct (run_submit_sm_fails self params (header +:+ m) e w1) as (w2 & tr & -> & Hnone).
    { subst params. by rewrite lookup_insert_eq. }
    { unfold segment_error in *. subst params.
      by rewrite !ussd_options_insert, !sar_options_insert. }
    eexists _, _, _. split; [done|]. right. by apply nothing_sent_randint.
  - destruct (run_udh_loop_returns self pdu_params ref_num total (m :: msgs)
                Herr Href Htotal 0 [] w1) as (l & w2 & tr & ->); [lia | subst total; lia |].
    eexists _, _, _. split; [done|]. left. by eexists.
Qed.

(** How [submit_sm] can end, with what it has written and recorded. *)
Lemma run_submit_sm_outcomes (self : EsmeTransceiver) (kwargs : gmap string Py.PyVal)
    (w : W) :
  ∃ o w' tr,
    run h (Esme.submit_sm self kwargs) w = (o, w', tr)
    ∧ match o with
      | Returned (ret_list l) =>
          l = pushed tr ∧ map sequence_number (sent_pdus tr) = l
      | _ => nothing_sent tr
      end.
Proof.
  unfold Esme.submit_sm.
  destruct (bool_decide (state self ∈ [BOUND_TX; BOUND_TRX])); cbn [negb].
  2: { cbn. destruct (h _ w) as [[] w1]. by eexists _, _, _. }
  cbv zeta. set (pdu_params := kwargs ∪ bind_params self).
  destruct (Py.dict_get pdu_params "short_message") as [message|e0]; cbn [lift];
    [|by eexists _, _, _].
  change (Ret message ≫= ?f) with (f message). cbv beta.
  destruct (Py.len message) as [n|e0]; cbn [lift]; [|by eexists _, _, _].
  change (Ret n ≫= ?f) with (f n). cbv beta.
  destruct ((GSM_MAX_SMS_BYTES <? n) && send_multipart_sar (config self)).
  { rewrite (run_map _ _ ret_list). unfold outcome, final, trace.
    destruct (run_submit_multipart_sar_all_or_nothing self pdu_params w)
      as (o & w' & tr & Hrun & Hcase).
    destruct (run_submit_multipart_sar_recorded h self pdu_params w)
      as (o' & w'' & tr' & Hrun' & (Hp & _) & Hret).
    rewrite Hrun in Hrun'. injection Hrun' as <- <- <-.
    rewrite Hrun. cbn [fst snd]. eexists _, _, _. split; [reflexivity|].
    destruct o as [l|e0].
    - destruct (Hret l eq_refl) as [-> _]. by rewrite Hp.
    - by destruct Hcase as [[l [=]]|]. }
  destruct ((GSM_MAX_SMS_BYTES <? n) && send_multipart_udh (config self)).
  { rewrite (run_map _ _ ret_list). unfold outcome, final, trace.
    destruct (run_submit_multipart_udh_all_or_nothing self pdu_params w)
      as (o & w' & tr & Hrun & Hcase).
    destruct (run_submit_multipart_udh_recorded h self pdu_params w)
      as (o' & w'' & tr' & Hrun' & (Hp & _) & Hret).
    rewrite Hrun in Hrun'. injection Hrun' as <- <- <-.
    rewrite Hrun. cbn [fst snd]. eexists _, _, _. split; [reflexivity|].
    destruct o as [l|e0].
    - destruct (Hret l eq_refl) as [-> _]. by rewrite Hp.
    - by destruct Hcase as [[l [=]]|]. }
  rewrite (run_map _ _ (λ sequence_number, ret_list [sequence_number])).
  unfold outcome, final, trace.
  destruct (run_submit_sm_any h self pdu_params w)
    as (seq & w1 & tr1 & _ & Hs & Hp & Hc & [[e1 ->] | (pdu & w' & count & -> & Hsn & _)]);
    cbn [fst snd]; eexists _, _, _; (split; [reflexivity|]); [done|].
  rewrite pushed_app, sent_pdus_app, Hs, Hp. cbn. by rewrite Hsn.
Qed.

(** [submit_sm] fails as a whole or not at all.  When the call ends with
    an exception (a missing [short_message], a [session_info] that is not
    a number, a header byte out of range, ...), no PDU has been written
    and nothing has been put on the unacked ledger: a multipart message
    is never sent in part. *)
Theorem submit_sm_all_or_nothing (self : EsmeTransceiver)
    (kwargs : gmap string Py.PyVal) (w : W) (e : Py.Exc) :
  outcome h (Esme.submit_sm self kwargs) w = Raised e →
  let tr := trace h (Esme.submit_sm self kwargs) w in
  sent_pdus tr = [] ∧ pushed tr = [] ∧ closed tr = false.
Proof.
  cbv zeta. unfold trace, outcome, Esme.submit_sm.
  destruct (bool_decide (state self ∈ [BOUND_TX; BOUND_TRX])); cbn [negb].
  2: { cbn. by destruct (h _ w) as [[] w1]. }
  cbv zeta. set (pdu_params := kwargs ∪ bind_params self).
  destruct (Py.dict_get pdu_params "short_message") as [message|e0]; cbn [lift]; [|done].
  change (Ret message ≫= ?f) with (f message). cbv beta.
  destruct (Py.len message) as [n|e0]; cbn [lift]; [|done].
  change (Ret n ≫= ?f) with (f n). cbv beta.
  destruct ((GSM_MAX_SMS_BYTES <? n) && send_multipart_sar (config self)).
  { rewrite (run_map _ _ ret_list). unfold outcome, final, trace.
    destruct (run_submit_multipart_sar_all_or_nothing self pdu_params w)
      as (o & w' & tr & -> & [[l ->] | Hnone]); cbn [fst snd]; [done|].
    by intros _. }
  destruct ((GSM_MAX_SMS_BYTES <? n) && send_multipart_udh (config self)).
  { rewrite (run_map _ _ ret_list). unfold outcome, final, trace.
    destruct (run_submit_multipart_udh_all_or_nothing self pdu_params w)
      as (o & w' & tr & -> & [[l ->] | Hnone]); cbn [fst snd]; [done|].
    by intros _. }
  rewrite (run_map _ _ (λ sequence_number, ret_list [sequence_number])).
  unfold outcome, final, trace.
  destruct (run_submit_sm_any h self pdu_params w)
    as (seq & w1 & tr1 & _ & Hs & Hp & Hc & [[e1 ->] | (pdu & w' & count & -> & _)]);
    cbn [fst snd]; [|done].
  by intros _.
Qed.

End AllOrNothing.

Lemma submit_sm_all_or_nothing_witness :
  sent_pdus
    (trace world_h
       (Esme.submit_sm (mkEsme (mkConfig false false false) ∅ BOUND_TRX "")
          (<["session_info" := Py.VStr "zz"]>
             (<["message_type" := Py.VStr "ussd"]> {["short_message" := Py.VStr "hi"]})))
       (plain_world empty_store))
  = [].
Proof.
  apply (submit_sm_all_or_nothing world_h
           (mkEsme (mkConfig false false false) ∅ BOUND_TRX "")
           (<["session_info" := Py.VStr "zz"]>
              (<["message_type" := Py.VStr "ussd"]> {["short_message" := Py.VStr "hi"]}))
           (plain_world empty_store) Py.ValueError).
  reflexivity.
Defined.

Section Single.
Context {W : Type} (h : ∀ c : Call, W → resp c * W).

Lemma lookup_builder_params (params : gmap string Py.PyVal) (k : string) :
  builder_params params !! k = if bool_decide (k ∈ popped_keys) then None else params !! k.
Proof.
  unfold builder_params, popped_keys.
  destruct (bool_decide _) eqn:Hk.
  - apply bool_decide_eq_true in Hk. rewrite !elem_of_cons, elem_of_nil in Hk.
    destruct Hk as [-> | [-> | [-> | [-> | []]]]];
      repeat first [apply lookup_delete_eq | rewrite lookup_delete_ne by done].
  - apply bool_decide_eq_false in Hk. rewrite !not_elem_of_cons in Hk.
    destruct Hk as (? & ? & ? & ? & _). by rewrite !lookup_delete_ne.
Qed.

(** The unsplit path of [submit_sm].  In BOUND_TX or BOUND_TRX, a byte
    string of at most 140 bytes, or of any length when neither multipart
    option is configured, with USSD and SAR keywords that are defined,
    goes out as one [submit_sm] PDU: a sequence number is drawn, the PDU
    is logged and written, its number is put on the ledger, and the call
    returns the one-element list of that number.  The PDU carries the
    whole message, in [short_message] or, when [send_long_messages] is
    set and the message is longer than 254 bytes, hex-encoded in
    [message_payload] with [short_message] None.  Its other parameters
    are the bind parameters overridden by the keyword arguments, without
    the four keywords [_submit_sm] keeps for itself. *)
Theorem submit_sm_single (self : EsmeTransceiver) (kwargs : gmap string Py.PyVal)
    (msg : string) (uo so : list (string * Py.PyVal)) (w : W) :
  state self = BOUND_TX ∨ state self = BOUND_TRX →
  (kwargs ∪ bind_params self) !! "short_message" = Some (Py.VStr msg) →
  (String.length msg ≤ 140)%nat
  ∨ (send_multipart_sar (config self) = false ∧ send_multipart_udh (config self) = false) →
  ussd_options (kwargs ∪ bind_params self) = Py.Ok uo →
  sar_options (kwargs ∪ bind_params self) = Py.Ok so →
  ∃ seq w1 tr1 w' count pdu,
    run h Esme.get_next_seq w = (Returned seq, w1, tr1)
    ∧ run h (Esme.submit_sm self kwargs) w
      = (Returned (ret_list [seq]), w', tr1 ++ segment_events pdu count)
    ∧ sent_pdus (trace h (Esme.submit_sm self kwargs) w) = [pdu]
    ∧ command_id pdu = "submit_sm"
    ∧ sequence_number pdu = seq
    ∧ mandatory_parameters pdu !! "short_message"
      = Some (if moved_to_payload self msg then Py.VNone else Py.VStr msg)
    ∧ optional_parameters pdu
      = uo ++ (if moved_to_payload self msg
               then [("message_payload", Py.VStr (Py.b2a_hex msg))] else []) ++ so
    ∧ (∀ k, k ∈ popped_keys → mandatory_parameters pdu !! k = None)
    ∧ (∀ k, k ∉ popped_keys → k ≠ "short_message" →
            mandatory_parameters pdu !! k
            = match kwargs !! k with
              | Some v => Some v
              | None => bind_params self !! k
              end).
Proof.
  intros Hstate Hmsg Hroute Hussd Hsar.
  set (params := kwargs ∪ bind_params self) in *.
  destruct (run_submit_sm_str h self params msg w Hmsg)
    as (seq & w1 & tr1 & Hseq & Hs & Hp & Hc & _ & Hrun).
  rewrite Hussd, Hsar in Hrun. destruct Hrun as (w' & count & Hrun).
  set (pdu := segment_pdu self params msg seq uo so) in *.
  assert (Hsubmit : run h (Esme.submit_sm self kwargs) w
                    = (Returned (ret_list [seq]), w', tr1 ++ segment_events pdu count)).
  { unfold Esme.submit_sm.
    rewrite bool_decide_eq_true_2 by (destruct Hstate as [-> | ->]; elem_solver).
    cbn [negb]. cbv zeta. fold params. unfold Py.dict_get. rewrite Hmsg. cbn [lift].
    change (Ret ?x ≫= ?f) with (f x). cbv beta. cbn [lift Py.len].
    change (Ret ?x ≫= ?f) with (f x). cbv beta.
    assert (Hsingle : (GSM_MAX_SMS_BYTES <? Z.of_nat (String.length msg))
                      && send_multipart_sar (config self) = false
                      ∧ (GSM_MAX_SMS_BYTES <? Z.of_nat (String.length msg))
                        && send_multipart_udh (config self) = false).
    { unfold GSM_MAX_SMS_BYTES. destruct Hroute as [Hlen | [-> ->]].
      - destruct (Z.ltb_spec 140 (Z.of_nat (String.length msg))); [lia | done].
      - by rewrite !andb_false_r. }
    destruct Hsingle as [-> ->].
    rewrite (run_map h _ (λ sequence_number, ret_list [sequence_number])).
    unfold outcome, final, trace. by rewrite Hrun. }
  exists seq, w1, tr1, w', count, pdu.
  split; [done|]. split; [done|].
  split. { unfold trace. rewrite Hsubmit. cbn [snd]. by rewrite sent_pdus_app, Hs. }
  subst pdu. unfold segment_pdu.
  destruct (moved_to_payload self msg); cbn [command_id sequence_number
    mandatory_parameters optional_parameters].
  - split; [done|]. split; [done|].
    split; [by rewrite lookup_insert_eq|]. split; [done|]. split.
    + intros k Hk. rewrite lookup_insert_ne.
      * by rewrite lookup_builder_params, bool_decide_eq_true_2.
      * intros <-. revert Hk. unfold popped_keys. elem_solver.
    + intros k Hk Hne. rewrite lookup_insert_ne by done.
      rewrite lookup_builder_params, bool_decide_eq_false_2 by done.
      subst params. rewrite lookup_union. by destruct (kwargs !! k), (bind_params self !! k).
  - split; [done|]. split; [done|].
    split. { by rewrite lookup_builder_params, bool_decide_eq_false_2
               by (unfold popped_keys; elem_solver). }
    split; [done|]. split.
    + intros k Hk. by rewrite lookup_builder_params, bool_decide_eq_true_2.
    + intros k Hk Hne.
      rewrite lookup_builder_params, bool_decide_eq_false_2 by done.
      subst params. rewrite lookup_union. by destruct (kwargs !! k), (bind_params self !! k).
Qed.

End Single.

Lemma submit_sm_single_witness :
  ∃ seq w1 tr1 w' count pdu,
    run world_h Esme.get_next_seq (plain_world empty_store) = (Returned seq, w1, tr1)
    ∧ run world_h
        (Esme.submit_sm
           (mkEsme (mkConfig true true false) {["system_id" := Py.VStr "vumi"]} BOUND_TX "")
           {["short_message" := Py.VStr "hello"]})
        (plain_world empty_store)
      = (Returned (ret_list [seq]), w', tr1 ++ segment_events pdu count)
    ∧ mandatory_parameters pdu !! "short_message" = Some (Py.VStr "hello").
Proof.
  destruct (submit_sm_single world_h
              (mkEsme (mkConfig true true false) {["system_id" := Py.VStr "vumi"]} BOUND_TX "")
              {["short_message" := Py.VStr "hello"]} "hello" [] []
              (plain_world empty_store))
    as (seq & w1 & tr1 & w' & count & pdu & H1 & H2 & _ & _ & _ & H3 & _).
  - by left.
  - reflexivity.
  - left. cbn. lia.
  - reflexivity.
  - reflexivity.
  - exists seq, w1, tr1, w', count, pdu. exact (conj H1 (conj H2 H3)).
Defined.

Section Payload.

Lemma a2b_hex_hex2 (c : ascii) (s : string) :
  a2b_hex (Py.hex2 c +:+ s) = String c (a2b_hex s).
Proof.
  unfold Py.hex2. rewrite !app_cons, app_nil. cbn [a2b_hex].
  pose proof (ord_range c) as Hc.
  rewrite !digit_value_hexdigit.
  - cbn [default]. unfold id. f_equal.
    rewrite <- (Z.div_mod (Py.ord c) 16) by lia.
    unfold Py.ord. by rewrite N2Z.id, ascii_N_embedding.
  - apply Z.mod_pos_bound. lia.
  - split; [apply Z.div_pos; lia | apply Z.div_lt_upper_bound; lia].
Qed.

Lemma length_b2a_hex (s : string) :
  String.length (Py.b2a_hex s) = (2 * String.length s)%nat.
Proof.
  induction s as [|c s IH]; [done|].
  cbn [Py.b2a_hex]. unfold Py.hex2. rewrite !app_cons, app_nil. cbn [String.length].
  rewrite IH. lia.
Qed.

Lemma b2a_hex_lower (s : string) :
  Py.all_chars Py.is_lower_hexdigit (Py.b2a_hex s) = true.
Proof.
  induction s as [|c s IH]; [done|].
  cbn [Py.b2a_hex]. unfold Py.hex2. rewrite !app_cons, app_nil. cbn [Py.all_chars].
  pose proof (ord_range c) as Hc.
  rewrite !hexdigit_lower, IH; [done| |].
  - apply Z.mod_pos_bound. lia.
  - split; [apply Z.div_pos; lia | apply Z.div_lt_upper_bound; lia].
Qed.

End Payload.

(** The text that [_submit_sm] puts in [message_payload] for a byte string
    is a lossless encoding: two lowercase hexadecimal digits for every
    byte, most significant first, from which the bytes are read back
    unchanged. *)
Theorem hex_payload_round_trip (message : string) :
  ∃ payload,
    Esme.hex_payload (Py.VStr message) = Py.Ok payload
    ∧ String.length payload = (2 * String.length message)%nat
    ∧ Py.all_chars Py.is_lower_hexdigit payload = true
    ∧ a2b_hex payload = message.
Proof.
  exists (Py.b2a_hex message). split; [done|].
  split; [apply length_b2a_hex|]. split; [apply b2a_hex_lower|].
  induction message as [|c s IH]; [done|].
  cbn [Py.b2a_hex]. by rewrite a2b_hex_hex2, IH.
Qed.

Section LinkCheck.
Context {W : Type} (h : ∀ c : Call, W → resp c * W).

(** [enquire_link].  In BOUND_TX, BOUND_RX or BOUND_TRX it draws a
    sequence number, writes one [enquire_link] PDU with that number and
    with the bind parameters overridden by the keyword arguments, and
    returns the number; the PDU is not written to the debug log and
    nothing is put on the unacked ledger.  In any other state it calls
    nothing and returns 0. *)
Theorem enquire_link_contract (self : EsmeTransceiver) (kwargs : gmap string Py.PyVal)
    (w : W) :
  if bool_decide (state self ∈ [BOUND_TX; BOUND_RX; BOUND_TRX])
  then ∃ seq w1 tr1 w2 pdu,
      run h Esme.get_next_seq w = (Returned seq, w1, tr1)
      ∧ run h (Esme.enquire_link self kwargs) w
        = (Returned seq, w2, tr1 ++ [(transport_write pdu, RUnit)])
      ∧ sent_pdus (trace h (Esme.enquire_link self kwargs) w) = [pdu]
      ∧ command_id pdu = "enquire_link"
      ∧ sequence_number pdu = seq
      ∧ (∀ k, mandatory_parameters pdu !! k
              = match kwargs !! k with
                | Some v => Some v
                | None => bind_params self !! k
                end)
      ∧ debug_lines (trace h (Esme.enquire_link self kwargs) w) = []
      ∧ pushed (trace h (Esme.enquire_link self kwargs) w) = []
  else run h (Esme.enquire_link self kwargs) w = (Returned 0, w, []).
Proof.
  destruct (bool_decide (state self ∈ [BOUND_TX; BOUND_RX; BOUND_TRX])) eqn:Hst;
    [|unfold Esme.enquire_link; by rewrite Hst].
  destruct (run_get_next_seq h w) as (seq & w1 & tr & Hseq & Hstore & Hpush).
  set (tr1 := (redis_incr "smpp_last_sequence_number", RInt seq) :: tr) in *.
  set (pdu := Builder.EnquireLink seq (kwargs ∪ bind_params self)).
  assert (Hrun : ∃ w2, run h (Esme.enquire_link self kwargs) w
                       = (Returned seq, w2, tr1 ++ [(transport_write pdu, RUnit)])).
  { unfold Esme.enquire_link. rewrite Hst, run_bind, Hseq. cbv zeta. fold pdu.
    unfold Esme.send_pdu.
    rewrite bool_decide_eq_true_2 by (subst pdu; cbn; set_solver).
    cbn. destruct (h (transport_write pdu) w1) as [[] w2]. by exists w2. }
  destruct Hrun as [w2 Hrun].
  assert (Hs : sent_pdus tr1 = []) by (unfold sent_pdus; cbn; by apply store_only_sent).
  assert (Hd : debug_lines tr1 = [])
    by (unfold debug_lines; cbn; by apply store_only_debug).
  assert (Hp : pushed tr1 = []) by (unfold pushed; cbn; by apply pushed_none).
  exists seq, w1, tr1, w2, pdu.
  split; [done|]. split; [done|].
  unfold trace. rewrite Hrun. cbn [snd].
  rewrite sent_pdus_app, debug_lines_app, pushed_app, Hs, Hd, Hp.
  split; [done|]. split; [done|]. split; [done|].
  split; [|done].
  intros k. subst pdu. cbn [Builder.EnquireLink mandatory_parameters].
  rewrite lookup_union. by destruct (kwargs !! k), (bind_params self !! k).
Qed.

End LinkCheck.

Section ResetStore.

Lemma setnx_spec key v s :
  Redis.setnx key v s
  = (bool_decide (ints s !! key = None),
     mkStore (<[key := default (v, None) (ints s !! key)]> (ints s)) (lists s)).
Proof.
  unfold Redis.setnx. destruct (ints s !! key) as [x|] eqn:Hk; cbn; [|done].
  rewrite insert_id by done. by destruct s.
Qed.

Lemma ttl_insert key x m l :
  Redis.ttl key (mkStore (<[key := x]> m) l)
  = match x.2 with Some t => t | None => -1 end.
Proof. unfold Redis.ttl. cbn. rewrite lookup_insert_eq. by destruct x as [v [t|]]. Qed.

Lemma expire_insert key x n m l :
  Redis.expire key n (mkStore (<[key := x]> m) l)
  = mkStore (<[key := (x.1, Some n)]> m) l.
Proof.
  unfold Redis.expire. cbn. rewrite lookup_insert_eq. destruct x as [v t]. cbn.
  by rewrite insert_insert_eq.
Qed.

End ResetStore.

(** What the resetter leaves in the store.  After any run of
    [_reset_seq_counter] the lock exists and has a time to live: a free
    lock is taken and given 10 seconds; a lock left without a time to live
    (or with a negative one) by an earlier holder is given 10 seconds; a
    lock with time left keeps it.  The resetter never releases the lock
    itself.  The counter is deleted exactly when the lock was free and the
    counter had reached [0xFFFF0000], and is otherwise as it was.  The
    unacked ledger and the transport are not touched. *)
Theorem reset_seq_counter_store (w : World) :
  let w' := final world_h Esme._reset_seq_counter w in
  ints (store w') !! "smpp_last_sequence_number_wrap"
  = Some (match ints (store w) !! "smpp_last_sequence_number_wrap" with
          | None => (1, Some 10)
          | Some (v, None) => (v, Some 10)
          | Some (v, Some t) => (v, Some (if t <? 0 then 10 else t))
          end)
  ∧ Redis.get "smpp_last_sequence_number" (store w')
    = (if lock_free w && (0xFFFF0000 <=? counter w) then None
       else Redis.get "smpp_last_sequence_number" (store w))
  ∧ lock_held w'
  ∧ unacked w' = unacked w
  ∧ written w' = written w
  ∧ connection_lost w' = connection_lost w.
Proof.
  cbv zeta. unfold final, Esme._reset_seq_counter, lock_free, counter, lock_held, unacked.
  cbn -[Redis.incr Redis.setnx Redis.ttl Redis.expire Redis.get Redis.delete Z.leb Z.ltb].
  rewrite setnx_spec.
  cbn -[Redis.incr Redis.setnx Redis.ttl Redis.expire Redis.get Redis.delete Z.leb Z.ltb].
  rewrite ttl_insert.
  destruct (ints (store w) !! "smpp_last_sequence_number_wrap") as [[v [t|]]|] eqn:Hlock.
  all: cbn -[Redis.incr Redis.setnx Redis.ttl Redis.expire Redis.get Redis.delete Z.leb Z.ltb].
  1: destruct (Z.ltb_spec t 0) as [Hneg|Hpos].
  all: change (-1 <? 0) with true.
  all: cbn -[Redis.incr Redis.setnx Redis.ttl Redis.expire Redis.get Redis.delete Z.leb Z.ltb].
  all: rewrite ?expire_insert.
  all: cbn -[Redis.incr Redis.setnx Redis.ttl Redis.expire Redis.get Redis.delete Z.leb Z.ltb].
  4: { (* the lock was free: the counter is read *)
    assert (Hget : Redis.get "smpp_last_sequence_number"
                     {| ints := <["smpp_last_sequence_number_wrap" := (1, Some 10)]>
                                  (ints (store w));
                        lists := lists (store w) |}
                   = Redis.get "smpp_last_sequence_number" (store w)).
    { unfold Redis.get. cbn. by rewrite lookup_insert_ne. }
    rewrite Hget.
    destruct (Redis.get "smpp_last_sequence_number" (store w)) as [c|] eqn:Hc;
      cbn [Py.lt_opt default].
    2: { cbn -[Redis.get Redis.delete]. rewrite ?lookup_insert_eq, ?Hget, ?Hc.
         repeat split. exists 1, 10. split; [by rewrite ?lookup_insert_eq | lia]. }
    unfold id.
    destruct (Z.ltb_spec c 4294901760) as [Hlow|Hhigh];
      (destruct (Z.leb_spec 4294901760 c) as [Hge|Hlt]; [|]); try lia.
    - cbn -[Redis.get Redis.delete]. rewrite ?lookup_insert_eq, ?Hget, ?Hc.
      repeat split. exists 1, 10. split; [by rewrite ?lookup_insert_eq | lia].
    - cbn -[Redis.get Redis.delete]. rewrite get_delete.
      unfold Redis.delete. cbn. rewrite !lookup_delete_ne, lookup_insert_eq by done.
      repeat split. exists 1, 10. split; [done | lia]. }
  all: rewrite lookup_insert_eq.
  all: assert (Hget : ∀ x, Redis.get "smpp_last_sequence_number"
                     {| ints := <["smpp_last_sequence_number_wrap" := x]>
                                  (ints (store w));
                        lists := lists (store w) |}
                   = Redis.get "smpp_last_sequence_number" (store w))
         by (intros x; unfold Redis.get; cbn; by rewrite lookup_insert_ne).
  all: rewrite Hget.
  all: repeat split.
  all: eexists _, _; split; [done | lia].
Qed.

Section TaskFacts.
Context {W : Type} (h : ∀ c : Hook, W → answer c * W).

Lemma run_task_bind {A B} (p : Task A) (f : A → Task B) (w : W) :
  run_task h (p ≫= f) w
  = match run_task h p w with
    | (Returned a, w1, t1) =>
        let '(o, w2, t2) := run_task h (f a) w1 in (o, w2, t1 ++ t2)
    | (Raised e, w1, t1) => (Raised e, w1, t1)
    end.
Proof.
  revert w. induction p as [a | e | c k IH]; intros w.
  - change (Done a ≫= f) with (f a). cbn [run_task].
    by destruct (run_task h (f a) w) as [[o w2] t2].
  - done.
  - change (Ask c k ≫= f) with (Ask c (λ r, k r ≫= f)). cbn [run_task].
    destruct (h c w) as [r w1]. rewrite IH.
    destruct (run_task h (k r) w1) as [[[a | e] w2] t1]; [|done].
    by destruct (run_task h (f a) w2) as [[o w3] t2].
Qed.

Lemma run_task_embed {A} (p : Prog A) (w : W) :
  run_task h (embed p) w
  = let '(o, w', tr) := run (core_h h) p w in (o, w', map core_step tr).
Proof.
  revert w. induction p as [a | e | c k IH]; intros w; [done | done |].
  cbn [embed run_task run]. unfold core_h at 1.
  destruct (h (core c) w) as [r w1]. rewrite IH.
  by destruct (run (core_h h) (k r) w1) as [[o w2] tr].
Qed.

Lemma run_task_ask (c : Hook) {B} (f : answer c → Task B) (w : W) :
  run_task h (ask c ≫= f) w
  = let '(r, w1) := h c w in
    let '(o, w2, tr) := run_task h (f r) w1 in
    (o, w2, (c, reify_answer c r) :: tr).
Proof. done. Qed.

End TaskFacts.

Section Dispatch.
Context {W : Type} (h : ∀ c : Hook, W → answer c * W).

(** A PDU whose command has no handler is logged and dropped.  When the
    codec makes of a frame a PDU whose command is not the name of a
    handler of the class (for a transceiver this includes the bind
    responses of the other two classes), [handle_data] writes the two
    lines of the incoming PDU to the debug log and one line to the error
    log; nothing is written to the transport, the store is not touched,
    no exception is raised and the session is as it was. *)
Theorem handle_data_unknown_command (self : Protocol) (data : string) (pdu : PDU)
    (w : W) :
  (h (unpack_pdu (inl data)) w).1 = Py.Ok pdu →
  command_id pdu ∉ handler_names (role self) →
  ∃ w',
    run_task h (Session.handle_data self data) w
    = (Returned self, w',
       [(unpack_pdu (inl data), APdu (Py.Ok pdu));
        (core (log_debug "INCOMING <<<< %s"), ACore RUnit);
        (core (log_debug "INCOMING <<<< %s"), ACore RUnit);
        (core (log_err "No command handler available for %s"), ACore RUnit)]).
Proof.
  intros Hcodec Hnone. unfold Session.handle_data.
  cbn [mbind Task_bind task_bind ask run_task].
  destruct (h (unpack_pdu (inl data)) w) as [r w1]. cbn [fst] in Hcodec. subst r.
  cbn [lift_task task_bind].
  change (task_bind ?p ?f) with (p ≫= f).
  change (Done pdu ≫= ?f) with (f pdu). cbv beta.
  unfold handler_names in Hnone. rewrite elem_of_app, !elem_of_cons, elem_of_nil in Hnone.
  rewrite bool_decide_eq_false_2 by (rewrite !elem_of_cons, elem_of_nil; tauto).
  assert (Hd : Session.dispatch Session.handle_data_of_pdu self pdu
               = Session._command_handler_not_found self pdu).
  { unfold Session.dispatch. cbv zeta.
    assert (Hne : ∀ s, command_id pdu ≠ s → String.eqb (command_id pdu) s = false)
      by (intros s; apply String.eqb_neq).
    assert (Hbt : String.eqb (command_id pdu) "bind_transmitter_resp"
                  && bool_decide (role self = Transmitter) = false).
    { destruct (String.eqb_spec (command_id pdu) "bind_transmitter_resp") as [Ht|_];
        [|done].
      cbn [andb]. apply bool_decide_eq_false. intros Hrole. apply Hnone. right.
      rewrite Hrole, Ht. apply list_elem_of_here. }
    assert (Hbr : String.eqb (command_id pdu) "bind_receiver_resp"
                  && bool_decide (role self = Receiver) = false).
    { destruct (String.eqb_spec (command_id pdu) "bind_receiver_resp") as [Ht|_];
        [|done].
      cbn [andb]. apply bool_decide_eq_false. intros Hrole. apply Hnone. right.
      rewrite Hrole, Ht. apply list_elem_of_here. }
    rewrite Hbt, Hbr. by rewrite !Hne by tauto. }
  rewrite Hd. cbn.
  destruct (h (core (log_debug _)) w1) as [[] w2].
  destruct (h (core (log_debug _)) w2) as [[] w3].
  destruct (h (core (log_err _)) w3) as [[] w4].
  by exists w4.
Qed.

(** The link check is answered in every state and never reaches the
    debug log.  For a frame that the codec reads as an [enquire_link],
    [handle_data] logs nothing of the incoming PDU; with status ESME_ROK
    it writes one [enquire_link_resp] with the sequence number of the
    request, which [send_pdu] does not log either; with another status
    it writes nothing.  The session is as it was, whatever its state. *)
Theorem handle_data_enquire_link (self : Protocol) (data : string) (pdu : PDU) (w : W) :
  (h (unpack_pdu (inl data)) w).1 = Py.Ok pdu →
  command_id pdu = "enquire_link" →
  ∃ w',
    run_task h (Session.handle_data self data) w
    = (Returned self, w',
       (unpack_pdu (inl data), APdu (Py.Ok pdu))
       :: (if String.eqb (command_status pdu) "ESME_ROK"
           then [(core (log_msg "enquire_link OK"), ACore RUnit);
                 (core (transport_write
                          (Replies.EnquireLinkResp (sequence_number pdu))),
                  ACore RUnit)]
           else [(core (log_msg "enquire_link NOT OK: %r"), ACore RUnit)])).
Proof.
  intros Hcodec Hcmd. unfold Session.handle_data.
  cbn [mbind Task_bind task_bind ask run_task].
  destruct (h (unpack_pdu (inl data)) w) as [r w1]. cbn [fst] in Hcodec. subst r.
  cbn [lift_task task_bind].
  change (task_bind ?p ?f) with (p ≫= f).
  change (Done pdu ≫= ?f) with (f pdu). cbv beta.
  rewrite bool_decide_eq_true_2 by (rewrite Hcmd; set_solver).
  change (mret () ≫= ?f) with (f ()). cbv beta.
  unfold Session.dispatch. rewrite Hcmd. cbn [String.eqb Ascii.eqb Bool.eqb andb].
  unfold Session.handle_enquire_link.
  destruct (String.eqb (command_status pdu) "ESME_ROK"); cbn.
  - hstep h w1 as [[] w2]. unfold Esme.send_pdu.
    rewrite bool_decide_eq_true_2 by (cbn; set_solver). cbn.
    hstep h w2 as [[] w3]. by exists w3.
  - hstep h w1 as [[] w2]. by exists w2.
Qed.

(** [unbind]: for a frame that the codec reads as an [unbind],
    [handle_data] writes one [unbind_resp] with the sequence number of
    the request and then closes the transport, in that order, whatever
    the state and the status; the state of the session is not changed
    by the handler itself. *)
Theorem handle_data_unbind (self : Protocol) (data : string) (pdu : PDU) (w : W) :
  (h (unpack_pdu (inl data)) w).1 = Py.Ok pdu →
  command_id pdu = "unbind" →
  ∃ w',
    run_task h (Session.handle_data self data) w
    = (Returned self, w',
       [(unpack_pdu (inl data), APdu (Py.Ok pdu));
        (core (log_debug "INCOMING <<<< %s"), ACore RUnit);
        (core (log_debug "INCOMING <<<< %s"), ACore RUnit);
        (core (log_debug "OUTGOING >>>> %s"), ACore RUnit);
        (core (transport_write (Replies.UnbindResp (sequence_number pdu))), ACore RUnit);
        (core transport_loseConnection, ACore RUnit)]).
Proof.
  intros Hcodec Hcmd. unfold Session.handle_data.
  cbn [mbind Task_bind task_bind ask run_task].
  destruct (h (unpack_pdu (inl data)) w) as [r w1]. cbn [fst] in Hcodec. subst r.
  cbn [lift_task task_bind].
  change (task_bind ?p ?f) with (p ≫= f).
  change (Done pdu ≫= ?f) with (f pdu). cbv beta.
  rewrite bool_decide_eq_false_2 by (rewrite Hcmd; set_solver).
  unfold Session.dispatch. rewrite Hcmd. cbn [String.eqb Ascii.eqb Bool.eqb andb].
  unfold Session.handle_unbind. rewrite send_pdu_logged by done. cbn.
  hstep h w1 as [[] w2].
  hstep h w2 as [[] w3].
  hstep h w3 as [[] w4].
  hstep h w4 as [[] w5].
  hstep h w5 as [[] w6].
  by exists w6.
Qed.

End Dispatch.

Section Lifecycle.
Context {W : Type} (h : ∀ c : Hook, W → answer c * W).

Lemma send_bind_pdu (role : Role) (seq : Z) (kwargs : gmap string Py.PyVal) :
  Esme.send_pdu (BIND_PDU role seq kwargs)
  = Vis (log_debug "OUTGOING >>>> %s")
        (λ _, Vis (transport_write (BIND_PDU role seq kwargs)) Ret).
Proof. apply send_pdu_logged; by destruct role. Qed.

(** [connectionMade]: the session goes to OPEN, a sequence number is
    drawn, the bind request of the class with that number and the bind
    parameters is logged and written, and the bind timeout is armed last:
    a delayed call after [smpp_bind_timeout] seconds that will ask for
    the connected state of the class, kept in [_lose_conn]. *)
Theorem connectionMade_binds (self : Protocol) (w : W) :
  ∃ seq delayed w1 w2 w' tr1,
    run (core_h h) Esme.get_next_seq w1 = (Returned seq, w2, tr1)
    ∧ run_task h (Session.connectionMade self) w
      = (Returned (opened self delayed), w',
         (core (log_msg "STATE: %s"), ACore RUnit)
         :: map core_step tr1
         ++ [(core (log_msg "%s"), ACore RUnit);
             (core (log_debug "OUTGOING >>>> %s"), ACore RUnit);
             (core (transport_write
                      (BIND_PDU (role self) seq (bind_params (esme self)))),
              ACore RUnit);
             (callLater (smpp_bind_timeout self) (CONNECTED_STATE (role self)),
              AObject delayed)])
    ∧ command_id (BIND_PDU (role self) seq (bind_params (esme self)))
      = match role self with
        | Transceiver => "bind_transceiver"
        | Transmitter => "bind_transmitter"
        | Receiver => "bind_receiver"
        end.
Proof.
  unfold Session.connectionMade. cbv zeta.
  cbn [mbind Task_bind task_bind ask run_task].
  destruct (h (core (log_msg "STATE: %s")) w) as [[] w1].
  change (task_bind ?p ?f) with (p ≫= f).
  rewrite run_task_bind, run_task_embed.
  destruct (run_get_next_seq (core_h h) w1) as (seq & w2 & tr & Hseq & _).
  rewrite Hseq.
  cbn [set_state role esme bind_params].
  rewrite send_bind_pdu.
  unfold Session.schedule_lose_connection.
  cbn [mbind Task_bind task_bind ask run_task embed mret Task_ret].
  destruct (h (core (log_msg "%s")) w2) as [[] w3].
  destruct (h (core (log_debug _)) w3) as [[] w4].
  hstep h w4 as [[] w5].
  hstep h w5 as [delayed w6].
  exists seq, delayed, w1, w2, w6, ((redis_incr "smpp_last_sequence_number", RInt seq) :: tr).
  split; [done|]. split; [done|]. by destruct (role self).
Qed.

(** The bind handshake and its timeout.  For a session that
    [connectionMade] has left in OPEN with the bind timeout pending, and
    a PDU that is the bind response of its class: with status ESME_ROK
    the session goes to the connected state of the class, the link check
    is created and started with [smpp_enquire_link_interval], the pending
    timeout is cancelled and forgotten and the [connect] callback is
    called; with any other status nothing changes and the timeout stays
    armed.  Should the timeout fire after that, it closes the transport
    exactly in the second case. *)
Theorem bind_handshake (self : Protocol) (delayed : nat) (pdu : PDU)
    (on_data : Protocol → PDU → Task Protocol) (w : W) :
  command_id pdu = bind_response (role self) →
  let bound := CONNECTED_STATE (role self) in
  ∃ after w1 tr,
    run_task h (Session.dispatch on_data (opened self delayed) pdu) w
    = (Returned after, w1, tr)
    ∧ (if String.eqb (command_status pdu) "ESME_ROK"
       then ∃ lc,
           after = set_lose_conn
                     (set_lc_enquire (set_state (opened self delayed) bound) (Some lc))
                     None
           ∧ hooks tr = [LoopingCall; lc_start lc (smpp_enquire_link_interval self);
                         delayed_cancel delayed; callbacks_connect;
                         core (log_msg "STATE: %s")]
       else after = opened self delayed
            ∧ hooks tr = [core (log_msg "STATE: %s")])
    ∧ ∀ w2, ∃ w3 tr3 final,
        run_task h (Session.lose_unbound_connection after bound) w2
        = (Returned final, w3, tr3)
        ∧ _lose_conn final = None
        ∧ (core transport_loseConnection ∈ hooks tr3
           ↔ command_status pdu ≠ "ESME_ROK").
Proof.
  intros Hcmd bound.
  assert (Hd : Session.dispatch on_data (opened self delayed) pdu
               = Session.handle_bind_resp bound (opened self delayed) pdu).
  { unfold Session.dispatch. cbv zeta. rewrite Hcmd. subst bound.
    cbn [opened set_lose_conn set_state role].
    by destruct (role self). }
  rewrite Hd. clear Hd. unfold Session.handle_bind_resp.
  destruct (String.eqb_spec (command_status pdu) "ESME_ROK") as [Hok|Hno].
  - unfold Session.start_enquire_link, Session.cancel_drop_connection_call.
    cbn -[bound].
    hstep h w as [lc w1]. hstep h w1 as [[] w2]. hstep h w2 as [[] w3].
    hstep h w3 as [[] w4]. hstep h w4 as [[] w5].
    eexists _, w5, _. split; [reflexivity|]. split.
    { exists lc. done. }
    intros w2'. unfold Session.lose_unbound_connection.
    cbn [set_lose_conn set_lc_enquire set_state opened esme state].
    rewrite bool_decide_eq_true_2 by done. cbn.
    hstep h w2' as [[] w3']. eexists w3', _, _. split; [reflexivity|].
    split; [done|]. cbn. split; [|done].
    rewrite elem_of_cons, elem_of_nil. by intros [|].
  - cbn -[bound]. hstep h w as [[] w1].
    eexists _, w1, _. split; [reflexivity|]. split; [done|].
    intros w2. unfold Session.lose_unbound_connection.
    cbn [set_lose_conn set_lc_enquire set_state opened esme state].
    rewrite bool_decide_eq_false_2 by (subst bound; by destruct (role self)).
    cbn. hstep h w2 as [[] w3]. hstep h w3 as [[] w4].
    eexists w4, _, _. split; [reflexivity|]. split; [done|]. cbn.
    split; [done|]. intros _. apply list_elem_of_further, list_elem_of_here.
Qed.

(** [connectionLost], from any state of the session: the state becomes
    CLOSED; the link check is stopped exactly when it exists and reports
    to be running; the pending bind timeout, if any, is cancelled and
    forgotten; the [disconnect] callback is called exactly once, as the
    last thing; nothing is written to the transport and the store is not
    touched. *)
Theorem connectionLost_cleans_up (self : Protocol) (w : W) :
  ∃ after w' tr,
    run_task h (Session.connectionLost self) w = (Returned after, w', tr)
    ∧ after = set_lose_conn (set_state self CLOSED) None
    ∧ last (hooks tr) = Some callbacks_disconnect
    ∧ length (List.filter is_disconnect (hooks tr)) = 1%nat
    ∧ (∀ d, delayed_cancel d ∈ hooks tr ↔ _lose_conn self = Some d)
    ∧ (∀ lc, lc_stop lc ∈ hooks tr
             ↔ lc_enquire self = Some lc ∧ (lc_running lc, ACore (RBool true)) ∈ tr)
    ∧ (∀ c, core c ∈ hooks tr → ∃ text, c = log_msg text).
Proof.
  unfold Session.connectionLost, Session.stop_enquire_link,
    Session.cancel_drop_connection_call. cbv zeta.
  destruct self as [e r bt li lose lc]. cbn [set_state lc_enquire _lose_conn
    esme role smpp_bind_timeout smpp_enquire_link_interval set_lose_conn].
  destruct lc as [lc|]; destruct lose as [d|]; cbn.
  1,2: hstep h w as [running w1]; destruct running; cbn.
  all: repeat match goal with
              | |- context [h ?c ?w0] =>
                  lazymatch w0 with
                  | _ => is_var w0; destruct (h c w0) as [[] ?]
                  end
              end.
  all: eexists _, _, _; split; [reflexivity|].
  all: split; [done|]. all: split; [done|]. all: split; [done|].
  all: cbn; repeat split; intros; rewrite ?elem_of_cons, ?elem_of_nil in *.
  all: try naive_solver.
Qed.

(** A frame that the codec cannot read ends the PDU loop.  When the
    queue hands [_process_pdu_queue] a frame on which [unpack_pdu]
    raises, the exception leaves [handle_data] and the loop: the
    coroutine ends with that exception and the queue is not read again,
    so the frames that follow are never handled.  The same holds for any
    exception that leaves [handle_data]. *)
Theorem process_pdu_queue_ends_on_error (self : Protocol) (frame : string)
    (e : Py.Exc) (fuel : nat) (w : W) :
  (h queue_get w).1 = Some frame →
  (h (unpack_pdu (inl frame)) (h queue_get w).2).1 = Py.Err e →
  ∃ w',
    run_task h (Session._process_pdu_queue (S fuel) self) w
    = (Raised e, w',
       [(queue_get, AData (Some frame));
        (unpack_pdu (inl frame), APdu (Py.Err e))])
    ∧ ∀ (w0 w1 : W) (tr : list Step) (e0 : Py.Exc),
        run_task h (Session.handle_data self frame) w0 = (Raised e0, w1, tr) →
        run_task h (Session.process_loop (S fuel) self (Some frame)) w0
        = (Raised e0, w1, tr).
Proof.
  intros Hq Hc. unfold Session._process_pdu_queue.
  cbn [mbind Task_bind task_bind ask run_task].
  destruct (h queue_get w) as [data w1]. cbn [fst snd] in Hq, Hc. subst data.
  change (task_bind ?p ?f) with (p ≫= f).
  change (Done (Some frame) ≫= ?f) with (f (Some frame)). cbv beta.
  cbn [Session.process_loop].
  assert (Hstop : ∀ (w0 w2 : W) (tr : list Step) (e0 : Py.Exc),
             run_task h (Session.handle_data self frame) w0 = (Raised e0, w2, tr) →
             run_task h
               (Session.handle_data self frame
                ≫= λ self0, ask queue_get
                ≫= λ data, Session.process_loop fuel self0 data) w0
             = (Raised e0, w2, tr)).
  { intros w0 w2 tr e0 Hrun.
    by rewrite (run_task_bind h (Session.handle_data self frame)), Hrun. }
  assert (Hdata : ∃ w2, run_task h (Session.handle_data self frame) w1
                        = (Raised e, w2, [(unpack_pdu (inl frame), APdu (Py.Err e))])).
  { unfold Session.handle_data.
    cbn [mbind Task_bind task_bind ask run_task].
    destruct (h (unpack_pdu (inl frame)) w1) as [r w2]. cbn [fst] in Hc. subst r.
    by exists w2. }
  destruct Hdata as [w2 Hdata]. exists w2. split; [|exact Hstop].
  by rewrite (Hstop _ _ _ _ Hdata).
Qed.

End Lifecycle.

Lemma handle_data_unknown_command_witness :
  ∃ w',
    run_task outside_h (Session.handle_data new_transceiver "frame")
      (quiet_outside (mkPDU "bind_receiver_resp" "ESME_ROK" 1 ∅ []))
    = (Returned new_transceiver, w',
       [(unpack_pdu (inl "frame"),
         APdu (Py.Ok (mkPDU "bind_receiver_resp" "ESME_ROK" 1 ∅ [])));
        (core (log_debug "INCOMING <<<< %s"), ACore RUnit);
        (core (log_debug "INCOMING <<<< %s"), ACore RUnit);
        (core (log_err "No command handler available for %s"), ACore RUnit)]).
Proof.
  apply (handle_data_unknown_command outside_h new_transceiver "frame"
           (mkPDU "bind_receiver_resp" "ESME_ROK" 1 ∅ [])
           (quiet_outside (mkPDU "bind_receiver_resp" "ESME_ROK" 1 ∅ []))).
  - reflexivity.
  - vm_compute. intros H. repeat (apply elem_of_cons in H as [H|H]; [discriminate H|]).
    by apply elem_of_nil in H.
Defined.

Lemma handle_data_enquire_link_witness :
  ∃ w',
    run_task outside_h (Session.handle_data new_transceiver "frame")
      (quiet_outside (mkPDU "enquire_link" "ESME_ROK" 7 ∅ []))
    = (Returned new_transceiver, w',
       [(unpack_pdu (inl "frame"), APdu (Py.Ok (mkPDU "enquire_link" "ESME_ROK" 7 ∅ [])));
        (core (log_msg "enquire_link OK"), ACore RUnit);
        (core (transport_write (Replies.EnquireLinkResp 7)), ACore RUnit)]).
Proof.
  apply (handle_data_enquire_link outside_h new_transceiver "frame"
           (mkPDU "enquire_link" "ESME_ROK" 7 ∅ [])
           (quiet_outside (mkPDU "enquire_link" "ESME_ROK" 7 ∅ []))).
  - reflexivity.
  - reflexivity.
Defined.

Lemma handle_data_unbind_witness :
  ∃ w',
    run_task outside_h (Session.handle_data new_transceiver "frame")
      (quiet_outside (mkPDU "unbind" "ESME_ROK" 7 ∅ []))
    = (Returned new_transceiver, w',
       [(unpack_pdu (inl "frame"), APdu (Py.Ok (mkPDU "unbind" "ESME_ROK" 7 ∅ [])));
        (core (log_debug "INCOMING <<<< %s"), ACore RUnit);
        (core (log_debug "INCOMING <<<< %s"), ACore RUnit);
        (core (log_debug "OUTGOING >>>> %s"), ACore RUnit);
        (core (transport_write (Replies.UnbindResp 7)), ACore RUnit);
        (core transport_loseConnection, ACore RUnit)]).
Proof.
  apply (handle_data_unbind outside_h new_transceiver "frame"
           (mkPDU "unbind" "ESME_ROK" 7 ∅ [])
           (quiet_outside (mkPDU "unbind" "ESME_ROK" 7 ∅ []))).
  - reflexivity.
  - reflexivity.
Defined.

Lemma bind_handshake_witness :
  ∃ after w1 tr,
    run_task outside_h
      (Session.dispatch Session.handle_data_of_pdu (opened new_transceiver 0)
         (mkPDU "bind_transceiver_resp" "ESME_ROK" 1 ∅ []))
      (quiet_outside (mkPDU "bind_transceiver_resp" "ESME_ROK" 1 ∅ []))
    = (Returned after, w1, tr)
    ∧ state (esme after) = BOUND_TRX
    ∧ _lose_conn after = None.
Proof.
  destruct (bind_handshake outside_h new_transceiver 0
              (mkPDU "bind_transceiver_resp" "ESME_ROK" 1 ∅ [])
              Session.handle_data_of_pdu
              (quiet_outside (mkPDU "bind_transceiver_resp" "ESME_ROK" 1 ∅ [])))
    as (after & w1 & tr & Hrun & (lc & -> & _) & _).
  - reflexivity.
  - by eexists _, _, _.
Defined.

Lemma process_pdu_queue_ends_on_error_witness :
  ∃ w',
    run_task outside_h (Session._process_pdu_queue 3 new_transceiver)
      (mkOutside (plain_world empty_store) (λ _, Py.Err Py.ValueError)
                 [Some "bad"; Some "good"; None] O [] [] [])
    = (Raised Py.ValueError, w',
       [(queue_get, AData (Some "bad"));
        (unpack_pdu (inl "bad"), APdu (Py.Err Py.ValueError))]).
Proof.
  destruct (process_pdu_queue_ends_on_error outside_h new_transceiver "bad"
              Py.ValueError 2
              (mkOutside (plain_world empty_store) (λ _, Py.Err Py.ValueError)
                         [Some "bad"; Some "good"; None] O [] [] []))
    as (w' & Hrun & _).
  - reflexivity.
  - reflexivity.
  - by exists w'.
Defined.

Section Calls.
Context {W : Type} (h : ∀ c : Call, W → resp c * W).

Lemma all_calls_bind {A B} (P : Call → Prop) (p : Prog A) (f : A → Prog B) :
  all_calls P p → (∀ a, all_calls P (f a)) → all_calls P (p ≫= f).
Proof.
  intros Hp Hf. induction p as [a | e | c k IH]; [apply Hf | done |].
  destruct Hp as [Hc Hk]. split; [done|]. intros r. by apply IH.
Qed.

Lemma all_calls_lift {A} (P : Call → Prop) (r : Py.Result A) : all_calls P (lift r).
Proof. by destruct r. Qed.

Lemma all_calls_trace {A} (P : Call → Prop) (p : Prog A) (w : W) :
  all_calls P p → Forall (λ e, P (ev_call e)) (trace h p w).
Proof.
  unfold trace. revert w. induction p as [a | e | c k IH]; intros w Hp;
    [constructor | constructor |].
  destruct Hp as [Hc Hk]. cbn [run]. destruct (h c w) as [r w1].
  specialize (IH r w1 (Hk r)). destruct (run h (k r) w1) as [[o w2] tr].
  by constructor.
Qed.

End Calls.

Section LedgerCalls.

Lemma get_next_seq_keeps_ledger : all_calls keeps_ledger Esme.get_next_seq.
Proof. unfold Esme.get_next_seq, Esme._reset_seq_counter. repeat calls_step @all_calls_lift @all_calls_bind. Qed.

Lemma send_pdu_keeps_ledger pdu : all_calls keeps_ledger (Esme.send_pdu pdu).
Proof. unfold Esme.send_pdu. repeat calls_step @all_calls_lift @all_calls_bind. Qed.

Lemma push_unacked_keeps_ledger seq : all_calls keeps_ledger (Esme.push_unacked seq).
Proof. unfold Esme.push_unacked, Esme.get_unacked_count. repeat calls_step @all_calls_lift @all_calls_bind. Qed.

Lemma submit_one_keeps_ledger self params :
  all_calls keeps_ledger (Esme._submit_sm self params).
Proof.
  unfold Esme._submit_sm.
  apply all_calls_bind; [apply get_next_seq_keeps_ledger | intros seq].
  apply all_calls_bind; [apply all_calls_lift | intros message].
  unfold Py.dict_pop. cbv beta iota zeta.
  apply all_calls_bind; [repeat calls_step @all_calls_lift @all_calls_bind | intros pdu1].
  apply all_calls_bind; [repeat calls_step @all_calls_lift @all_calls_bind | intros pdu2].
  apply all_calls_bind; [repeat calls_step @all_calls_lift @all_calls_bind | intros pdu3].
  apply all_calls_bind; [apply send_pdu_keeps_ledger | intros _].
  apply all_calls_bind; [apply push_unacked_keeps_ledger | intros _].
  exact I.
Qed.

Lemma sar_loop_keeps_ledger self pdu_params ref_num total msgs :
  ∀ i acc, all_calls keeps_ledger (Esme.sar_loop self pdu_params ref_num total i msgs acc).
Proof.
  induction msgs as [|m msgs IH]; intros i acc; [exact I|].
  cbn [Esme.sar_loop]. cbv zeta.
  apply all_calls_bind; [apply submit_one_keeps_ledger | intros seq]. apply IH.
Qed.

Lemma udh_loop_keeps_ledger self pdu_params ref_num total msgs :
  ∀ i acc, all_calls keeps_ledger (Esme.udh_loop self pdu_params ref_num total i msgs acc).
Proof.
  induction msgs as [|m msgs IH]; intros i acc; [exact I|].
  cbn [Esme.udh_loop]. cbv zeta.
  apply all_calls_bind; [apply all_calls_lift | intros header].
  apply all_calls_bind; [apply submit_one_keeps_ledger | intros seq]. apply IH.
Qed.

Lemma submit_sm_keeps_ledger self kwargs :
  all_calls keeps_ledger (Esme.submit_sm self kwargs).
Proof.
  unfold Esme.submit_sm.
  destruct (negb _); [repeat calls_step @all_calls_lift @all_calls_bind|]. cbv zeta.
  apply all_calls_bind; [apply all_calls_lift | intros message].
  apply all_calls_bind; [apply all_calls_lift | intros n].
  destruct (_ && _).
  { apply all_calls_bind; [|intros; exact I].
    unfold Esme._submit_multipart_sar.
    apply all_calls_bind; [apply all_calls_lift | intros message'].
    cbv zeta. apply all_calls_bind; [apply all_calls_lift | intros split_msg].
    apply all_calls_bind; [repeat calls_step @all_calls_lift @all_calls_bind | intros ref_num].
    apply sar_loop_keeps_ledger. }
  destruct (_ && _).
  { apply all_calls_bind; [|intros; exact I].
    unfold Esme._submit_multipart_udh.
    apply all_calls_bind; [apply all_calls_lift | intros message'].
    cbv zeta. apply all_calls_bind; [apply all_calls_lift | intros split_msg].
    apply all_calls_bind; [repeat calls_step @all_calls_lift @all_calls_bind | intros ref_num].
    apply udh_loop_keeps_ledger. }
  apply all_calls_bind; [apply submit_one_keeps_ledger | intros; exact I].
Qed.

End LedgerCalls.

Section LedgerStore.

Lemma unacked_step (c : Call) (w : World) :
  keeps_ledger c →
  unacked (world_h c w).2
  = match c with
    | redis_lpush key value =>
        if String.eqb key "unacked" then value :: unacked w else unacked w
    | _ => unacked w
    end.
Proof.
  intros Hc. unfold unacked. destruct c; cbn in Hc |- *; try done.
  - unfold Redis.incr. by destruct (ints (store w) !! key) as [[v t]|].
  - unfold Redis.setnx. by destruct (ints (store w) !! key).
  - unfold Redis.expire. by destruct (ints (store w) !! key) as [[v t]|].
  - by rewrite lookup_delete_ne.
  - destruct (String.eqb_spec key "unacked") as [->|Hne].
    + by rewrite lookup_insert_eq.
    + by rewrite lookup_insert_ne.
  - unfold Redis.lpop. destruct (default [] (lists (store w) !! key)); [done|].
    cbn. by rewrite lookup_insert_ne.
Qed.

Lemma written_step (c : Call) (w : World) :
  written (world_h c w).2
  = match c with
    | transport_write pdu => written w ++ [pdu]
    | _ => written w
    end.
Proof.
  destruct c; cbn; try done.
  - unfold Redis.incr. by destruct (ints (store w) !! key) as [[v t]|].
  - unfold Redis.setnx. by destruct (ints (store w) !! key).
  - unfold Redis.lpop. by destruct (default [] (lists (store w) !! key)).
Qed.

(** On the store, a coroutine that takes nothing off the ledger leaves
    it with what it has pushed, last first, in front of what was there;
    and the transport has been given what was written, in order. *)
Lemma run_world_ledger {A} (p : Prog A) :
  all_calls keeps_ledger p →
  ∀ w, unacked (final world_h p w) = rev (pushed (trace world_h p w)) ++ unacked w
       ∧ written (final world_h p w) = written w ++ sent_pdus (trace world_h p w).
Proof.
  unfold final, trace.
  induction p as [a | e | c k IH]; intros Hp w.
  - cbn. by rewrite app_nil_r.
  - cbn. by rewrite app_nil_r.
  - destruct Hp as [Hc Hk]. cbn [run].
    pose proof (unacked_step c w Hc) as Hu. pose proof (written_step c w) as Hw.
    destruct (world_h c w) as [r w1]. cbn [snd] in Hu, Hw.
    destruct (IH r (Hk r) w1) as [IHu IHw].
    destruct (run world_h (k r) w1) as [[o w2] tr]. cbn [fst snd] in *.
    rewrite IHu, IHw, Hu, Hw. unfold pushed, sent_pdus. cbn [omap ev_call fst].
    destruct c; cbn; try done.
    + destruct (String.eqb key "unacked"); [|done].
      cbn. by rewrite <- app_assoc.
    + by rewrite <- app_assoc.
Qed.

End LedgerStore.

(** The unacked ledger and the transport after [submit_sm], on the store.
    Whatever the state and the parameters, and however the call ends, the
    ledger afterwards is what the call pushed, last first, in front of what
    was there, and the transport has been given the PDUs written, in order.
    When the call returns a list of sequence numbers, the ledger has grown
    by exactly these numbers, the last at the head, they are the sequence
    numbers of the PDUs given to the transport, and LLEN would answer the
    earlier length plus their number. *)
Theorem submit_sm_ledger (self : EsmeTransceiver) (kwargs : gmap string Py.PyVal)
    (w : World) :
  let w' := final world_h (Esme.submit_sm self kwargs) w in
  let tr := trace world_h (Esme.submit_sm self kwargs) w in
  unacked w' = rev (pushed tr) ++ unacked w
  ∧ written w' = written w ++ sent_pdus tr
  ∧ match outcome world_h (Esme.submit_sm self kwargs) w with
    | Returned (ret_list sequence_numbers) =>
        unacked w' = rev sequence_numbers ++ unacked w
        ∧ map sequence_number (sent_pdus tr) = sequence_numbers
        ∧ Redis.llen "unacked" (store w')
          = Redis.llen "unacked" (store w) + Z.of_nat (length sequence_numbers)
    | Returned (ret_int _) => unacked w' = unacked w ∧ written w' = written w
    | Raised _ => unacked w' = unacked w ∧ written w' = written w
    end.
Proof.
  cbv zeta.
  destruct (run_world_ledger (Esme.submit_sm self kwargs)
              (submit_sm_keeps_ledger self kwargs) w) as [Hu Hw].
  split; [done|]. split; [done|].
  destruct (run_submit_sm_outcomes world_h self kwargs w) as (o & w' & tr & Hrun & Ho).
  unfold outcome, final, trace in *. rewrite Hrun in *. cbn [fst snd] in *.
  destruct o as [[n|l]|e].
  - destruct Ho as (Hs & Hp & _). rewrite Hu, Hw, Hs, Hp. cbn. by rewrite app_nil_r.
  - destruct Ho as [Hl Hsn]. rewrite <- Hl in Hu. split; [done|]. split; [done|].
    unfold Redis.llen. fold (unacked w') (unacked w).
    rewrite Hu, length_app, length_rev. lia.
  - destruct Ho as (Hs & Hp & _). rewrite Hu, Hw, Hs, Hp. cbn. by rewrite app_nil_r.
Qed.

Section Acknowledge.

Lemma with_engine_same (o : Outside) : with_engine o (engine o) = o.
Proof. by destruct o. Qed.

Lemma run_core_outside {A} (p : Prog A) (o : Outside) :
  run (core_h outside_h) p o
  = let '(out, w', tr) := run world_h p (engine o) in (out, with_engine o w', tr).
Proof.
  revert o. induction p as [a | e | c k IH]; intros o.
  - cbn. by rewrite with_engine_same.
  - cbn. by rewrite with_engine_same.
  - cbn [run]. unfold core_h at 1. cbn [outside_h].
    destruct (world_h c (engine o)) as [r w1]. rewrite IH. cbn [engine with_engine].
    by destruct (run world_h (k r) w1) as [[out w2] tr].
Qed.

Lemma pop_unacked_tail (w : World) :
  ∃ w' tr, run world_h Esme.pop_unacked w = (Returned tt, w', tr)
           ∧ unacked w' = tl (unacked w)
           ∧ written w' = written w.
Proof.
  unfold Esme.pop_unacked, Esme.get_unacked_count, unacked.
  cbn -[Redis.lpop Redis.llen]. unfold Redis.lpop.
  destruct (default [] (lists (store w) !! "unacked")) as [|x l] eqn:Hl.
  - eexists _, _. split; [reflexivity|]. cbn. by rewrite Hl.
  - eexists _, _. split; [reflexivity|]. cbn. by rewrite lookup_insert_eq.
Qed.

Lemma run_acknowledge (self : Protocol) (responses : list PDU) :
  ∀ o, ∃ o' tr,
    run_task outside_h (acknowledge self responses) o = (Returned self, o', tr)
    ∧ unacked (engine o') = drop (length responses) (unacked (engine o))
    ∧ written (engine o') = written (engine o)
    ∧ called_back o' = called_back o ++ map callback_of responses.
Proof.
  induction responses as [|pdu responses IH]; intros o.
  - exists o, []. by rewrite app_nil_r.
  - cbn [acknowledge]. rewrite run_task_bind.
    unfold Session.handle_submit_sm_resp at 1. rewrite run_task_bind, run_task_embed.
    rewrite run_core_outside.
    destruct (pop_unacked_tail (engine o)) as (w1 & tr1 & -> & Hu & Hw).
    cbn [mbind Task_bind task_bind ask run_task outside_h mret Task_ret].
    set (o1 := mkOutside _ _ _ _ _ _ _).
    destruct (IH o1) as (o2 & tr2 & -> & Hu2 & Hw2 & Hc2).
    eexists _, _. split; [reflexivity|].
    subst o1. cbn [engine called_back with_engine] in *.
    rewrite Hu2, Hw2, Hc2, Hu, Hw. fold (callback_of pdu).
    split; [|split; [done|by rewrite <- app_assoc]].
    cbn [length]. destruct (unacked (engine o)); [|done].
    cbn [tail]. by rewrite !drop_nil.
Qed.

End Acknowledge.

(** Responses and the ledger, on the store.  Each [submit_sm_resp] that is
    handled takes the head off the unacked ledger, whatever sequence number
    and status the response carries, and passes the response on to the
    [submit_sm_resp] callback with its [message_id], or None when it has
    none; nothing is written to the transport.  So when [submit_sm] has
    returned a list of sequence numbers and as many responses have been
    handled, the ledger is again what it was before the call. *)
Theorem submit_sm_resp_balance (self : Protocol) (kwargs : gmap string Py.PyVal)
    (responses : list PDU) (o : Outside) :
  ∃ o1 tr1 o2 tr2 out,
    run_task outside_h (embed (Esme.submit_sm (esme self) kwargs)) o = (out, o1, tr1)
    ∧ run_task outside_h (acknowledge self responses) o1 = (Returned self, o2, tr2)
    ∧ unacked (engine o2) = drop (length responses) (unacked (engine o1))
    ∧ written (engine o2) = written (engine o1)
    ∧ called_back o2 = called_back o1 ++ map callback_of responses
    ∧ ∀ sequence_numbers,
        out = Returned (ret_list sequence_numbers) →
        length responses = length sequence_numbers →
        unacked (engine o1) = rev sequence_numbers ++ unacked (engine o)
        ∧ unacked (engine o2) = unacked (engine o).
Proof.
  rewrite run_task_embed, run_core_outside.
  destruct (run_world_ledger (Esme.submit_sm (esme self) kwargs)
              (submit_sm_keeps_ledger (esme self) kwargs) (engine o)) as [Hu _].
  destruct (run_submit_sm_outcomes world_h (esme self) kwargs (engine o))
    as (out & w1 & tr & Hrun & Ho).
  unfold final, trace in Hu. rewrite Hrun in *. cbn [fst snd] in Hu.
  destruct (run_acknowledge self responses (with_engine o w1))
    as (o2 & tr2 & Hack & Hu2 & Hw2 & Hc2).
  eexists _, _, o2, tr2, out. split; [reflexivity|]. split; [exact Hack|].
  split; [exact Hu2|]. split; [exact Hw2|]. split; [exact Hc2|].
  intros l -> Hlen. destruct Ho as [Hl _]. rewrite <- Hl in Hu.
  cbn [engine with_engine] in *. split; [done|].
  rewrite Hu2, Hu, Hlen, <- length_rev. by rewrite drop_app_length.
Qed.

Section SessionInfo.

Lemma parse_unsigned_hex_string s :
  hex_string s → Py.parse_unsigned s = Py.Ok (hex_value s 0).
Proof.
  intros [Hne H]. destruct s as [|c s]; [done|].
  unfold Py.parse_unsigned. rewrite skip_prefix_hex by done.
  by rewrite read_digits_hex.
Qed.

(** ["%04x"] and [int(_, 16)] agree on every integer, negative ones
    included. *)
Lemma int16_fmt_04x_any v : Py.int16 (Py.fmt_04x v) = Py.Ok v.
Proof.
  destruct (Z.ltb_spec v 0) as [Hneg|Hpos]; [|by apply int16_fmt_04x].
  unfold Py.fmt_04x. rewrite (proj2 (Z.ltb_lt v 0) Hneg).
  set (t := Py.zfill 3 (Py.hex (- v))).
  assert (Ht : hex_string t).
  { split.
    - intros E. pose proof (length_zfill 3 (Py.hex (- v))) as Hl.
      fold t in Hl. rewrite E in Hl. cbn in Hl. lia.
    - eapply all_chars_impl; [apply lower_is_hexdigit|].
      apply zeros_lower. unfold Py.hex. by apply hex_digits_lower. }
  assert (Hv : hex_value t 0 = - v).
  { subst t. unfold Py.zfill. rewrite hex_value_zeros, hex_value_hex; lia. }
  unfold Py.int16. cbn [Py.lstrip]. change (Py.is_space "-") with false. cbv iota.
  rewrite parse_unsigned_hex_string by done. cbn [Py.rbind]. rewrite Hv. f_equal. lia.
Qed.

Lemma update_ussd_pdu_eq (sm_pdu : PDU) (continue_session session_info : Py.PyVal) :
  update_ussd_pdu sm_pdu continue_session session_info
  = Py.rbind (session_number session_info) (λ n,
      Py.Ok (annotated sm_pdu
               (Py.fmt_04x (n + (if Py.truthy continue_session then 0 else 1))))).
Proof.
  unfold update_ussd_pdu, session_number, annotated. cbv zeta.
  assert (H0 : Py.int16 "0000" = Py.Ok 0) by reflexivity.
  destruct session_info as [| | |s|]; try done.
  - rewrite H0. cbn [Py.rbind]. unfold Builder.add_optional_parameter. cbn.
    rewrite <- app_assoc. by destruct (Py.truthy continue_session).
  - destruct (Py.int16 s) as [n|e]; [|done]. cbn [Py.rbind].
    unfold Builder.add_optional_parameter. cbn.
    rewrite <- app_assoc. by destruct (Py.truthy continue_session).
Qed.

End SessionInfo.

(** The session information can be threaded through a USSD dialogue.
    Whenever [update_ussd_pdu] succeeds, on any [session_info] that
    [int(_, 16)] accepts (signed, prefixed or padded ones included), the
    only change to the PDU are the two optional parameters appended, and
    the [its_session_info] written reads back, with [int(_, 16)], as the
    number read plus 0 when the session continues and plus 1 when it ends.
    Given back as [session_info] of a later PDU it is reproduced unchanged
    when the session continues, and stands for the next number when it
    ends.  A [session_info] that is neither None nor a string is a
    [TypeError], and one that is not a number is the error of [int]; in
    both cases no PDU is returned. *)
Theorem update_ussd_pdu_threads (sm_pdu : PDU) (continue_session session_info : Py.PyVal) :
  match session_number session_info with
  | Py.Ok n =>
      let v := n + (if Py.truthy continue_session then 0 else 1) in
      update_ussd_pdu sm_pdu continue_session session_info
      = Py.Ok (annotated sm_pdu (Py.fmt_04x v))
      ∧ Py.int16 (Py.fmt_04x v) = Py.Ok v
      ∧ ∀ later : PDU,
          update_ussd_pdu later (Py.VBool true) (Py.VStr (Py.fmt_04x v))
          = Py.Ok (annotated later (Py.fmt_04x v))
          ∧ update_ussd_pdu later (Py.VBool false) (Py.VStr (Py.fmt_04x v))
            = Py.Ok (annotated later (Py.fmt_04x (v + 1)))
  | Py.Err e => update_ussd_pdu sm_pdu continue_session session_info = Py.Err e
  end.
Proof.
  rewrite update_ussd_pdu_eq.
  destruct (session_number session_info) as [n|e]; [|done].
  cbv zeta. cbn [Py.rbind]. split; [done|]. split; [apply int16_fmt_04x_any|].
  intros later. rewrite !update_ussd_pdu_eq. cbn [session_number].
  rewrite int16_fmt_04x_any. cbn [Py.rbind Py.truthy]. by rewrite Z.add_0_r.
Qed.
